(** * The XCCDF rule-validation engine of [library/excel_validator.py],
      and the other modules of the library

    A shallow embedding of the class [ExcelValidator] and of the parts of the
    Python standard library its methods call, followed by the properties of
    the validation core. The request builder of
    [library/generate_xccdf_report.py], the environment backend and the
    dispatch of [library/credential_manager.py] and the line filter of
    [library/format_xml.py] are embedded after it, with their properties at
    the end.

    Conventions of the embedding.
    - A Python [str] is a [string] of ASCII code points: the embedding
      speaks of ASCII text. [str.upper], [str.lower], [str.strip], [int]
      and the regular-expression class [\s] follow CPython there. The two
      signs of the verdict messages are kept as their UTF-8 bytes, and
      the module [Unicode] reads the text of a result element as code
      points where a property needs a character beyond ASCII.
    - A Python [int] is a [Z].
    - An exception is a value of [exn]; a computation that may raise returns
      a [result].
    - The report text given to [validate_xccdf_report] is represented by what
      [ET.fromstring] makes of it: an element tree, or a parse error.
    - A CSV file is represented by the rows [csv.reader] yields for it, a
      worksheet by its rows of cell values (numeric cells are integers).
    - A JSON template is represented by the value [json.load] makes of it,
      the environment of the process by the function [os.getenv], the files
      by the text at each path.
    - What the embedding leaves to a library is a variable of a section:
      the digits of a rate, the text of a list or dictionary, the backends
      that call a service, the XML printer. *)

From Stdlib Require Import String Ascii List ZArith NArith Lia Bool Arith.
From Stdlib Require Import DecimalString DecimalPos DecimalZ.
Import ListNotations.
Open Scope string_scope.

(* ===================================================================== *)
(** * Exceptions and results *)

(** The exceptions the modelled code raises. The message of an exception
    of the validator is its text; the message of an exception of a library
    is kept without the values the library formats into it, and a
    [KeyError] carries the argument it was raised with: the key of a
    dictionary lookup, the message of a workbook lookup. *)
Inductive exn : Type :=
| FileNotFoundError (msg : string)
| ValueError (msg : string)
| KeyError (key : string)
| SyntaxError (msg : string)
| TypeError
| AttributeError
| IndexError
| ParseError
| ZeroDivisionError.

Inductive result (A : Type) : Type :=
| Ok (a : A)
| Raise (e : exn).
Arguments Ok {A} a.
Arguments Raise {A} e.

Definition bind {A B : Type} (r : result A) (k : A -> result B) : result B :=
  match r with
  | Ok a => k a
  | Raise e => Raise e
  end.

Declare Scope result_scope.
Delimit Scope result_scope with result.
Notation "x <- c1 ;; c2" := (bind c1 (fun x => c2))
  (at level 61, c1 at next level, right associativity) : result_scope.
Open Scope result_scope.

(* ===================================================================== *)
(** * Python built-ins on strings and integers *)

Module Py.

Definition code (c : ascii) : N := N_of_ascii c.

Definition between (lo hi : N) (c : ascii) : bool :=
  ((lo <=? code c) && (code c <=? hi))%N.

(** [str.isspace] on one ASCII character: TAB..CR, FS..US and the space. *)
Definition isspace (c : ascii) : bool := between 9 13 c || between 28 32 c.

Definition isdigit (c : ascii) : bool := between 48 57 c.

Definition upper_char (c : ascii) : ascii :=
  if between 97 122 c then ascii_of_N (code c - 32) else c.

Definition lower_char (c : ascii) : ascii :=
  if between 65 90 c then ascii_of_N (code c + 32) else c.

Fixpoint map_str (f : ascii -> ascii) (s : string) : string :=
  match s with
  | EmptyString => EmptyString
  | String c s' => String (f c) (map_str f s')
  end.

(** [str.upper] and [str.lower] of ASCII text: the 26 letters change, every
    other character stays. Text with a character above U+007F is outside
    the embedding: [str] also maps letters there, and a few of them to
    ASCII ones. *)
Definition upper (s : string) : string := map_str upper_char s.
Definition lower (s : string) : string := map_str lower_char s.

Fixpoint lstrip (s : string) : string :=
  match s with
  | String c s' => if isspace c then lstrip s' else s
  | EmptyString => EmptyString
  end.

Fixpoint rstrip (s : string) : string :=
  match s with
  | EmptyString => EmptyString
  | String c s' =>
      match rstrip s' with
      | EmptyString => if isspace c then EmptyString else String c EmptyString
      | r => String c r
      end
  end.

Definition strip (s : string) : string := rstrip (lstrip s).

(** [c in s] for a one-character [c]. *)
Fixpoint contains (c : ascii) (s : string) : bool :=
  match s with
  | EmptyString => false
  | String d s' => Ascii.eqb d c || contains c s'
  end.

(** [s[:n]] and [s[n:]] for [n >= 0]. *)
Fixpoint take (n : nat) (s : string) : string :=
  match n, s with
  | S n', String c s' => String c (take n' s')
  | _, _ => EmptyString
  end.

Fixpoint drop (n : nat) (s : string) : string :=
  match n, s with
  | S n', String _ s' => drop n' s'
  | _, _ => s
  end.

(** [s[-n:]] for [n >= 1]. *)
Definition take_last (n : nat) (s : string) : string :=
  drop (String.length s - n) s.

Definition startswith (p s : string) : bool := take (String.length p) s =? p.
Definition endswith (p s : string) : bool := take_last (String.length p) s =? p.

Fixpoint repeat_char (c : ascii) (n : nat) : string :=
  match n with
  | O => EmptyString
  | S n' => String c (repeat_char c n')
  end.

(** The format specification [:<n]. *)
Definition ljust (n : nat) (s : string) : string :=
  s ++ repeat_char " " (n - String.length s).

Definition digit_val (c : ascii) : Z := Z.of_N (code c) - 48.

(** The digits of [int(s)]: decimal digits, single underscores allowed
    between two digits. *)
Fixpoint parse_digits (acc : Z) (after_digit : bool) (s : string) : option Z :=
  match s with
  | EmptyString => if after_digit then Some acc else None
  | String c s' =>
      if isdigit c then parse_digits (10 * acc + digit_val c) true s'
      else if Ascii.eqb c "_" && after_digit then parse_digits acc false s'
      else None
  end.

(** The whitespace [int] skips around a literal of ASCII text: TAB..CR and
    the space. FS..US are whitespace for [str.isspace] and [str.strip], and
    not for [int]. *)
Definition isspace_c (c : ascii) : bool := between 9 13 c || Ascii.eqb c " ".

Fixpoint lskip (s : string) : string :=
  match s with
  | String c s' => if isspace_c c then lskip s' else s
  | EmptyString => EmptyString
  end.

Fixpoint rskip (s : string) : string :=
  match s with
  | EmptyString => EmptyString
  | String c s' =>
      match rskip s' with
      | EmptyString => if isspace_c c then EmptyString else String c EmptyString
      | r => String c r
      end
  end.

(** [int(s)] for a string: surrounding whitespace, an optional sign, the
    digits. [None] stands for the [ValueError]. *)
Definition int_of_str (s : string) : option Z :=
  match rskip (lskip s) with
  | String "-" d => option_map Z.opp (parse_digits 0 false d)
  | String "+" d => parse_digits 0 false d
  | d => parse_digits 0 false d
  end.

(** [str(n)] for an integer: its decimal digits, after a minus sign for a
    negative one. *)
Definition str_of_int (z : Z) : string :=
  NilZero.string_of_int (Z.to_int z).

End Py.

(* ===================================================================== *)
(** * xml.etree.ElementTree: elements *)

Module ET.

(** An element: tag (Clark notation, [{uri}local]), attributes, text, tail
    and children. [text] and [tail] are [None] when the element carries no
    character data there. *)
#[warning="-register-all"]
Inductive Element : Type :=
  mkElement (tag : string) (attrib : list (string * string))
            (text tail : option string) (children : list Element).

Definition tag (e : Element) : string := let (t, _, _, _, _) := e in t.
Definition attrib (e : Element) : list (string * string) :=
  let (_, a, _, _, _) := e in a.
Definition text (e : Element) : option string := let (_, _, t, _, _) := e in t.
Definition tail (e : Element) : option string := let (_, _, _, t, _) := e in t.
Definition children (e : Element) : list Element :=
  let (_, _, _, _, c) := e in c.

(** [elem.get(key)] *)
Fixpoint get (a : list (string * string)) (key : string) : option string :=
  match a with
  | [] => None
  | (k, v) :: a' => if k =? key then Some v else get a' key
  end.

(** The outcome of [ET.fromstring] on a report text. *)
Inductive document : Type :=
| WellFormed (root : Element)
| NotWellFormed.

Definition fromstring (xml_content : document) : result Element :=
  match xml_content with
  | WellFormed root => Ok root
  | NotWellFormed => Raise ParseError
  end.

(** An element of the tree under a context root is identified by its
    position: the child indices on the way up to the root (innermost
    first), so that the parent's position is the tail. *)
Definition position : Type := list nat.
Definition node : Type := (position * Element)%type.

Fixpoint number_from {A : Type} (i : nat) (l : list A) : list (nat * A) :=
  match l with
  | [] => []
  | x :: l' => (i, x) :: number_from (S i) l'
  end.

Definition child_nodes (n : node) : list node :=
  map (fun ie => (fst ie :: fst n, snd ie)) (number_from 0 (children (snd n))).

(** [elem.iter()]: the element and its descendants in document order. *)
Fixpoint iter_from (p : position) (e : Element) {struct e} : list node :=
  (p, e) ::
  (let fix go (i : nat) (cs : list Element) {struct cs} : list node :=
     match cs with
     | [] => []
     | c :: cs' => (iter_from (i :: p) c ++ go (S i) cs')%list
     end
   in go 0 (children e)).

Definition iter (n : node) : list node := iter_from (fst n) (snd n).

(** The proper descendants: [e in elem.iter() if e is not elem]. *)
Definition descendants (n : node) : list node := List.tl (iter n).

(** [elem.itertext()] joined. *)
Fixpoint itertext (e : Element) {struct e} : string :=
  match text e with Some t => t | None => "" end ++
  (let fix go (cs : list Element) {struct cs} : string :=
     match cs with
     | [] => ""
     | c :: cs' =>
         itertext c ++ match tail c with Some t => t | None => "" end ++ go cs'
     end
   in go (children e)).

(** The element at a position given from the root downwards. *)
Fixpoint descend (e : Element) (path : list nat) : option Element :=
  match path with
  | [] => Some e
  | i :: path' =>
      match nth_error (children e) i with
      | Some c => descend c path'
      | None => None
      end
  end.

Definition at_position (root : Element) (p : position) : option Element :=
  descend root (rev p).

End ET.

(* ===================================================================== *)
(** * xml.etree.ElementPath: the path language behind [Element.find] *)

(** [Element.find] hands a path over to this module when it holds one of
    the characters [/ * [ @ .] outside braces or starts with a wildcard
    namespace, which both paths of the validator do. The module is modelled
    whole, since the rule identifier the validator puts into its path may
    hold any character: tokenizer, compile loop and selectors. *)

Module ElementPath.
Import ET.

(** A token is the pair of the two groups of [xpath_tokenizer_re]. *)
Definition token : Type := (string * string)%type.

Definition squote : ascii := "039"%char.
Definition dquote : ascii := "034"%char.

Fixpoint span (p : ascii -> bool) (s : string) : string :=
  match s with
  | String c s' => if p c then String c (span p s') else EmptyString
  | EmptyString => EmptyString
  end.

(** The text before the first occurrence of [q]. *)
Fixpoint upto (q : ascii) (s : string) : option string :=
  match s with
  | EmptyString => None
  | String c s' =>
      if Ascii.eqb c q then Some EmptyString
      else option_map (String c) (upto q s')
  end.

(** Each alternative of the regular expression, tried at the start of [s]:
    the token it yields and the number of characters it consumes. *)
Definition alternative : Type := string -> option (token * nat).

(** A quoted string: the quote, anything but the quote, the quote. *)
Definition quoted (q : ascii) : alternative := fun s =>
  match s with
  | String c s' =>
      if Ascii.eqb c q then
        match upto q s' with
        | Some body =>
            Some ((String q (body ++ String q EmptyString), ""),
                  String.length body + 2)
        | None => None
        end
      else None
  | EmptyString => None
  end.

Definition literal (lit : string) : alternative := fun s =>
  if Py.startswith lit s then Some ((lit, ""), String.length lit) else None.

(** [[/.*:\[\]\(\)@=]] *)
Definition punctuation : alternative := fun s =>
  match s with
  | String c _ =>
      if Py.contains c "/.*:[]()@=" then Some ((String c EmptyString, ""), 1)
      else None
  | EmptyString => None
  end.

(** [[^/\[\]\(\)@!=\s]] *)
Definition name_char (c : ascii) : bool :=
  negb (Py.contains c "/[]()@!=" || Py.isspace c).

(** [((?:\{[^}]+\})?[^/\[\]\(\)@!=\s]+)]: a name, after an optional
    [{namespace}]; when no name follows the closing brace the optional part
    is given up. *)
Definition name : alternative := fun s =>
  let plain :=
    match span name_char s with
    | EmptyString => None
    | n => Some (("", n), String.length n)
    end in
  match s with
  | String "{" s' =>
      match upto "}" s' with
      | Some (String c ns') =>
          let ns := String c ns' in
          match span name_char (Py.drop (S (String.length ns)) s') with
          | EmptyString => plain
          | n =>
              let t := String "{" (ns ++ String "}" n) in
              Some (("", t), String.length t)
          end
      | _ => plain
      end
  | _ => plain
  end.

(** [\s+] *)
Definition whitespace : alternative := fun s =>
  match span Py.isspace s with
  | EmptyString => None
  | w => Some (("", ""), String.length w)
  end.

Fixpoint first_match (alts : list alternative) (s : string)
  : option (token * nat) :=
  match alts with
  | [] => None
  | a :: alts' =>
      match a s with
      | Some r => Some r
      | None => first_match alts' s
      end
  end.

Definition xpath_tokenizer_re : list alternative :=
  [ quoted squote; quoted dquote; literal "::"; literal "//"; literal "/";
    literal ".."; literal "()"; literal "!="; punctuation; name; whitespace ].

(** [xpath_tokenizer_re.findall(pattern)]: the matches from left to right;
    [skip] counts the characters of the current match still to be passed,
    and a character at which nothing matches is passed over. *)
Fixpoint findall (skip : nat) (s : string) : list token :=
  match s with
  | EmptyString => []
  | String _ s' =>
      match skip with
      | S k => findall k s'
      | O =>
          match first_match xpath_tokenizer_re s with
          | Some (t, n) => t :: findall (Nat.pred n) s'
          | None => findall 0 s'
          end
      end
  end.

(** [xpath_tokenizer(pattern)] without a namespace map: the tokens, a name
    with a prefix raising [SyntaxError] when the generator reaches it. *)
Definition check_prefix (t : token) : result token :=
  match snd t with
  | String c _ =>
      if negb (Ascii.eqb c "{") && Py.contains ":" (snd t)
      then Raise (SyntaxError "prefix not found in prefix map")
      else Ok t
  | EmptyString => Ok t
  end.

Definition stream : Type := list (result token).

Definition xpath_tokenizer (pattern : string) : stream :=
  map check_prefix (findall 0 pattern).

(** The selectors the [prepare_*] functions build. [NoSelector] is the
    [None] a prepare function returns when the tokens run out. *)
Inductive selector : Type :=
| Child (tag : string)
| Star
| Self
| Parent
| Descendant (tag : string)
| HasAttr (key : string)
| AttrEq (key value : string)
| AttrNe (key value : string)
| HasChild (tag : string)
| TextEq (tag value : string)
| TextNe (tag value : string)
| Index (index : Z)
| NoSelector.

(** The test [re.match] makes of [predicate[0]]: an optional minus sign and
    decimal digits up to the end. *)
Definition all_digits (s : string) : bool :=
  match s with
  | EmptyString => false
  | _ => String.length (span Py.isdigit s) =? String.length s
  end%nat.

Definition is_integer (s : string) : bool :=
  match s with
  | String "-" d => all_digits d
  | _ => all_digits s
  end.

Definition last_of (l : list string) : string := List.last l "".

(** The second half of [prepare_predicate]: the predicate type is read off
    the signature. *)
Definition predicate_selector (signature : string) (predicate : list string)
  : result selector :=
  let p0 := nth 0 predicate "" in
  if signature =? "@-" then Ok (HasAttr (nth 1 predicate ""))
  else if signature =? "@-='" then
    Ok (AttrEq (nth 1 predicate "") (last_of predicate))
  else if signature =? "@-!='" then
    Ok (AttrNe (nth 1 predicate "") (last_of predicate))
  else if (signature =? "-") && negb (is_integer p0) then Ok (HasChild p0)
  else if (signature =? ".='")
          || ((signature =? "-='") && negb (is_integer p0)) then
    Ok (TextEq p0 (last_of predicate))
  else if (signature =? ".!='")
          || ((signature =? "-!='") && negb (is_integer p0)) then
    Ok (TextNe p0 (last_of predicate))
  else if signature =? "-" then
    match Py.int_of_str p0 with
    | Some i =>
        if (i - 1 <? 0)%Z
        then Raise (SyntaxError "XPath position >= 1 expected")
        else Ok (Index (i - 1))
    | None => Raise (ValueError "invalid literal for int() with base 10")
    end
  else if (signature =? "-()") || (signature =? "-()-") then
    if negb (p0 =? "last") then Raise (SyntaxError "unsupported function")
    else if signature =? "-()-" then
      match Py.int_of_str (nth 2 predicate "") with
      | Some i =>
          if (i - 1 >? -2)%Z
          then Raise (SyntaxError "XPath offset from last() must be negative")
          else Ok (Index (i - 1))
      | None => Raise (SyntaxError "unsupported expression")
      end
    else Ok (Index (-1))
  else Raise (SyntaxError "invalid predicate").

(** One entry of the signature and of the predicate for a token inside
    [[...]]. *)
Definition predicate_entry (t : token) : string * string :=
  let t' :=
    match fst t with
    | String c _ =>
        if Ascii.eqb c squote || Ascii.eqb c dquote
        then (String squote EmptyString,
              Py.take (String.length (fst t) - 2) (Py.drop 1 (fst t)))
        else t
    | EmptyString => t
    end in
  ((if fst t' =? "" then "-" else fst t'), snd t').

(** What follows a completed step in [iterfind]: the next token, an
    optional [/] before it, or the end of the path. *)
Definition ops (key : string) : bool :=
  existsb (String.eqb key) [""; "*"; "."; ".."; "//"; "["].

(** The compile loop of [iterfind]. [steps ts] is the loop entered with the
    head of [ts] as the current token; the end of the tokens ends the loop. *)
Fixpoint steps (ts : stream) {struct ts} : result (list selector) :=
  match ts with
  | [] => Ok []
  | Raise e :: _ => Raise e
  | Ok (ttype, tag) :: ts1 =>
      (* after a step: the next token, a slash before it being skipped *)
      let after (sel : selector) (tl : result (list selector)) :=
        sels <- tl ;; Ok (sel :: sels) in
      if ttype =? "" then
        after (Child tag)
          match ts1 with
          | Ok ("/", _) :: ts2 => steps ts2
          | _ => steps ts1
          end
      else if ttype =? "*" then
        after Star
          match ts1 with
          | Ok ("/", _) :: ts2 => steps ts2
          | _ => steps ts1
          end
      else if ttype =? "." then
        after Self
          match ts1 with
          | Ok ("/", _) :: ts2 => steps ts2
          | _ => steps ts1
          end
      else if ttype =? ".." then
        after Parent
          match ts1 with
          | Ok ("/", _) :: ts2 => steps ts2
          | _ => steps ts1
          end
      else if ttype =? "//" then
        (* prepare_descendant *)
        match ts1 with
        | [] => Ok [NoSelector]
        | Raise e :: _ => Raise e
        | Ok (ttype2, tag2) :: ts2 =>
            if ttype2 =? "*" then
              after (Descendant "*")
                match ts2 with
                | Ok ("/", _) :: ts3 => steps ts3
                | _ => steps ts2
                end
            else if ttype2 =? "" then
              after (Descendant tag2)
                match ts2 with
                | Ok ("/", _) :: ts3 => steps ts3
                | _ => steps ts2
                end
            else Raise (SyntaxError "invalid descendant")
        end
      else if ttype =? "[" then
        (* prepare_predicate *)
        (fix read (us : stream) (signature predicate : list string)
             {struct us} : result (list selector) :=
           match us with
           | [] => Ok [NoSelector]
           | Raise e :: _ => Raise e
           | Ok t :: us1 =>
               if fst t =? "]" then
                 sel <- predicate_selector (String.concat "" (rev signature))
                                           (rev predicate) ;;
                 after sel
                   match us1 with
                   | Ok ("/", _) :: us2 => steps us2
                   | _ => steps us1
                   end
               else if (fst t =? "") && (snd t =? "") then
                 read us1 signature predicate
               else
                 read us1 (fst (predicate_entry t) :: signature)
                          (snd (predicate_entry t) :: predicate)
           end) ts1 [] []
      else Raise (KeyError ttype)
  end.

(** [_is_wildcard_tag] *)
Definition is_wildcard_tag (tag : string) : bool :=
  (Py.take 3 tag =? "{*}") || (Py.take_last 2 tag =? "}*").

(** [_prepare_tag], for a wildcard tag: the test on an element's tag. *)
Definition prepare_tag (tag : string) (el_tag : string) : bool :=
  if tag =? "{*}*" then true
  else if tag =? "{}*" then negb (Py.startswith "{" el_tag)
  else if Py.take 3 tag =? "{*}" then
    (el_tag =? Py.drop 3 tag) || Py.endswith (Py.drop 2 tag) el_tag
  else if Py.take_last 2 tag =? "}*" then
    Py.startswith (Py.take (String.length tag - 1) tag) el_tag
  else false.

(** The tag test shared by [prepare_child] and [prepare_descendant];
    [star] tells whether a bare [*] selects every element ([Element.iter]
    does, the comparison of [prepare_child] does not). *)
Definition tag_matches (star : bool) (tag : string) (el_tag : string) : bool :=
  if is_wildcard_tag tag then prepare_tag tag el_tag
  else
    let tag' := if Py.take 2 tag =? "{}" then Py.drop 2 tag else tag in
    (star && (tag' =? "*")) || (el_tag =? tag').

(** The children [prepare_child] selects for a tag. The nested searches of
    the predicates, [elem.find(tag)] and [parent.findall(elem.tag)], are
    this selection too: their path is a name, which the tokenizer gives
    back as one token. *)
Definition select_children (tag : string) (n : node) : list node :=
  filter (fun c => tag_matches false tag (ET.tag (snd c))) (child_nodes n).

Definition position_eqb (p q : position) : bool :=
  if list_eq_dec Nat.eq_dec p q then true else false.

(** [prepare_parent]: the parents of the elements, each once. *)
Fixpoint select_parents (root : Element) (seen : list position)
         (result : list node) : list node :=
  match result with
  | [] => []
  | (p, _) :: result' =>
      match p with
      | [] => select_parents root seen result'
      | _ :: pp =>
          if existsb (position_eqb pp) seen
          then select_parents root seen result'
          else
            match at_position root pp with
            | Some e => (pp, e) :: select_parents root (pp :: seen) result'
            | None => select_parents root seen result'
            end
      end
  end.

(** [elems[index] is elem] in the index predicate; an index out of range
    or an element without a parent selects nothing. *)
Definition at_index (root : Element) (index : Z) (n : node) : bool :=
  match fst n with
  | [] => false
  | _ :: pp =>
      match at_position root pp with
      | None => false
      | Some parent =>
          let elems := select_children (ET.tag (snd n)) (pp, parent) in
          let i := if (index <? 0)%Z
                   then (Z.of_nat (List.length elems) + index)%Z
                   else index in
          if (i <? 0)%Z then false
          else
            match nth_error elems (Z.to_nat i) with
            | Some m => position_eqb (fst m) (fst n)
            | None => false
            end
      end
  end.

(** What one selector makes of the elements selected so far. *)
Definition select (root : Element) (sel : selector) (result : list node)
  : list node :=
  match sel with
  | Child tag => flat_map (select_children tag) result
  | Star => flat_map child_nodes result
  | Self => result
  | Parent => select_parents root [] result
  | Descendant tag =>
      flat_map (fun n => filter (fun d => tag_matches true tag (ET.tag (snd d)))
                                (descendants n)) result
  | HasAttr key =>
      filter (fun n => match get (attrib (snd n)) key with
                       | Some _ => true
                       | None => false
                       end) result
  | AttrEq key value =>
      filter (fun n => match get (attrib (snd n)) key with
                       | Some v => v =? value
                       | None => false
                       end) result
  | AttrNe key value =>
      filter (fun n => match get (attrib (snd n)) key with
                       | Some v => negb (v =? value)
                       | None => false
                       end) result
  | HasChild tag =>
      filter (fun n => match select_children tag n with
                       | [] => false
                       | _ => true
                       end) result
  | TextEq tag value =>
      if tag =? "" then filter (fun n => itertext (snd n) =? value) result
      else filter (fun n => existsb (fun c => itertext (snd c) =? value)
                                    (select_children tag n)) result
  | TextNe tag value =>
      if tag =? "" then
        filter (fun n => negb (itertext (snd n) =? value)) result
      else filter (fun n => existsb (fun c => negb (itertext (snd c) =? value))
                                    (select_children tag n)) result
  | Index index => filter (at_index root index) result
  | NoSelector => result
  end.

Definition is_selector (sel : selector) : bool :=
  match sel with
  | NoSelector => false
  | _ => true
  end.

(** The compiled path: [SyntaxError] for an absolute path, [TypeError] for
    a path without tokens ([iterfind] returns [None] then). *)
Definition compile (path : string) : result (list selector) :=
  let path := if Py.take_last 1 path =? "/" then path ++ "*" else path in
  if Py.take 1 path =? "/"
  then Raise (SyntaxError "cannot use absolute path on element")
  else
    match xpath_tokenizer path with
    | [] => Raise TypeError
    | ts => steps ts
    end.

(** [iterfind(elem, path)], all of it: calling a selector that is [None]
    raises [TypeError]. *)
Definition iterfind (elem : Element) (path : string) : result (list node) :=
  selector <- compile path ;;
  if forallb is_selector selector
  then Ok (fold_left (fun result sel => select elem sel result)
                     selector [([], elem)])
  else Raise TypeError.

(** [find(elem, path)]: the first match, or [None]. *)
Definition find (elem : Element) (path : string) : result (option Element) :=
  result <- iterfind elem path ;;
  Ok (match result with
      | [] => None
      | n :: _ => Some (snd n)
      end).

End ElementPath.

(* ===================================================================== *)
(** * library/excel_validator.py: the data *)

(** A rule, the dictionary [load_rules_from_csv] and
    [load_rules_from_excel] build for one row. *)
Module Rule.
Record t : Type := mk {
  number : Z;
  rule_id : string;
  expected_result : string;
  description : string;
  profile : string
}.
End Rule.

(** A verdict, the dictionary [validate_xccdf_report] builds for one rule. *)
Module Verdict.
Record t : Type := mk {
  number : Z;
  rule_id : string;
  description : string;
  expected : string;
  actual : string;
  status : string;
  message : string
}.
End Verdict.

(** The attributes of an [ExcelValidator] object. *)
Record ExcelValidator : Type := mkExcelValidator {
  rules : list Rule.t;
  all_rules : list Rule.t;
  validation_results : list Verdict.t
}.

(** [__init__] *)
Definition init : ExcelValidator := mkExcelValidator [] [] [].

(** A method: from the object to what the call returns or raises and the
    object afterwards. *)
Definition method (A : Type) : Type := ExcelValidator -> result A * ExcelValidator.

(** A dictionary with string keys, as the assignments made to it in order;
    the last assignment to a key is its value. *)
Fixpoint getitem {V : Type} (d : list (string * V)) (key : string) : option V :=
  match d with
  | [] => None
  | (k, v) :: d' =>
      match getitem d' key with
      | Some v' => Some v'
      | None => if k =? key then Some v else None
      end
  end.

Definition RESULT_MAPPING : list (string * string) :=
  [ ("pass", "COMPLIANT");
    ("fail", "NOT COMPLIANT");
    ("notapplicable", "NOT APPLICABLE");
    ("notchecked", "NOT CHECKED");
    ("notselected", "NOT SELECTED");
    ("informational", "INFORMATIONAL");
    ("error", "ERROR");
    ("unknown", "UNKNOWN");
    ("fixed", "FIXED") ].

Definition nl : string := String "010"%char EmptyString.
(** The check mark and the ballot cross of the messages, in UTF-8. *)
Definition check_mark : string :=
  String "226"%char (String "156"%char (String "147"%char EmptyString)).
Definition ballot_x : string :=
  String "226"%char (String "156"%char (String "151"%char EmptyString)).

(** [profile_filter is None or rule['profile'].upper() == profile_filter.upper()] *)
Definition profile_selected (profile_filter : option string) (rule : Rule.t)
  : bool :=
  match profile_filter with
  | None => true
  | Some f => Py.upper (Rule.profile rule) =? Py.upper f
  end.

(* ===================================================================== *)
(** * load_rules_from_csv *)

Module Csv.

(** The rows [csv.reader] yields for the file, the header row first. *)
Definition file : Type := list (list string).

(** The dictionary [csv.DictReader] makes of a row: the field names zipped
    with the values, the fields a short row lacks set to [None]. (The
    surplus values of a long row go under the key [None], which no string
    key reads.) *)
Definition row_dict (fieldnames row : list string)
  : list (string * option string) :=
  (combine fieldnames (map Some row)
   ++ map (fun k => (k, None)) (skipn (List.length row) fieldnames))%list.

(** [row[key]] followed by a string method: [KeyError] without the column,
    [AttributeError] on the [None] of a short row. *)
Definition field (d : list (string * option string)) (key : string)
  : result string :=
  match getitem d key with
  | None => Raise (KeyError key)
  | Some None => Raise AttributeError
  | Some (Some s) => Ok s
  end.

(** [row.get(key, '')] followed by a string method. *)
Definition field_or_empty (d : list (string * option string)) (key : string)
  : result string :=
  match getitem d key with
  | None => Ok ""
  | Some None => Raise AttributeError
  | Some (Some s) => Ok s
  end.

(** [int(row['NUMBER'])] *)
Definition number_field (d : list (string * option string)) : result Z :=
  match getitem d "NUMBER" with
  | None => Raise (KeyError "NUMBER")
  | Some None => Raise TypeError
  | Some (Some s) =>
      match Py.int_of_str s with
      | Some z => Ok z
      | None => Raise (ValueError "invalid literal for int() with base 10")
      end
  end.

(** The dictionary literal in the body of the loop. *)
Definition rule_of_row (d : list (string * option string)) : result Rule.t :=
  number <- number_field d ;;
  rule_id <- field d "RULE_ID" ;;
  expected_result <- field d "EXPECTED_RESULT" ;;
  description <- field_or_empty d "DESCRIPTION" ;;
  profile <- field_or_empty d "PROFILE" ;;
  Ok (Rule.mk number (Py.strip rule_id) (Py.upper (Py.strip expected_result))
              (Py.strip description) (Py.strip profile)).

(** [for row in reader]: the reader passes over the empty rows. *)
Fixpoint read_rows (fieldnames : list string) (rows : list (list string))
         (profile_filter : option string) (rules : list Rule.t)
  : result (list Rule.t) :=
  match rows with
  | [] => Ok rules
  | [] :: rows' => read_rows fieldnames rows' profile_filter rules
  | row :: rows' =>
      rule <- rule_of_row (row_dict fieldnames row) ;;
      read_rows fieldnames rows' profile_filter
                (if profile_selected profile_filter rule
                 then rules ++ [rule] else rules)%list
  end.

(** The part of the method before the assignments to [self]. *)
Definition read (csv_path : string) (csv_file : option file)
           (profile_filter : option string) : result (list Rule.t) :=
  match csv_file with
  | None => Raise (FileNotFoundError ("CSV file not found: " ++ csv_path))
  | Some [] => Ok []
  | Some (fieldnames :: rows) => read_rows fieldnames rows profile_filter []
  end.

End Csv.

(** [load_rules_from_csv(csv_path, profile_filter)]; [csv_file] is the file
    at [csv_path], [None] when the path does not exist. *)
Definition load_rules_from_csv (csv_path : string) (csv_file : option Csv.file)
           (profile_filter : option string) : method (list Rule.t) :=
  fun self =>
    match Csv.read csv_path csv_file profile_filter with
    | Raise e => (Raise e, self)
    | Ok rules =>
        (Ok rules,
         mkExcelValidator rules
           (match profile_filter with
            | None => rules
            | Some _ => all_rules self
            end)
           (validation_results self))
    end.

(* ===================================================================== *)
(** * load_rules_from_excel *)

Module Excel.

(** The value of a cell. *)
Inductive cell : Type :=
| CNone
| CStr (s : string)
| CInt (z : Z)
| CBool (b : bool).

(** A worksheet: the cells of [sheet[1]] and the rows of
    [sheet.iter_rows(min_row=2, values_only=True)], or a sheet without any
    row. *)
Inductive worksheet : Type :=
| mkWorksheet (row1 : list cell) (data_rows : list (list cell))
| NoRows.

Definition row1 (sheet : worksheet) : list cell :=
  match sheet with
  | mkWorksheet headers _ => headers
  | NoRows => []
  end.

Definition data_rows (sheet : worksheet) : list (list cell) :=
  match sheet with
  | mkWorksheet _ rows => rows
  | NoRows => []
  end.

(** [sheet[1]]: the first of the rows read, which a sheet without rows
    does not have. *)
Definition first_row (sheet : worksheet) : result (list cell) :=
  match sheet with
  | mkWorksheet headers _ => Ok headers
  | NoRows => Raise IndexError
  end.

Record workbook : Type := mkWorkbook {
  sheets : list (string * worksheet);
  active : option worksheet
}.

(** Truth value of a cell value. *)
Definition truthy (c : cell) : bool :=
  match c with
  | CNone => false
  | CStr s => negb (s =? "")
  | CInt z => negb (z =? 0)%Z
  | CBool b => b
  end.

(** [str(value)] *)
Definition str (c : cell) : string :=
  match c with
  | CNone => "None"
  | CStr s => s
  | CInt z => Py.str_of_int z
  | CBool true => "True"
  | CBool false => "False"
  end.

(** [int(value)] *)
Definition int (c : cell) : result Z :=
  match c with
  | CNone => Raise TypeError
  | CStr s =>
      match Py.int_of_str s with
      | Some z => Ok z
      | None => Raise (ValueError "invalid literal for int() with base 10")
      end
  | CInt z => Ok z
  | CBool b => Ok (if b then 1 else 0)%Z
  end.

(** [header in headers], for a string [header]. *)
Definition has_header (header : string) (headers : list cell) : bool :=
  existsb (fun c => match c with CStr s => s =? header | _ => false end) headers.

(** [dict(zip(headers, row))] read at a string key: the last pair whose
    header is that string. *)
Fixpoint lookup (d : list (cell * cell)) (key : string) : option cell :=
  match d with
  | [] => None
  | (k, v) :: d' =>
      match lookup d' key with
      | Some v' => Some v'
      | None =>
          match k with
          | CStr s => if s =? key then Some v else None
          | _ => None
          end
      end
  end.

Definition item (d : list (cell * cell)) (key : string) : result cell :=
  match lookup d key with
  | Some v => Ok v
  | None => Raise (KeyError key)
  end.

Definition item_or_empty (d : list (cell * cell)) (key : string) : cell :=
  match lookup d key with
  | Some v => v
  | None => CStr ""
  end.

(** The dictionary literal in the body of the loop. *)
Definition rule_of_row (rule_data : list (cell * cell)) : result Rule.t :=
  n <- item rule_data "NUMBER" ;;
  number <- int n ;;
  rule_id <- item rule_data "RULE_ID" ;;
  expected_result <- item rule_data "EXPECTED_RESULT" ;;
  Ok (Rule.mk number (Py.strip (str rule_id))
              (Py.upper (Py.strip (str expected_result)))
              (Py.strip (str (item_or_empty rule_data "DESCRIPTION")))
              (Py.strip (str (item_or_empty rule_data "PROFILE")))).

(** [for row in sheet.iter_rows(...)] *)
Fixpoint read_rows (headers : list cell) (rows : list (list cell))
         (profile_filter : option string) (rules : list Rule.t)
  : result (list Rule.t) :=
  match rows with
  | [] => Ok rules
  | row :: rows' =>
      match row with
      | [] => Raise IndexError
      | c :: _ =>
          if negb (truthy c)
          then read_rows headers rows' profile_filter rules
          else
            rule <- rule_of_row (combine headers row) ;;
            read_rows headers rows' profile_filter
                      (if profile_selected profile_filter rule
                       then rules ++ [rule] else rules)%list
      end
  end.

(** [for header in required_headers: if header not in headers: raise] *)
Fixpoint check_headers (required_headers : list string) (headers : list cell)
  : result unit :=
  match required_headers with
  | [] => Ok tt
  | header :: required' =>
      if negb (has_header header headers)
      then Raise (ValueError ("Missing required header: " ++ header))
      else check_headers required' headers
  end.

(** [workbook[sheet_name] if sheet_name else workbook.active]; the
    workbook raises [KeyError] with its own message for a name it does not
    have, and a workbook without an active sheet gives [None], which
    [sheet[1]] cannot index. *)
Definition select_sheet (wb : workbook) (sheet_name : option string)
  : result worksheet :=
  match sheet_name with
  | Some (String c n) =>
      match find (fun s => fst s =? String c n) (sheets wb) with
      | Some s => Ok (snd s)
      | None =>
          Raise (KeyError ("Worksheet " ++ String c n ++ " does not exist."))
      end
  | _ =>
      match active wb with
      | Some s => Ok s
      | None => Raise TypeError
      end
  end.

(** The part of the method before the assignments to [self]. *)
Definition read (excel_path : string) (excel_file : option workbook)
           (sheet_name profile_filter : option string)
  : result (list Rule.t) :=
  match excel_file with
  | None => Raise (FileNotFoundError ("Excel file not found: " ++ excel_path))
  | Some wb =>
      sheet <- select_sheet wb sheet_name ;;
      headers <- first_row sheet ;;
      _ <- check_headers ["NUMBER"; "RULE_ID"; "EXPECTED_RESULT"] headers ;;
      read_rows headers (data_rows sheet) profile_filter []
  end.

End Excel.

(** [load_rules_from_excel(excel_path, sheet_name, profile_filter)];
    [excel_file] is the workbook at [excel_path], [None] when the path does
    not exist. *)
Definition load_rules_from_excel (excel_path : string)
           (excel_file : option Excel.workbook)
           (sheet_name profile_filter : option string) : method (list Rule.t) :=
  fun self =>
    match Excel.read excel_path excel_file sheet_name profile_filter with
    | Raise e => (Raise e, self)
    | Ok rules =>
        (Ok rules,
         mkExcelValidator rules
           (match profile_filter with
            | None => rules
            | Some _ => all_rules self
            end)
           (validation_results self))
    end.

(* ===================================================================== *)
(** * validate_xccdf_report *)

(** The body of the loop over [self.rules]: the counters and the list of
    results after one more rule. *)
Definition validate_rule (root : ET.Element) (rule : Rule.t)
           (acc : Z * Z * list Verdict.t) : result (Z * Z * list Verdict.t) :=
  let '(passed, failed, results) := acc in
  let rule_id := Rule.rule_id rule in
  let expected := Rule.expected_result rule in
  rule_result <-
    ElementPath.find root (".//{*}rule-result[@idref='" ++ rule_id ++ "']") ;;
  match rule_result with
  | None =>
      Ok (passed, failed + 1,
          results ++ [Verdict.mk (Rule.number rule) rule_id
                                 (Rule.description rule) expected
                                 "NOT FOUND" "FAIL"
                                 "Rule not found in XCCDF report"])%Z%list
  | Some rule_result =>
      result_elem <- ElementPath.find rule_result ".//{*}result" ;;
      actual_result <-
        match result_elem with
        | None => Ok "UNKNOWN"
        | Some result_elem =>
            match ET.text result_elem with
            | None => Raise AttributeError
            | Some text =>
                let xccdf_result := Py.lower text in
                Ok (match getitem RESULT_MAPPING xccdf_result with
                    | Some label => label
                    | None => Py.upper xccdf_result
                    end)
            end
        end ;;
      if actual_result =? expected then
        Ok (passed + 1, failed,
            results ++ [Verdict.mk (Rule.number rule) rule_id
                                   (Rule.description rule) expected
                                   actual_result "PASS"
                                   (check_mark ++ " Match")])%Z%list
      else
        Ok (passed, failed + 1,
            results ++ [Verdict.mk (Rule.number rule) rule_id
                                   (Rule.description rule) expected
                                   actual_result "FAIL"
                                   (ballot_x ++ " Mismatch: Expected "
                                    ++ expected ++ ", Got "
                                    ++ actual_result)])%Z%list
  end.

(** [for rule in self.rules] *)
Fixpoint validate_rules (root : ET.Element) (rules : list Rule.t)
         (acc : Z * Z * list Verdict.t) : result (Z * Z * list Verdict.t) :=
  match rules with
  | [] => Ok acc
  | rule :: rules' =>
      acc' <- validate_rule root rule acc ;;
      validate_rules root rules' acc'
  end.

Definition no_rules_loaded : string :=
  "No rules loaded. Call load_rules_from_csv() or load_rules_from_excel() first.".

(** [validate_xccdf_report(xml_content)] *)
Definition validate_xccdf_report (xml_content : ET.document)
  : method (Z * Z * list Verdict.t) :=
  fun self =>
    match rules self with
    | [] => (Raise (ValueError no_rules_loaded), self)
    | _ =>
        match (root <- ET.fromstring xml_content ;;
               validate_rules root (rules self) (0, 0, [])%Z) with
        | Raise e => (Raise e, self)
        | Ok (passed, failed, results) =>
            (Ok (passed, failed, results),
             mkExcelValidator (rules self) (all_rules self) results)
        end
    end.

(** [get_failed_rules] and [get_passed_rules] *)
Definition get_failed_rules (self : ExcelValidator) : list Verdict.t :=
  filter (fun r => Verdict.status r =? "FAIL") (validation_results self).

Definition get_passed_rules (self : ExcelValidator) : list Verdict.t :=
  filter (fun r => Verdict.status r =? "PASS") (validation_results self).

(* ===================================================================== *)
(** * get_validation_summary *)

Section Summary.

(** The text the format specification [:.1f] gives for [passed/total*100],
    for a [total] other than zero. Floating-point arithmetic is outside the
    embedding, so the digits are left to this function. *)
Variable format_rate : Z -> Z -> string.

(** [f"{(passed/total*100):.1f}"]: the division raises when [total] is
    zero. *)
Definition success_rate (passed total : Z) : result string :=
  if (total =? 0)%Z then Raise ZeroDivisionError
  else Ok (format_rate passed total).

Definition bar (c : ascii) (n : nat) : string := Py.repeat_char c n.

(** One line of the table of results. *)
Definition summary_line (r : Verdict.t) : string :=
  let num := Py.str_of_int (Verdict.number r) in
  let desc := Py.take 30 (Verdict.description r) in
  Py.ljust 4 num ++ " | " ++ Py.ljust 6 (Verdict.status r) ++ " | "
  ++ Py.ljust 15 (Verdict.expected r) ++ " | "
  ++ Py.ljust 15 (Verdict.actual r) ++ " | " ++ Py.ljust 30 desc ++ nl.

Definition get_validation_summary (self : ExcelValidator) : result string :=
  match validation_results self with
  | [] => Ok "No validation results available"
  | results =>
      let total := Z.of_nat (List.length results) in
      let passed :=
        Z.of_nat (List.length
                    (filter (fun r => Verdict.status r =? "PASS") results)) in
      let failed := (total - passed)%Z in
      rate <- success_rate passed total ;;
      Ok (nl ++ bar "=" 80 ++ nl
          ++ "VALIDATION SUMMARY" ++ nl
          ++ bar "=" 80 ++ nl
          ++ "Total Rules: " ++ Py.str_of_int total ++ nl
          ++ "Passed: " ++ Py.str_of_int passed ++ " " ++ check_mark ++ nl
          ++ "Failed: " ++ Py.str_of_int failed ++ " " ++ ballot_x ++ nl
          ++ "Success Rate: " ++ rate ++ "%" ++ nl
          ++ bar "=" 80 ++ nl ++ nl
          ++ Py.ljust 4 "#" ++ " | " ++ Py.ljust 6 "STATUS" ++ " | "
          ++ Py.ljust 15 "EXPECTED" ++ " | " ++ Py.ljust 15 "ACTUAL" ++ " | "
          ++ Py.ljust 30 "DESCRIPTION" ++ nl
          ++ bar "-" 4 ++ "-+-" ++ bar "-" 6 ++ "-+-" ++ bar "-" 15 ++ "-+-"
          ++ bar "-" 15 ++ "-+-" ++ bar "-" 30 ++ nl
          ++ String.concat "" (map summary_line results)
          ++ bar "=" 80 ++ nl)
  end.

End Summary.

(* ===================================================================== *)
(** * Notions the properties are stated with *)

(** The path [validate_xccdf_report] searches the report with. *)
Definition rule_result_path (rule_id : string) : string :=
  ".//{*}rule-result[@idref='" ++ rule_id ++ "']".

(** The element has the given local name, in any namespace or in none. *)
Definition local_name_is (name : string) (e : ET.Element) : bool :=
  (ET.tag e =? name) || Py.endswith (String "}" name) (ET.tag e).

Definition idref_is (rule_id : string) (e : ET.Element) : bool :=
  match ET.get (ET.attrib e) "idref" with
  | Some v => v =? rule_id
  | None => false
  end.

(** The elements below [root], in document order. *)
Definition elements_below (root : ET.Element) : list ET.Element :=
  map snd (ET.descendants ([], root)).

(** The rule-result elements of the report whose [idref] is [rule_id]. *)
Definition rule_results_for (root : ET.Element) (rule_id : string)
  : list ET.Element :=
  filter (idref_is rule_id)
         (filter (local_name_is "rule-result") (elements_below root)).

(** The result elements nested in a rule-result. *)
Definition result_elements (rule_result : ET.Element) : list ET.Element :=
  filter (local_name_is "result") (elements_below rule_result).

(** The status of a verdict is decided by string equality alone. *)
Definition pass_iff_equal (v : Verdict.t) : Prop :=
  Verdict.status v = "PASS" <-> Verdict.actual v = Verdict.expected v.

(** A verdict carries the fields of its rule. *)
Definition verdict_of_rule (rule : Rule.t) (v : Verdict.t) : Prop :=
  Verdict.number v = Rule.number rule /\
  Verdict.rule_id v = Rule.rule_id rule /\
  Verdict.description v = Rule.description rule /\
  Verdict.expected v = Rule.expected_result rule.

Definition count_pass (results : list Verdict.t) : Z :=
  Z.of_nat (List.length (filter (fun r => Verdict.status r =? "PASS") results)).

(** What the search of the report for a rule returns. *)
Definition search (root : ET.Element) (rule : Rule.t)
  : result (option ET.Element) :=
  ElementPath.find root (rule_result_path (Rule.rule_id rule)).

(** How a verdict is graded: a rule without a rule-result fails as
    [NOT FOUND]; a rule with one passes exactly when the actual and the
    expected strings are equal. *)
Definition graded (root : ET.Element) (rule : Rule.t) (v : Verdict.t) : Prop :=
  (search root rule = Ok None /\
   Verdict.actual v = "NOT FOUND" /\ Verdict.status v = "FAIL")
  \/
  ((exists rule_result, search root rule = Ok (Some rule_result)) /\
   ((Verdict.actual v = Verdict.expected v /\ Verdict.status v = "PASS") \/
    (Verdict.actual v <> Verdict.expected v /\ Verdict.status v = "FAIL"))).

(** The status of a verdict under the grading of [validate_xccdf_report]:
    [PASS] exactly when a rule-result was found and the strings are equal,
    [FAIL] otherwise. *)
Definition pass_iff_found_and_equal (root : ET.Element) (rule : Rule.t)
           (v : Verdict.t) : Prop :=
  Verdict.expected v = Rule.expected_result rule /\
  (Verdict.status v = "PASS" \/ Verdict.status v = "FAIL") /\
  (Verdict.status v = "PASS" <->
   (exists rule_result, search root rule = Ok (Some rule_result)) /\
   Verdict.actual v = Verdict.expected v) /\
  (search root rule = Ok None -> Verdict.actual v = "NOT FOUND").


(** The actual result the loop body computes from the text of a result
    element. *)
Definition actual_of_text (text : string) : string :=
  let xccdf_result := Py.lower text in
  match getitem RESULT_MAPPING xccdf_result with
  | Some label => label
  | None => Py.upper xccdf_result
  end.

(** The rows a load makes a rule of: the CSV reader passes over the empty
    rows, the spreadsheet loop over the rows whose first cell is false. *)
Definition csv_row_read (row : list string) : bool :=
  match row with
  | [] => false
  | _ => true
  end.

Definition excel_row_read (row : list Excel.cell) : bool :=
  match row with
  | [] => false
  | c :: _ => Excel.truthy c
  end.

(** The profile of the rule is the filter, letter case apart. *)
Definition profile_is (profile_filter : string) (rule : Rule.t) : bool :=
  Py.upper (Rule.profile rule) =? Py.upper profile_filter.

(** The columns a rule table must have. *)
Definition required_headers : list string :=
  ["NUMBER"; "RULE_ID"; "EXPECTED_RESULT"].

(** [for x in l: ys.append(f(x))], stopping at the first exception. *)
Fixpoint traverse {A B : Type} (f : A -> result B) (l : list A)
  : result (list B) :=
  match l with
  | [] => Ok []
  | x :: l' => y <- f x ;; ys <- traverse f l' ;; Ok (y :: ys)
  end.

(** A word character: a letter, a digit or the underscore. *)
Definition is_word (c : ascii) : bool :=
  Py.between 48 57 c || Py.between 65 90 c || Py.between 97 122 c
  || Ascii.eqb c "_".

Fixpoint all_chars (p : ascii -> bool) (s : string) : bool :=
  match s with
  | EmptyString => true
  | String c s' => p c && all_chars p s'
  end.




(* ===================================================================== *)
(** * Text beyond ASCII *)

(** [str] as its code points, for the text of a result element that holds
    a character beyond ASCII. The case maps are those of [str.lower] and
    [str.upper] at the ASCII code points and at the Kelvin sign (U+212A),
    whose lower case is the ASCII letter [k]; at any other code point they
    are not given, and a text with such a code point has no image. *)
Module Unicode.

Definition str : Type := list N.

Definition kelvin_sign : N := 8490.

Definition of_string (s : string) : str :=
  map Py.code (list_ascii_of_string s).

Definition lower_cp (c : N) : option N :=
  if (c <? 128)%N then
    Some (if ((65 <=? c) && (c <=? 90))%N then (c + 32)%N else c)
  else if (c =? kelvin_sign)%N then Some 107%N
  else None.

Definition upper_cp (c : N) : option N :=
  if (c <? 128)%N then
    Some (if ((97 <=? c) && (c <=? 122))%N then (c - 32)%N else c)
  else if (c =? kelvin_sign)%N then Some kelvin_sign
  else None.

Fixpoint map_cp (f : N -> option N) (s : str) : option str :=
  match s with
  | [] => Some []
  | c :: s' =>
      match f c, map_cp f s' with
      | Some d, Some r => Some (d :: r)
      | _, _ => None
      end
  end.

Definition lower (s : str) : option str := map_cp lower_cp s.
Definition upper (s : str) : option str := map_cp upper_cp s.

(** The text as a key of [RESULT_MAPPING], whose keys are ASCII: a text
    with a code point beyond ASCII is no key of it. *)
Fixpoint to_key (s : str) : option string :=
  match s with
  | [] => Some EmptyString
  | c :: s' =>
      if (c <? 128)%N then option_map (String (ascii_of_N c)) (to_key s')
      else None
  end.

(** [RESULT_MAPPING.get(xccdf_result, xccdf_result.upper())] for
    [xccdf_result = text.lower()]. *)
Definition actual_of_text (text : str) : option str :=
  match lower text with
  | None => None
  | Some xccdf_result =>
      match upper xccdf_result with
      | None => None
      | Some default =>
          match to_key xccdf_result with
          | None => Some default
          | Some key =>
              match getitem RESULT_MAPPING key with
              | Some label => Some (of_string label)
              | None => Some default
              end
          end
      end
  end.

End Unicode.

(* ===================================================================== *)
(** * Notions of the further properties *)

Definition message_for (root : ET.Element) (rule : Rule.t) (v : Verdict.t)
  : Prop :=
  match search root rule with
  | Ok None => Verdict.message v = "Rule not found in XCCDF report"
  | Ok (Some _) =>
      (Verdict.status v = "PASS" /\
       Verdict.message v = check_mark ++ " Match") \/
      (Verdict.status v = "FAIL" /\
       Verdict.message v
       = ballot_x ++ " Mismatch: Expected " ++ Verdict.expected v
         ++ ", Got " ++ Verdict.actual v)
  | Raise _ => False
  end.

(** The identifier of the rule holds no single quote. *)
Definition quote_free (rule : Rule.t) : bool :=
  negb (Py.contains ElementPath.squote (Rule.rule_id rule)).

(** What a found rule-result is when the identifier holds no single
    quote: the search returns the first rule-result element of the report
    whose [idref] is the identifier, so the status is [PASS] exactly when
    such an element exists and the strings are equal, and a rule that no
    rule-result element refers to gets [NOT FOUND] and [FAIL]. *)
Definition pass_iff_matched_and_equal (root : ET.Element) (rule : Rule.t)
           (v : Verdict.t) : Prop :=
  let matched := rule_results_for root (Rule.rule_id rule) in
  search root rule = Ok (hd_error matched) /\
  (Verdict.status v = "PASS" <->
   matched <> [] /\ Verdict.actual v = Verdict.expected v) /\
  (matched = [] ->
   Verdict.actual v = "NOT FOUND" /\ Verdict.status v = "FAIL").

(** The grading of one rule, by what the search returned, and by the
    elements of the report when the identifier holds no single quote. *)
Definition graded_by_search (root : ET.Element) (rule : Rule.t)
           (v : Verdict.t) : Prop :=
  pass_iff_found_and_equal root rule v /\
  (search root rule = Ok None -> Verdict.status v = "FAIL") /\
  (quote_free rule = true -> pass_iff_matched_and_equal root rule v).

(** The verdict of a rule whose rule-result was found, for an actual
    result. *)
Definition compared (rule : Rule.t) (actual_result : string) : Verdict.t :=
  let expected := Rule.expected_result rule in
  if actual_result =? expected then
    Verdict.mk (Rule.number rule) (Rule.rule_id rule) (Rule.description rule)
               expected actual_result "PASS" (check_mark ++ " Match")
  else
    Verdict.mk (Rule.number rule) (Rule.rule_id rule) (Rule.description rule)
               expected actual_result "FAIL"
               (ballot_x ++ " Mismatch: Expected " ++ expected ++ ", Got "
                ++ actual_result).

(** The verdict of a rule, read off the first rule-result element that
    refers to it and the first result element below that, both in document
    order. *)
Definition judge (root : ET.Element) (rule : Rule.t) : result Verdict.t :=
  match hd_error (rule_results_for root (Rule.rule_id rule)) with
  | None =>
      Ok (Verdict.mk (Rule.number rule) (Rule.rule_id rule)
                     (Rule.description rule) (Rule.expected_result rule)
                     "NOT FOUND" "FAIL" "Rule not found in XCCDF report")
  | Some rule_result =>
      match hd_error (result_elements rule_result) with
      | None => Ok (compared rule "UNKNOWN")
      | Some result_elem =>
          match ET.text result_elem with
          | None => Raise AttributeError
          | Some text => Ok (compared rule (actual_of_text text))
          end
      end
  end.

Definition has_text (e : ET.Element) : bool :=
  match ET.text e with
  | Some _ => true
  | None => false
  end.

(** Every result element below a rule-result element of the report has
    text. *)
Definition results_have_text (root : ET.Element) : bool :=
  forallb (fun rule_result => forallb has_text (result_elements rule_result))
          (filter (local_name_is "rule-result") (elements_below root)).

(** What the loaders make of the fields of a row: every text field is
    stripped and the expected result is in upper case. *)
Definition normalised (rule : Rule.t) : bool :=
  (Py.strip (Rule.rule_id rule) =? Rule.rule_id rule)
  && (Py.strip (Rule.expected_result rule) =? Rule.expected_result rule)
  && (Py.upper (Rule.expected_result rule) =? Rule.expected_result rule)
  && (Py.strip (Rule.description rule) =? Rule.description rule)
  && (Py.strip (Rule.profile rule) =? Rule.profile rule).

(* ===================================================================== *)
(** * Sample reports and rule tables *)

Module Sample.
Import ET.

Definition xccdf (local : string) : string :=
  "{http://checklists.nist.gov/xccdf/1.2}" ++ local.

Definition rule_result (idref : string) (value : option string) : Element :=
  mkElement (xccdf "rule-result") [("idref", idref)] None None
            [mkElement (xccdf "result") [] value None []].

(** A report with the results of five rules: [r1] passes, [r2] is in
    error, the result element of [r3] is empty, the result of [r4] is in
    mixed case, the result of [r5] is outside the vocabulary. *)
Definition report : Element :=
  mkElement (xccdf "Benchmark") [] None None
    [mkElement (xccdf "TestResult") [] None None
       [rule_result "r1" (Some "pass");
        rule_result "r2" (Some "error");
        rule_result "r3" None;
        rule_result "r4" (Some "NotChecked");
        rule_result "r5" (Some "Manual review")]].

(** A report without rule results. *)
Definition empty_report : Element :=
  mkElement (xccdf "Benchmark") [] None None [].

Definition rule (number : Z) (rule_id expected_result : string) : Rule.t :=
  Rule.mk number rule_id expected_result "" "".

Definition validator (rules : list Rule.t) : ExcelValidator :=
  mkExcelValidator rules rules [].

(** A rule table of three rules in two profiles, with a blank row, as a
    CSV file and as a worksheet. *)
Definition csv_table : Csv.file :=
  [ ["NUMBER"; "RULE_ID"; "EXPECTED_RESULT"; "DESCRIPTION"; "PROFILE"];
    ["1"; "r1"; "compliant"; "first"; "SEVERITY_CAT_I"];
    [];
    ["2"; " r2 "; "fixed"; "second"; "severity_cat_ii"];
    ["3"; "r3"; "Not Compliant"; ""; "Severity_Cat_I "] ].

Definition worksheet : Excel.worksheet :=
  Excel.mkWorksheet
    [Excel.CStr "NUMBER"; Excel.CStr "RULE_ID"; Excel.CStr "EXPECTED_RESULT";
     Excel.CStr "DESCRIPTION"; Excel.CStr "PROFILE"]
    [ [Excel.CInt 1; Excel.CStr "r1"; Excel.CStr "compliant";
       Excel.CStr "first"; Excel.CStr "SEVERITY_CAT_I"];
      [Excel.CNone; Excel.CNone; Excel.CNone; Excel.CNone; Excel.CNone];
      [Excel.CInt 2; Excel.CStr " r2 "; Excel.CStr "fixed";
       Excel.CStr "second"; Excel.CStr "severity_cat_ii"];
      [Excel.CStr "3"; Excel.CStr "r3"; Excel.CStr "Not Compliant";
       Excel.CNone; Excel.CStr "Severity_Cat_I "] ].

Definition workbook : Excel.workbook :=
  Excel.mkWorkbook [("Rules", worksheet)] (Some worksheet).

(** The rules of the CSV table. *)
Definition table_rules : list Rule.t :=
  [ Rule.mk 1 "r1" "COMPLIANT" "first" "SEVERITY_CAT_I";
    Rule.mk 2 "r2" "FIXED" "second" "severity_cat_ii";
    Rule.mk 3 "r3" "NOT COMPLIANT" "" "Severity_Cat_I" ].

(** The rules of the worksheet: the empty description cell reads [None]. *)
Definition sheet_rules : list Rule.t :=
  [ Rule.mk 1 "r1" "COMPLIANT" "first" "SEVERITY_CAT_I";
    Rule.mk 2 "r2" "FIXED" "second" "severity_cat_ii";
    Rule.mk 3 "r3" "NOT COMPLIANT" "None" "Severity_Cat_I" ].

(** A CSV file whose header lacks the RULE_ID column and which has no data
    rows. *)
Definition csv_without_rule_id : Csv.file :=
  [ ["NUMBER"; "EXPECTED_RESULT"; "PROFILE"] ].

End Sample.

(** A rule identifier that closes the predicate of the search and opens a
    second one. *)
Definition spliced (a b : string) : string := a ++ "'][@idref='" ++ b.

(* ===================================================================== *)
(** * library/generate_xccdf_report.py *)

(** What [json.load] makes of a template: a value of the types of JSON.
    A dictionary is the list of the assignments made to it, as for
    [getitem]. (Numbers with a fraction are left out.) *)
Module Json.

#[warning="-register-all"]
Inductive value : Type :=
| JNull
| JBool (b : bool)
| JInt (z : Z)
| JStr (s : string)
| JList (l : list value)
| JDict (d : list (string * value)).

Definition get_or (d : list (string * value)) (key : string) (default : value)
  : value :=
  match getitem d key with
  | Some x => x
  | None => default
  end.

(** [v.get(key, default)]: only a dictionary has the method. *)
Definition get (v : value) (key : string) (default : value) : result value :=
  match v with
  | JDict d => Ok (get_or d key default)
  | _ => Raise AttributeError
  end.

(** [v[key]] for a string key. *)
Definition item (v : value) (key : string) : result value :=
  match v with
  | JDict d =>
      match getitem d key with
      | Some x => Ok x
      | None => Raise (KeyError key)
      end
  | _ => Raise TypeError
  end.

(** [v[key] = x] *)
Definition setitem (v : value) (key : string) (x : value) : result value :=
  match v with
  | JDict d => Ok (JDict (d ++ [(key, x)]))
  | _ => Raise TypeError
  end.

(** [v[key]...= x]: an assignment inside the object at [key]. The object
    is changed in place; here [v] is given the changed object. *)
Definition update (v : value) (key : string) (change : value -> result value)
  : result value :=
  x <- item v key ;;
  x' <- change x ;;
  setitem v key x'.

(** The file at a path: absent, not JSON text, or the value of its text. *)
Inductive file : Type :=
| Absent
| NotJson
| Parsed (v : value).

(** [with open(path, 'r') as f: json.load(f)]; the decode error of the
    library is a [ValueError]. *)
Definition load (path : string) (f : file) : result value :=
  match f with
  | Absent => Raise (FileNotFoundError "No such file or directory")
  | NotJson => Raise (ValueError "JSONDecodeError")
  | Parsed v => Ok v
  end.

End Json.

Module XCCDFReportGenerator.
Import Json.

Section Build.

(** [str] of a list or a dictionary, which the embedding leaves to this
    function. *)
Variable repr : value -> string.

(** A value in a replacement field of an f-string. *)
Definition format (v : value) : string :=
  match v with
  | JNull => "None"
  | JBool true => "True"
  | JBool false => "False"
  | JInt z => Py.str_of_int z
  | JStr s => s
  | JList _ => repr v
  | JDict _ => repr v
  end.

Definition q : string := String "034"%char EmptyString.

(** The text of the request, for the values of its replacement fields. *)
Definition request (session_id generate_now config_id config_format
                    config_name site_id policy_id after_scan schedule
                    store_on_server : string) : string :=
  "<?xml version=" ++ q ++ "1.0" ++ q ++ " encoding=" ++ q ++ "UTF-8" ++ q
  ++ "?>" ++ nl
  ++ "<ReportSaveRequest session-id=" ++ q ++ session_id ++ q
  ++ " generate-now=" ++ q ++ generate_now ++ q ++ ">" ++ nl
  ++ "<ReportConfig id=" ++ q ++ config_id ++ q
  ++ " format=" ++ q ++ config_format ++ q
  ++ " name=" ++ q ++ config_name ++ q ++ ">" ++ nl
  ++ "<Filters>" ++ nl
  ++ "<filter type=" ++ q ++ "site" ++ q ++ " id=" ++ q ++ site_id ++ q ++ ">"
  ++ site_id ++ "</filter>" ++ nl
  ++ "<filter type=" ++ q ++ "policy-listing" ++ q ++ " id=" ++ q ++ policy_id
  ++ q ++ ">" ++ policy_id ++ "</filter>" ++ nl
  ++ "</Filters>" ++ nl
  ++ "<Generate after-scan=" ++ q ++ after_scan ++ q
  ++ " schedule=" ++ q ++ schedule ++ q ++ "/>" ++ nl
  ++ "<Delivery>" ++ nl
  ++ "<Storage storeOnServer=" ++ q ++ store_on_server ++ q ++ "/>" ++ nl
  ++ "</Delivery>" ++ nl
  ++ "</ReportConfig>" ++ nl
  ++ "</ReportSaveRequest>".

(** [build_xccdf_report_xml(json_payload)] *)
Definition build_xccdf_report_xml (json_payload : value) : result string :=
  session_id <- get json_payload "session_id" (JStr "") ;;
  generate_now <- get json_payload "generate_now" (JStr "1") ;;
  config <- get json_payload "report_config" (JDict []) ;;
  config_id <- get config "id" (JStr "-1") ;;
  config_format <- get config "format" (JStr "xccdf-xml") ;;
  config_name <- get config "name" (JStr "") ;;
  filters <- get config "filters" (JDict []) ;;
  site_id <- get filters "site_id" (JStr "") ;;
  policy_id <- get filters "policy_natural_id" (JStr "") ;;
  generate <- get config "generate" (JDict []) ;;
  after_scan <- get generate "after_scan" (JStr "0") ;;
  schedule <- get generate "schedule" (JStr "0") ;;
  delivery <- get config "delivery" (JDict []) ;;
  store_on_server <- get delivery "store_on_server" (JStr "1") ;;
  Ok (request (format session_id) (format generate_now) (format config_id)
              (format config_format) (format config_name) (format site_id)
              (format policy_id) (format after_scan) (format schedule)
              (format store_on_server)).

(** [load_and_build_xccdf_report(json_file_path, session_id, site_id,
    policy_natural_id, report_name)]; [json_file] is the file at the
    path. *)
Definition load_and_build_xccdf_report (json_file_path : string)
           (json_file : file)
           (session_id site_id policy_natural_id report_name : string)
  : result string :=
  payload <- load json_file_path json_file ;;
  payload <- setitem payload "session_id" (JStr session_id) ;;
  payload <- update payload "report_config"
               (fun config => setitem config "name" (JStr report_name)) ;;
  payload <- update payload "report_config"
               (fun config =>
                  update config "filters"
                    (fun filters => setitem filters "site_id" (JStr site_id))) ;;
  payload <- update payload "report_config"
               (fun config =>
                  update config "filters"
                    (fun filters =>
                       setitem filters "policy_natural_id"
                               (JStr policy_natural_id))) ;;
  build_xccdf_report_xml payload.

End Build.

Definition is_dict (v : value) : bool :=
  match v with
  | JDict _ => true
  | _ => false
  end.

(** The key is absent from the dictionary or holds a dictionary. *)
Definition dict_or_absent (d : list (string * value)) (key : string) : bool :=
  match getitem d key with
  | None => true
  | Some (JDict _) => true
  | Some _ => false
  end.

(** The payloads whose objects are dictionaries where the builder reads
    them. *)
Definition well_shaped (json_payload : value) : bool :=
  match json_payload with
  | JDict d =>
      match getitem d "report_config" with
      | None => true
      | Some (JDict config) =>
          dict_or_absent config "filters" && dict_or_absent config "generate"
          && dict_or_absent config "delivery"
      | Some _ => false
      end
  | _ => false
  end.

End XCCDFReportGenerator.

(* ===================================================================== *)
(** * library/credential_manager.py *)

Module CredentialManager.

(** The environment of the process: the value of a variable, [None] for a
    variable that is not set. *)
Definition environ : Type := string -> option string.

(** [os.getenv(name)] and [os.getenv(name, default)] *)
Definition getenv (env : environ) (name : string) : option string := env name.

Definition getenv_default (env : environ) (name default : string)
  : option string :=
  match env name with
  | Some v => Some v
  | None => Some default
  end.

(** Truth value of a string or [None]. *)
Definition truthy (v : option string) : bool :=
  match v with
  | Some (String _ _) => true
  | _ => false
  end.

(** [a or b] *)
Definition or_else (a b : option string) : option string :=
  if truthy a then a else b.

(** [all([...])] *)
Definition all (l : list (option string)) : bool := forallb truthy l.

(** The calls made to the logger, in order. *)
Inductive level : Type :=
| INFO
| WARNING.

Definition log : Type := list (level * string).

(** The tuple a backend returns: ip, username and password. *)
Definition credentials : Type :=
  (option string * option string * option string)%type.

Definition prefix_of (benchmark os_name version credential_type service_type
                      : string) : string :=
  Py.upper ("VM_" ++ benchmark ++ "_" ++ os_name ++ "_" ++ version ++ "_"
            ++ credential_type ++ "_" ++ service_type).

Definition missing_variables (prefix : string) : string :=
  "Missing environment variables for " ++ prefix ++ ". Required:" ++ nl
  ++ "  " ++ prefix ++ "_IP" ++ nl
  ++ "  " ++ prefix ++ "_USERNAME" ++ nl
  ++ "  " ++ prefix ++ "_PASSWORD".

(** The name of a generic variable, and the two calls to the logger. *)
Definition generic_name (benchmark os_name field : string) : string :=
  "VM_" ++ benchmark ++ "_" ++ os_name ++ field.

Definition warning_logged (prefix : string) : level * string :=
  (WARNING,
   "Specific credentials not found for " ++ prefix ++ ", trying generic...").

Definition info_logged (benchmark os_name version : string) : level * string :=
  (INFO,
   "Retrieved credentials from environment for " ++ benchmark ++ "/"
   ++ os_name ++ "/" ++ version).

(** [_get_from_env(benchmark, os_name, version, credential_type,
    service_type)] *)
Definition _get_from_env (env : environ)
           (benchmark os_name version credential_type service_type : string)
  : result credentials * log :=
  let prefix :=
    prefix_of benchmark os_name version credential_type service_type in
  let ip := getenv env (prefix ++ "_IP") in
  let username := getenv env (prefix ++ "_USERNAME") in
  let password := getenv env (prefix ++ "_PASSWORD") in
  let '(ip, username, password, logged) :=
    if negb (all [ip; username; password]) then
      (or_else ip (getenv env ("VM_" ++ benchmark ++ "_" ++ os_name ++ "_IP")),
       or_else username
               (getenv_default env
                  ("VM_" ++ benchmark ++ "_" ++ os_name ++ "_USERNAME") "root"),
       or_else password
               (getenv env ("VM_" ++ benchmark ++ "_" ++ os_name ++ "_PASSWORD")),
       [(WARNING,
         "Specific credentials not found for " ++ prefix
         ++ ", trying generic...")])
    else (ip, username, password, []) in
  if negb (all [ip; username; password]) then
    (Raise (ValueError (missing_variables prefix)), logged)
  else
    let retrieved :=
      "Retrieved credentials from environment for " ++ benchmark ++ "/"
      ++ os_name ++ "/" ++ version in
    (Ok (ip, username, password), (logged ++ [(INFO, retrieved)])%list).

(** The attributes of a manager that come from the environment. (The two
    paths under the directory of the module are left out.) *)
Record t : Type := mk {
  backend : string;
  aws_region : string;
  vault_url : string;
  vault_token : option string;
  encryption_key : option string
}.

Definition string_of (v : option string) : string :=
  match v with
  | Some s => s
  | None => ""
  end.

(** [__init__(backend)] *)
Definition init (env : environ) (backend : option string) : t * log :=
  let backend :=
    string_of (or_else backend (getenv_default env "CRED_BACKEND" "env")) in
  (mk backend
      (string_of (getenv_default env "AWS_REGION" "us-east-1"))
      (string_of (getenv_default env "VAULT_ADDR" "http://localhost:8200"))
      (getenv env "VAULT_TOKEN")
      (getenv env "ENCRYPTION_KEY"),
   [(INFO, "Credential Manager initialized with backend: " ++ backend)]).

(** The import of [hvac] sets the flag to [False] whether it succeeds or
    not. *)
Definition HAS_VAULT : bool := false.

Section Backends.

(** Whether [boto3] and [cryptography] are installed, and the backends
    other than the environment, which call services and read files outside
    the embedding. *)
Variables HAS_AWS HAS_CRYPTO : bool.
Variables _get_from_aws _get_from_vault _get_from_encrypted_file _get_from_json
  : t -> string -> string -> string -> string -> string
    -> result credentials * log.

(** [get_vm_credentials(benchmark, os_name, version, credential_type,
    service_type)], the method. *)
Definition get_vm_credentials (self : t) (env : environ)
           (benchmark os_name version credential_type service_type : string)
  : result credentials * log :=
  if backend self =? "env" then
    _get_from_env env benchmark os_name version credential_type service_type
  else if (backend self =? "aws") && HAS_AWS then
    _get_from_aws self benchmark os_name version credential_type service_type
  else if (backend self =? "vault") && HAS_VAULT then
    _get_from_vault self benchmark os_name version credential_type service_type
  else if (backend self =? "encrypted") && HAS_CRYPTO then
    _get_from_encrypted_file self benchmark os_name version credential_type
                             service_type
  else if backend self =? "json" then
    let (returned, logged) :=
      _get_from_json self benchmark os_name version credential_type
                     service_type in
    (returned,
     (WARNING, "Using plain JSON backend - NOT RECOMMENDED for production!")
       :: logged)
  else (Raise (ValueError ("Unsupported backend: " ++ backend self)), []).

(** [get_vm_credentials(...)], the keyword of the module: a manager made
    without argument, then the method. *)
Definition keyword (env : environ)
           (benchmark os_name version credential_type service_type : string)
  : result credentials * log :=
  let (cm, started) := init env None in
  let (returned, logged) :=
    get_vm_credentials cm env benchmark os_name version credential_type
                       service_type in
  (returned, (started ++ logged)%list).

End Backends.

End CredentialManager.

(** Sample environments: the three variables of one machine; and the ip
    of the machine with the generic password and a generic username that
    is unset, empty or set. *)
Module SampleEnv.

Definition specific : CredentialManager.environ := fun name =>
  if name =? "VM_CIS_RHEL_9_COMPLIANCE_SERVER_IP" then Some "10.4.22.212"
  else if name =? "VM_CIS_RHEL_9_COMPLIANCE_SERVER_USERNAME" then Some "admin"
  else if name =? "VM_CIS_RHEL_9_COMPLIANCE_SERVER_PASSWORD" then Some "s3cret"
  else if name =? "VM_CIS_RHEL_PASSWORD" then Some "other"
  else None.

Definition generic (username : option string) : CredentialManager.environ :=
  fun name =>
    if name =? "VM_CIS_RHEL_9_COMPLIANCE_SERVER_IP" then Some "10.4.22.212"
    else if name =? "VM_CIS_RHEL_PASSWORD" then Some "s3cret"
    else if name =? "VM_CIS_RHEL_USERNAME" then username
    else None.

Definition manager (backend : string) : CredentialManager.t :=
  CredentialManager.mk backend "us-east-1" "http://localhost:8200" None None.

End SampleEnv.

(* ===================================================================== *)
(** * library/format_xml.py *)

Module FormatXml.

Definition newline : ascii := "010"%char.

(** [s.split('\n')] *)
Fixpoint split_lines (s : string) : list string :=
  match s with
  | EmptyString => [EmptyString]
  | String c s' =>
      if Ascii.eqb c newline then EmptyString :: split_lines s'
      else
        match split_lines s' with
        | line :: lines => String c line :: lines
        | [] => [String c EmptyString]
        end
  end.

(** ['\n'.join(lines)] *)
Fixpoint join_lines (lines : list string) : string :=
  match lines with
  | [] => EmptyString
  | line :: lines' =>
      match lines' with
      | [] => line
      | _ => line ++ nl ++ join_lines lines'
      end
  end.

(** [line.strip() and not line.strip().startswith('<?xml')] *)
Definition kept (line : string) : bool :=
  negb (Py.strip line =? "") && negb (Py.startswith "<?xml" (Py.strip line)).

(** The text written for the text the printer returns. *)
Definition formatted (pretty_xml : string) : string :=
  join_lines (filter kept (split_lines pretty_xml)).

(** The files: the text at a path, [None] for a path that does not exist.
    Every path can be written. *)
Definition files : Type := string -> option string.

Definition write (fs : files) (path text : string) : files :=
  fun p => if p =? path then Some text else fs p.

Section Format.

(** [minidom.parseString(xml_string).toprettyxml(indent=...)]: the parser
    and the printer of the library are outside the embedding; the parser
    raises on text that is not well-formed. *)
Variable toprettyxml : string -> result string.

(** [format_xml_file(input_path, output_path)]: what the call returns or
    raises and the files afterwards. *)
Definition format_xml_file (fs : files) (input_path output_path : string)
  : result string * files :=
  match fs input_path with
  | None => (Raise (FileNotFoundError "No such file or directory"), fs)
  | Some xml_string =>
      match toprettyxml xml_string with
      | Raise e => (Raise e, fs)
      | Ok pretty_xml =>
          let lines := filter kept (split_lines pretty_xml) in
          (Ok output_path, write fs output_path (join_lines lines))
      end
  end.

End Format.

End FormatXml.

(** A sample of what the printer returns: the declaration, an indented
    element and a blank line. *)
Module SampleXml.

Definition pretty : string :=
  "<?xml version=" ++ XCCDFReportGenerator.q ++ "1.0"
  ++ XCCDFReportGenerator.q ++ " ?>" ++ nl
  ++ "<a>" ++ nl ++ "    <b/>" ++ nl ++ "    " ++ nl ++ "</a>" ++ nl.

Definition files : FormatXml.files := fun path =>
  if path =? "report.xml" then Some "<a><b/></a>" else None.

End SampleXml.

(** The digits of a number read from the left, after the digits read so
    far. *)
Fixpoint digits_value (acc : Z) (d : Decimal.uint) : Z :=
  match d with
  | Decimal.Nil => acc
  | Decimal.D0 l => digits_value (10 * acc + 0) l
  | Decimal.D1 l => digits_value (10 * acc + 1) l
  | Decimal.D2 l => digits_value (10 * acc + 2) l
  | Decimal.D3 l => digits_value (10 * acc + 3) l
  | Decimal.D4 l => digits_value (10 * acc + 4) l
  | Decimal.D5 l => digits_value (10 * acc + 5) l
  | Decimal.D6 l => digits_value (10 * acc + 6) l
  | Decimal.D7 l => digits_value (10 * acc + 7) l
  | Decimal.D8 l => digits_value (10 * acc + 8) l
  | Decimal.D9 l => digits_value (10 * acc + 9) l
  end.

Definition no_space (c : ascii) : bool := negb (Py.isspace c).

(* ===================================================================== *)
(** * Strings *)

Lemma upper_lower_char (c : ascii) :
  Py.upper_char (Py.lower_char c) = Py.upper_char c.
Proof.
  destruct c as [[] [] [] [] [] [] [] []]; reflexivity.
Qed.

Lemma upper_lower (s : string) : Py.upper (Py.lower s) = Py.upper s.
Proof.
  induction s as [|c s IH]; simpl; [reflexivity|].
  unfold Py.upper, Py.lower in *; simpl. now rewrite upper_lower_char, IH.
Qed.

Lemma length_app (a b : string) :
  String.length (a ++ b) = String.length a + String.length b.
Proof. induction a; simpl; auto. Qed.

Lemma drop_app (a b : string) : Py.drop (String.length a) (a ++ b) = b.
Proof. induction a; simpl; auto. Qed.

Lemma take_app (a b : string) : Py.take (String.length a) (a ++ b) = a.
Proof. induction a; simpl; [reflexivity | now f_equal]. Qed.

Lemma take_last_app (a b : string) :
  Py.take_last (String.length b) (a ++ b) = b.
Proof.
  unfold Py.take_last. rewrite length_app.
  replace (String.length a + String.length b - String.length b)
    with (String.length a) by lia.
  apply drop_app.
Qed.

Lemma upto_app (q : ascii) (a b : string) :
  Py.contains q a = false ->
  ElementPath.upto q (a ++ String q b) = Some a.
Proof.
  induction a as [|c a IH]; simpl; intros H.
  - now rewrite Ascii.eqb_refl.
  - apply orb_false_elim in H as [Hc Ha]. rewrite Hc, IH by assumption.
    reflexivity.
Qed.

Lemma findall_skip (a b : string) (k : nat) :
  ElementPath.findall (String.length a + k) (a ++ b) = ElementPath.findall k b.
Proof.
  induction a as [|c a IH]; simpl; [reflexivity | apply IH].
Qed.

Lemma findall_prefix (rest : string) :
  ElementPath.findall 0 (".//{*}rule-result[@idref=" ++ rest)
  = ([(".", ""); ("//", ""); ("", "{*}rule-result"); ("[", ""); ("@", "");
      ("", "idref"); ("=", "")] ++ ElementPath.findall 0 rest)%list.
Proof. reflexivity. Qed.

Lemma findall_quoted (a b : string) :
  Py.contains ElementPath.squote a = false ->
  ElementPath.findall 0 (String ElementPath.squote (a ++ String ElementPath.squote b))
  = (String ElementPath.squote (a ++ String ElementPath.squote ""), "")
      :: ElementPath.findall 0 b.
Proof.
  intros H. cbn [ElementPath.findall ElementPath.first_match ElementPath.xpath_tokenizer_re].
  unfold ElementPath.quoted at 1. rewrite Ascii.eqb_refl, (upto_app _ _ _ H).
  f_equal. replace (Nat.pred (String.length a + 2)) with (String.length a + 1) by lia.
  rewrite findall_skip. reflexivity.
Qed.

Lemma tokens_rule_result_path (rule_id : string) :
  Py.contains ElementPath.squote rule_id = false ->
  ElementPath.findall 0 (rule_result_path rule_id)
  = [(".", ""); ("//", ""); ("", "{*}rule-result"); ("[", ""); ("@", "");
     ("", "idref"); ("=", "");
     (String ElementPath.squote (rule_id ++ String ElementPath.squote ""), "");
     ("]", "")].
Proof.
  intros H. unfold rule_result_path.
  change (".//{*}rule-result[@idref='" ++ rule_id ++ "']")
    with (".//{*}rule-result[@idref=" ++
          String ElementPath.squote (rule_id ++ String ElementPath.squote "]")).
  rewrite findall_prefix, (findall_quoted _ _ H). reflexivity.
Qed.


Lemma append_assoc (a b c : string) : (a ++ b) ++ c = a ++ (b ++ c).
Proof. induction a; simpl; congruence. Qed.

Lemma unquote (q : ascii) (a : string) :
  Py.take (String.length (String q (a ++ String q "")) - 2)
          (Py.drop 1 (String q (a ++ String q ""))) = a.
Proof.
  cbn [String.length Py.drop]. rewrite length_app. cbn [String.length].
  replace (S (String.length a + 1) - 2) with (String.length a) by lia.
  apply take_app.
Qed.

Lemma compile_rule_result_path (rule_id : string) :
  Py.contains ElementPath.squote rule_id = false ->
  ElementPath.compile (rule_result_path rule_id)
  = Ok [ElementPath.Self; ElementPath.Descendant "{*}rule-result";
        ElementPath.AttrEq "idref" rule_id].
Proof.
  intros H. unfold ElementPath.compile.
  assert (Hlast : Py.take_last 1 (rule_result_path rule_id) = "]").
  { unfold rule_result_path.
    change (".//{*}rule-result[@idref='" ++ rule_id ++ "']")
      with (".//{*}rule-result[@idref='" ++ rule_id ++ ("'" ++ "]")).
    rewrite <- !append_assoc. apply (take_last_app _ "]"). }
  rewrite Hlast. cbn [String.eqb Ascii.eqb Bool.eqb].
  unfold ElementPath.xpath_tokenizer. rewrite (tokens_rule_result_path _ H).
  cbn [map ElementPath.check_prefix snd].
  cbn -[Py.take Py.drop String.length].
  rewrite unquote. reflexivity.
Qed.

Lemma map_snd_filter {A B : Type} (p : B -> bool) (l : list (A * B)) :
  map snd (filter (fun n => p (snd n)) l) = filter p (map snd l).
Proof.
  induction l as [|x l IH]; simpl; [reflexivity|].
  destruct (p (snd x)); simpl; now rewrite IH.
Qed.

Lemma first_of_nodes (l : list ET.node) :
  match l with [] => None | n :: _ => Some (snd n) end = hd_error (map snd l).
Proof. destruct l; reflexivity. Qed.

Lemma find_rule_result (root : ET.Element) (rule_id : string) :
  Py.contains ElementPath.squote rule_id = false ->
  ElementPath.find root (rule_result_path rule_id)
  = Ok (hd_error (rule_results_for root rule_id)).
Proof.
  intros H. unfold ElementPath.find, ElementPath.iterfind.
  rewrite (compile_rule_result_path _ H).
  cbn [bind forallb ElementPath.is_selector andb fold_left ElementPath.select
       flat_map].
  rewrite app_nil_r, first_of_nodes. do 2 f_equal.
  unfold rule_results_for, elements_below.
  rewrite <- (map_snd_filter (local_name_is "rule-result")).
  rewrite <- (map_snd_filter (idref_is rule_id)).
  reflexivity.
Qed.

Lemma find_result (rule_result : ET.Element) :
  ElementPath.find rule_result ".//{*}result"
  = Ok (hd_error (result_elements rule_result)).
Proof.
  unfold ElementPath.find, ElementPath.iterfind.
  change (ElementPath.compile ".//{*}result")
    with (Ok [ElementPath.Self; ElementPath.Descendant "{*}result"]).
  cbn [bind forallb ElementPath.is_selector andb fold_left ElementPath.select
       flat_map].
  rewrite app_nil_r, first_of_nodes. do 2 f_equal.
  unfold result_elements, elements_below.
  rewrite <- (map_snd_filter (local_name_is "result")).
  reflexivity.
Qed.
(* ===================================================================== *)
(** * The loop of validate_xccdf_report *)

Lemma validate_rule_inv (root : ET.Element) (rule : Rule.t)
      (p f p' f' : Z) (rs rs' : list Verdict.t) :
  validate_rule root rule (p, f, rs) = Ok (p', f', rs') ->
  exists v,
    rs' = (rs ++ [v])%list /\ verdict_of_rule rule v /\ graded root rule v /\
    ((Verdict.status v = "PASS" /\ p' = (p + 1)%Z /\ f' = f) \/
     (Verdict.status v = "FAIL" /\ p' = p /\ f' = (f + 1)%Z)).
Proof.
  unfold validate_rule, graded, search, rule_result_path, verdict_of_rule.
  destruct (ElementPath.find root _) as [[rr|]|e] eqn:Hfind;
    cbn [bind]; [| |discriminate].
  - destruct (ElementPath.find rr _) as [re|e]; cbn [bind]; [|discriminate].
    match goal with
    | |- bind ?a _ = _ -> _ => destruct a as [actual|e]
    end; cbn [bind]; [|discriminate].
    destruct (String.eqb_spec actual (Rule.expected_result rule)) as [Heq|Hne];
      intros H; injection H as <- <- <-; eexists; (split; [reflexivity|]);
      cbn; repeat split; eauto 8.
  - intros H; injection H as <- <- <-; eexists; (split; [reflexivity|]);
      cbn; repeat split; auto.
Qed.

Lemma count_pass_cons (v : Verdict.t) (vs : list Verdict.t) :
  count_pass (v :: vs)
  = ((if (Verdict.status v =? "PASS")%string then 1 else 0) + count_pass vs)%Z.
Proof.
  unfold count_pass. cbn [filter].
  destruct (Verdict.status v =? "PASS"); cbn [List.length]; lia.
Qed.

Lemma validate_rules_inv (root : ET.Element) (rules : list Rule.t) :
  forall (p f p' f' : Z) (rs rs' : list Verdict.t),
    validate_rules root rules (p, f, rs) = Ok (p', f', rs') ->
    exists vs,
      rs' = (rs ++ vs)%list /\
      Forall2 verdict_of_rule rules vs /\ Forall2 (graded root) rules vs /\
      p' = (p + count_pass vs)%Z /\
      f' = (f + (Z.of_nat (List.length vs) - count_pass vs))%Z.
Proof.
  induction rules as [|rule rules IH]; intros p f p' f' rs rs'; cbn [validate_rules].
  - intros H; injection H as <- <- <-. exists []. rewrite app_nil_r.
    repeat split; try constructor; cbn; lia.
  - destruct (validate_rule root rule (p, f, rs)) as [[[p1 f1] rs1]|e] eqn:H1;
      cbn [bind]; [|discriminate].
    intros H2. apply validate_rule_inv in H1 as (v & -> & Hv & Hg & Hc).
    apply IH in H2 as (vs & -> & Hvs & Hgs & -> & ->).
    exists (v :: vs). rewrite <- app_assoc. split; [reflexivity|].
    split; [now constructor|]. split; [now constructor|].
    rewrite count_pass_cons. cbn [List.length]. rewrite Nat2Z.inj_succ.
    destruct Hc as [(Hs & -> & ->)|(Hs & -> & ->)]; rewrite Hs;
      cbn [String.eqb Ascii.eqb Bool.eqb]; split; lia.
Qed.

Lemma validate_inv (xml_content : ET.document) (self self' : ExcelValidator)
      (passed failed : Z) (results : list Verdict.t) :
  validate_xccdf_report xml_content self = (Ok (passed, failed, results), self') ->
  exists root,
    xml_content = ET.WellFormed root /\ rules self <> [] /\
    validate_rules root (rules self) (0, 0, [])%Z = Ok (passed, failed, results) /\
    self' = mkExcelValidator (rules self) (all_rules self) results.
Proof.
  unfold validate_xccdf_report.
  destruct (rules self) as [|rule rules'] eqn:Hrules; [discriminate|].
  destruct xml_content as [root|]; cbn [ET.fromstring bind]; [|discriminate].
  destruct (validate_rules root _ _) as [[[p f] rs]|e] eqn:Hloop;
    [|discriminate].
  intros H; injection H as <- <- <- <-. exists root.
  split; [reflexivity|]. split; [discriminate|]. split; [exact Hloop|].
  reflexivity.
Qed.

(** C5: after a validate call that returns, the two counts add up to the
    number of rules, there is one verdict per rule, and the verdicts carry
    the fields of the rules in the order of the rule list; the passed count
    is the number of PASS verdicts, and the list is retained. *)
Theorem validate_counts_and_order (xml_content : ET.document)
        (self self' : ExcelValidator) (passed failed : Z)
        (results : list Verdict.t) :
  validate_xccdf_report xml_content self
  = (Ok (passed, failed, results), self') ->
  (passed + failed)%Z = Z.of_nat (List.length (rules self)) /\
  List.length results = List.length (rules self) /\
  Forall2 verdict_of_rule (rules self) results /\
  passed = count_pass results /\
  failed = (Z.of_nat (List.length results) - passed)%Z /\
  validation_results self' = results.
Proof.
  intros H. apply validate_inv in H as (root & _ & _ & H & ->).
  apply validate_rules_inv in H as (vs & Hrs & Hvs & _ & -> & ->).
  cbn [app] in Hrs. subst vs.
  pose proof (Forall2_length Hvs) as Hlen.
  repeat split; auto; lia.
Qed.

Lemma validate_counts_and_order_witness :
  let self := Sample.validator [Sample.rule 1 "r1" "COMPLIANT";
                                Sample.rule 2 "r2" "FIXED"] in
  exists results self',
    validate_xccdf_report (ET.WellFormed Sample.report) self
    = (Ok (1, 1, results)%Z, self') /\
    map Verdict.rule_id results = ["r1"; "r2"] /\
    ((1 + 1)%Z = Z.of_nat (List.length (rules self)) /\
     List.length results = List.length (rules self) /\
     Forall2 verdict_of_rule (rules self) results /\
     1%Z = count_pass results /\
     1%Z = (Z.of_nat (List.length results) - 1)%Z /\
     validation_results self' = results).
Proof.
  intros self. eexists. eexists.
  split; [vm_compute; reflexivity|]. split; [reflexivity|].
  apply (validate_counts_and_order (ET.WellFormed Sample.report) self).
  vm_compute. reflexivity.
Defined.

Lemma graded_pass_iff (root : ET.Element) (rule : Rule.t) (v : Verdict.t) :
  verdict_of_rule rule v -> graded root rule v ->
  pass_iff_found_and_equal root rule v.
Proof.
  intros (_ & _ & _ & Hexp) Hg. unfold pass_iff_found_and_equal.
  split; [exact Hexp|].
  destruct Hg as [(Hs & Ha & Hst)|((rr & Hs) & [(Ha & Hst)|(Ha & Hst)])];
    rewrite Hst.
  - split; [now right|]. split; [|auto].
    split; [discriminate|]. intros ((rr & Hrr) & _). congruence.
  - split; [now left|]. split; [|congruence].
    split; eauto.
  - split; [now right|]. split; [|congruence].
    split; [discriminate|]. intros (_ & Heq). contradiction.
Qed.

Lemma found_iff_matched (root : ET.Element) (rule : Rule.t) (v : Verdict.t) :
  pass_iff_found_and_equal root rule v ->
  (search root rule = Ok None -> Verdict.status v = "FAIL") /\
  (quote_free rule = true -> pass_iff_matched_and_equal root rule v).
Proof.
  intros (_ & Hst & Hiff & Hnone).
  assert (Hfail : search root rule = Ok None -> Verdict.status v = "FAIL").
  { intros Hs. destruct Hst as [Hp|Hf]; [|exact Hf].
    apply Hiff in Hp as ((rr & Hrr) & _). congruence. }
  split; [exact Hfail|].
  unfold quote_free, pass_iff_matched_and_equal. intros Hq.
  apply negb_true_iff in Hq.
  pose proof (find_rule_result root (Rule.rule_id rule) Hq) as Hfind.
  fold (search root rule) in Hfind.
  split; [exact Hfind|]. rewrite Hfind in Hiff, Hnone, Hfail. split.
  - rewrite Hiff. split; intros (Hm & Ha); (split; [|exact Ha]).
    + destruct Hm as (rr & Hrr). intros Hnil. rewrite Hnil in Hrr.
      discriminate Hrr.
    + destruct (rule_results_for root (Rule.rule_id rule)) as [|rr rrs];
        [contradiction | now exists rr].
  - intros Hnil. rewrite Hnil in Hnone, Hfail. auto.
Qed.

(** C1, as the code has it: in a validate call that returns, the verdict
    of every rule carries the rule's expected result, and its status is
    PASS exactly when the search of the report for the rule returned an
    element and the actual string equals the expected one; otherwise it is
    FAIL. A rule for which the search returns nothing gets NOT FOUND and
    FAIL whatever it expects. For a rule whose identifier holds no single
    quote the search returns the first rule-result element whose idref is
    the identifier, so that PASS means that such an element exists and the
    strings are equal, and a rule that no rule-result element refers to
    gets NOT FOUND and FAIL. *)
Theorem status_pass_iff_found_and_equal (root : ET.Element)
        (self self' : ExcelValidator) (passed failed : Z)
        (results : list Verdict.t) :
  validate_xccdf_report (ET.WellFormed root) self
  = (Ok (passed, failed, results), self') ->
  Forall2 (graded_by_search root) (rules self) results.
Proof.
  intros H. apply validate_inv in H as (root' & Hroot & _ & H & _).
  injection Hroot as <-.
  apply validate_rules_inv in H as (vs & Hrs & Hvs & Hgs & _).
  cbn [app] in Hrs. subst vs.
  induction Hvs as [|rule v rules vs Hv Hvs IH]; [constructor|].
  inversion Hgs; subst. constructor; [|now apply IH].
  pose proof (graded_pass_iff root rule v Hv ltac:(assumption)) as Hp.
  split; [exact Hp | now apply found_iff_matched].
Qed.

Lemma status_pass_iff_found_and_equal_witness :
  let quoted := "r1'][@idref='r1" in
  let self := Sample.validator [Sample.rule 1 "r1" "COMPLIANT";
                                Sample.rule 2 "r2" "FIXED";
                                Sample.rule 3 "r9" "NOT FOUND";
                                Sample.rule 4 quoted "COMPLIANT"] in
  exists results self',
    validate_xccdf_report (ET.WellFormed Sample.report) self
    = (Ok (2, 2, results)%Z, self') /\
    map Verdict.status results = ["PASS"; "FAIL"; "FAIL"; "PASS"] /\
    map Verdict.actual results
    = ["COMPLIANT"; "ERROR"; "NOT FOUND"; "COMPLIANT"] /\
    map quote_free (rules self) = [true; true; true; false] /\
    rule_results_for Sample.report "r9" = [] /\
    rule_results_for Sample.report quoted = [] /\
    Forall2 (graded_by_search Sample.report) (rules self) results.
Proof.
  intros quoted self. eexists. eexists.
  split; [vm_compute; reflexivity|]. split; [reflexivity|].
  split; [reflexivity|]. split; [reflexivity|].
  split; [reflexivity|]. split; [reflexivity|].
  apply (status_pass_iff_found_and_equal Sample.report self
           (snd (validate_xccdf_report (ET.WellFormed Sample.report) self))
           2%Z 2%Z).
  vm_compute. reflexivity.
Defined.

(** C1, as stated, fails: a rule that expects the string NOT FOUND and has
    no rule-result element gets a verdict whose actual and expected strings
    are equal and whose status is FAIL. *)
Lemma not_found_expected_is_fail :
  exists v self',
    validate_xccdf_report (ET.WellFormed Sample.empty_report)
      (Sample.validator [Sample.rule 1 "r1" "NOT FOUND"])
    = (Ok (0, 1, [v])%Z, self') /\
    Verdict.actual v = Verdict.expected v /\
    Verdict.status v = "FAIL" /\
    ~ pass_iff_equal v.
Proof.
  eexists. eexists. split; [vm_compute; reflexivity|].
  split; [reflexivity|]. split; [reflexivity|].
  unfold pass_iff_equal. cbn. intros [_ H]. specialize (H eq_refl). discriminate.
Qed.
(** C7: whatever the report text is, well-formed or not, a validate call on
    an empty rule list raises the error that no rules are loaded and leaves
    the object as it was; the text is parsed only when there are rules. *)
Theorem validate_without_rules :
  (forall (xml_content : ET.document) (all : list Rule.t)
          (previous : list Verdict.t),
      validate_xccdf_report xml_content (mkExcelValidator [] all previous)
      = (Raise (ValueError no_rules_loaded), mkExcelValidator [] all previous))
  /\
  (forall (rule : Rule.t) (rules all : list Rule.t)
          (previous : list Verdict.t),
      validate_xccdf_report ET.NotWellFormed
        (mkExcelValidator (rule :: rules) all previous)
      = (Raise ParseError, mkExcelValidator (rule :: rules) all previous)).
Proof. split; reflexivity. Qed.

Section SummaryProperties.

Variable format_rate : Z -> Z -> string.

Lemma success_rate_positive (passed total : Z) :
  (0 < total)%Z ->
  success_rate format_rate passed total = Ok (format_rate passed total).
Proof.
  intros H. unfold success_rate.
  destruct (Z.eqb_spec total 0); [lia | reflexivity].
Qed.

(** C9: with no retained verdicts the summary is the no-results message;
    the summary never raises, for any retained list; the division behind
    the success rate raises on a zero total, and the total it is given is
    the length of a non-empty list. *)
Theorem summary_guards_division :
  (forall (rules all : list Rule.t),
      get_validation_summary format_rate (mkExcelValidator rules all [])
      = Ok "No validation results available") /\
  (forall self : ExcelValidator,
      exists text, get_validation_summary format_rate self = Ok text) /\
  (forall passed : Z,
      success_rate format_rate passed 0 = Raise ZeroDivisionError) /\
  (forall (rules all : list Rule.t) (v : Verdict.t) (vs : list Verdict.t),
      let total := Z.of_nat (List.length (v :: vs)) in
      (0 < total)%Z /\
      exists text,
        get_validation_summary format_rate (mkExcelValidator rules all (v :: vs))
        = Ok text /\
        text <> "No validation results available").
Proof.
  split; [reflexivity|]. split; [|split; [reflexivity|]].
  - intros [rs al [|v vs]]; unfold get_validation_summary;
      cbn [validation_results]; [eexists; reflexivity|].
    rewrite success_rate_positive by (cbn [List.length]; lia).
    cbn [bind]. eexists; reflexivity.
  - intros rs al v vs total. split; [subst total; cbn [List.length]; lia|].
    unfold get_validation_summary; cbn [validation_results].
    rewrite success_rate_positive by (cbn [List.length]; lia).
    cbn [bind]. eexists. split; [reflexivity|].
    unfold nl. cbn [append]. discriminate.
Qed.

End SummaryProperties.
(* ===================================================================== *)
(** * The body of the loop, case by case *)

Lemma getitem_absent {V : Type} (d : list (string * V)) (key : string) :
  ~ In key (map fst d) -> getitem d key = None.
Proof.
  induction d as [|[k v] d IH]; cbn [getitem map fst In]; [reflexivity|].
  intros H. rewrite IH by tauto.
  destruct (String.eqb_spec k key); [tauto | reflexivity].
Qed.



(** A rule whose rule-result has no result element is UNKNOWN. *)
Lemma validate_rule_without_result (root : ET.Element) (rule : Rule.t)
      (rule_result : ET.Element) (passed failed : Z)
      (results : list Verdict.t) :
  search root rule = Ok (Some rule_result) ->
  result_elements rule_result = [] ->
  exists v passed' failed',
    validate_rule root rule (passed, failed, results)
    = Ok (passed', failed', (results ++ [v])%list) /\
    Verdict.actual v = "UNKNOWN".
Proof.
  unfold search, rule_result_path, validate_rule. intros H1 Hnone.
  rewrite H1. cbn [bind]. rewrite find_result, Hnone. cbn [hd_error bind].
  destruct ("UNKNOWN" =? Rule.expected_result rule);
    do 3 eexists; split; reflexivity.
Qed.

(** A rule whose rule-result has a result element without text raises. *)
Lemma validate_rule_without_text (root : ET.Element) (rule : Rule.t)
      (rule_result result_elem : ET.Element) (acc : Z * Z * list Verdict.t) :
  search root rule = Ok (Some rule_result) ->
  ElementPath.find rule_result ".//{*}result" = Ok (Some result_elem) ->
  ET.text result_elem = None ->
  validate_rule root rule acc = Raise AttributeError.
Proof.
  unfold search, rule_result_path, validate_rule. intros H1 H2 H3.
  destruct acc as [[p f] rs].
  rewrite H1. cbn [bind]. rewrite H2. cbn [bind]. rewrite H3. reflexivity.
Qed.

(** A rule whose identifier has no single quote and which no rule-result
    element of the report refers to is NOT FOUND and fails. *)
Lemma validate_rule_not_found (root : ET.Element) (rule : Rule.t)
      (passed failed : Z) (results : list Verdict.t) :
  Py.contains ElementPath.squote (Rule.rule_id rule) = false ->
  rule_results_for root (Rule.rule_id rule) = [] ->
  exists v,
    validate_rule root rule (passed, failed, results)
    = Ok (passed, (failed + 1)%Z, (results ++ [v])%list) /\
    Verdict.actual v = "NOT FOUND" /\ Verdict.status v = "FAIL".
Proof.
  intros Hq Hnone. unfold validate_rule.
  fold (rule_result_path (Rule.rule_id rule)).
  rewrite (find_rule_result _ _ Hq), Hnone. cbn [hd_error bind].
  eexists. repeat split.
Qed.












(* ===================================================================== *)
(** * Rule identifiers with a single quote *)

Lemma word_is_name_char (c : ascii) :
  is_word c = true -> ElementPath.name_char c = true.
Proof.
  destruct c as [[] [] [] [] [] [] [] []]; intros H;
    try reflexivity; discriminate H.
Qed.

Lemma word_is_no_colon (c : ascii) :
  is_word c = true -> Ascii.eqb c ":" = false.
Proof.
  destruct c as [[] [] [] [] [] [] [] []]; intros H;
    try reflexivity; discriminate H.
Qed.

Lemma span_words (b rest : string) :
  all_chars is_word b = true ->
  ElementPath.span ElementPath.name_char
                   (b ++ String ElementPath.squote (String "]" rest))
  = b ++ String ElementPath.squote "".
Proof.
  induction b as [|c b IH]; cbn [all_chars append ElementPath.span].
  - reflexivity.
  - intros H. apply andb_prop in H as [Hc Hb].
    rewrite (word_is_name_char _ Hc), IH by assumption. reflexivity.
Qed.

Lemma words_without_colon (b : string) :
  all_chars is_word b = true ->
  Py.contains ":" (b ++ String ElementPath.squote "") = false.
Proof.
  induction b as [|c b IH]; cbn [all_chars append Py.contains].
  - reflexivity.
  - intros H. apply andb_prop in H as [Hc Hb].
    rewrite (word_is_no_colon _ Hc), IH by assumption. reflexivity.
Qed.

(** At a word character only the name alternative matches. *)
Lemma first_match_word (c : ascii) (s : string) :
  is_word c = true ->
  ElementPath.first_match ElementPath.xpath_tokenizer_re (String c s)
  = Some (("", String c (ElementPath.span ElementPath.name_char s)),
          S (String.length (ElementPath.span ElementPath.name_char s))).
Proof.
  destruct c as [[] [] [] [] [] [] [] []]; intros H;
    try discriminate H; reflexivity.
Qed.

Lemma findall_words (b : string) :
  all_chars is_word b = true ->
  ElementPath.findall 0 (b ++ String ElementPath.squote "]")
  = [("", b ++ String ElementPath.squote ""); ("]", "")].
Proof.
  destruct b as [|c b]; [reflexivity|].
  cbn [all_chars append]. intros H. apply andb_prop in H as [Hc Hb].
  cbn [ElementPath.findall]. rewrite (first_match_word _ _ Hc).
  rewrite (span_words b "" Hb). f_equal. cbn [Nat.pred].
  change (b ++ String ElementPath.squote "]")
    with (b ++ (String ElementPath.squote "" ++ "]")).
  rewrite <- append_assoc, <- (Nat.add_0_r (String.length _)).
  rewrite findall_skip. reflexivity.
Qed.

Lemma check_prefix_without_colon (t : ElementPath.token) :
  Py.contains ":" (snd t) = false -> ElementPath.check_prefix t = Ok t.
Proof.
  unfold ElementPath.check_prefix. intros H.
  destruct (snd t); [reflexivity|]. rewrite H, andb_false_r. reflexivity.
Qed.

(** The search for a rule identifier made of a part without single quote,
    a single quote and word characters does not compile: the predicate has
    one token too many. *)
Lemma compile_quoted_rule_id (a b : string) :
  Py.contains ElementPath.squote a = false ->
  all_chars is_word b = true ->
  ElementPath.compile (rule_result_path (a ++ String ElementPath.squote b))
  = Raise (SyntaxError "invalid predicate").
Proof.
  intros Ha Hb. unfold ElementPath.compile.
  assert (Hpath : rule_result_path (a ++ String ElementPath.squote b)
                  = ".//{*}rule-result[@idref=" ++
                    String ElementPath.squote
                      (a ++ String ElementPath.squote
                                   (b ++ String ElementPath.squote "]"))).
  { unfold rule_result_path. rewrite (append_assoc a). reflexivity. }
  assert (Hlast : Py.take_last 1 (rule_result_path
                                    (a ++ String ElementPath.squote b)) = "]").
  { rewrite Hpath.
    change (".//{*}rule-result[@idref=" ++
            String ElementPath.squote
              (a ++ String ElementPath.squote
                           (b ++ String ElementPath.squote "]")))
      with (".//{*}rule-result[@idref='" ++
            (a ++ (String ElementPath.squote ""
                   ++ (b ++ (String ElementPath.squote "" ++ "]"))))).
    rewrite <- !append_assoc. apply (take_last_app _ "]"). }
  rewrite Hlast. cbn [String.eqb Ascii.eqb Bool.eqb].
  unfold ElementPath.xpath_tokenizer.
  rewrite Hpath, findall_prefix, (findall_quoted _ _ Ha), (findall_words _ Hb).
  cbn [map app].
  rewrite (check_prefix_without_colon (_, b ++ _)) by
    (apply (words_without_colon _ Hb)).
  cbn -[Py.take Py.drop String.length].
  rewrite unquote.
  assert (Hne : (b ++ String ElementPath.squote "" =? "") = false)
    by (destruct b; reflexivity).
  rewrite Hne. reflexivity.
Qed.

Lemma search_quoted_rule_id (root : ET.Element) (rule : Rule.t) (a b : string) :
  Rule.rule_id rule = a ++ String ElementPath.squote b ->
  Py.contains ElementPath.squote a = false ->
  all_chars is_word b = true ->
  search root rule = Raise (SyntaxError "invalid predicate").
Proof.
  intros Hid Ha Hb. unfold search, ElementPath.find, ElementPath.iterfind.
  rewrite Hid, (compile_quoted_rule_id _ _ Ha Hb). reflexivity.
Qed.

(** C2, at an input where the code departs from it: no rule-result element
    of the report refers to the rule identifier [it's], and validate
    raises a syntax error instead of returning a NOT FOUND verdict. *)
Theorem quote_in_unmatched_rule_id_raises :
  let self := Sample.validator [Sample.rule 1 "it's" "COMPLIANT"] in
  rule_results_for Sample.report "it's" = [] /\
  validate_xccdf_report (ET.WellFormed Sample.report) self
  = (Raise (SyntaxError "invalid predicate"), self).
Proof. split; vm_compute; reflexivity. Qed.

(** C3, at an input where the code departs from it: the rule-result of
    [r3] is found and its result element has no text; validate raises an
    attribute error instead of returning an UNKNOWN verdict. *)
Theorem empty_result_element_raises :
  let rule := Sample.rule 3 "r3" "UNKNOWN" in
  let self := Sample.validator [rule] in
  search Sample.report rule = Ok (Some (Sample.rule_result "r3" None)) /\
  ElementPath.find (Sample.rule_result "r3" None) ".//{*}result"
  = Ok (Some (ET.mkElement (Sample.xccdf "result") [] None None [])) /\
  validate_xccdf_report (ET.WellFormed Sample.report) self
  = (Raise AttributeError, self).
Proof. repeat split; vm_compute; reflexivity. Qed.

(** C10: there are a non-empty rule list and a well-formed report on which
    validate raises: the identifier of the rule holds a single quote, no
    rule-result element refers to it, and the search for it raises a
    syntax error, which validate passes on, instead of returning nothing. *)
Theorem some_rule_id_breaks_the_search :
  exists (rules : list Rule.t) (root : ET.Element) (rule : Rule.t),
    rules = [rule] /\ rules <> [] /\
    Py.contains ElementPath.squote (Rule.rule_id rule) = true /\
    rule_results_for root (Rule.rule_id rule) = [] /\
    search root rule = Raise (SyntaxError "invalid predicate") /\
    forall (all : list Rule.t) (previous : list Verdict.t),
      validate_xccdf_report (ET.WellFormed root)
                            (mkExcelValidator rules all previous)
      = (Raise (SyntaxError "invalid predicate"),
         mkExcelValidator rules all previous).
Proof.
  exists [Sample.rule 1 "xccdf_org.rule_a'b" "COMPLIANT"], Sample.report,
         (Sample.rule 1 "xccdf_org.rule_a'b" "COMPLIANT").
  assert (Hsearch : search Sample.report
                      (Sample.rule 1 "xccdf_org.rule_a'b" "COMPLIANT")
                    = Raise (SyntaxError "invalid predicate")).
  { apply (search_quoted_rule_id _ _ "xccdf_org.rule_a" "b"); reflexivity. }
  split; [reflexivity|]. split; [discriminate|]. split; [reflexivity|].
  split; [vm_compute; reflexivity|]. split; [exact Hsearch|].
  intros all previous. unfold validate_xccdf_report.
  cbn [rules ET.fromstring bind validate_rules].
  unfold validate_rule. fold (rule_result_path
    (Rule.rule_id (Sample.rule 1 "xccdf_org.rule_a'b" "COMPLIANT"))).
  fold (search Sample.report (Sample.rule 1 "xccdf_org.rule_a'b" "COMPLIANT")).
  rewrite Hsearch. reflexivity.
Qed.
(* ===================================================================== *)
(** * Loading with and without a profile filter *)

Lemma filter_snoc {A : Type} (p : A -> bool) (l : list A) (x : A) :
  filter p (l ++ [x])%list
  = (if p x then filter p l ++ [x] else filter p l)%list.
Proof.
  rewrite filter_app. cbn [filter]. destruct (p x); [reflexivity|].
  apply app_nil_r.
Qed.

Lemma csv_read_rows_filter (fieldnames : list string) (f : string)
      (rows : list (list string)) :
  forall rules : list Rule.t,
    Csv.read_rows fieldnames rows (Some f) (filter (profile_is f) rules)
    = (all <- Csv.read_rows fieldnames rows None rules ;;
       Ok (filter (profile_is f) all)).
Proof.
  induction rows as [|row rows IH]; intros rules; [reflexivity|].
  destruct row as [|x row]; [apply IH|].
  cbn [Csv.read_rows].
  destruct (Csv.rule_of_row _) as [rule|e]; cbn [bind]; [|reflexivity].
  cbn [profile_selected]. rewrite <- IH, filter_snoc. reflexivity.
Qed.

Lemma excel_read_rows_filter (headers : list Excel.cell) (f : string)
      (rows : list (list Excel.cell)) :
  forall rules : list Rule.t,
    Excel.read_rows headers rows (Some f) (filter (profile_is f) rules)
    = (all <- Excel.read_rows headers rows None rules ;;
       Ok (filter (profile_is f) all)).
Proof.
  induction rows as [|row rows IH]; intros rules; [reflexivity|].
  destruct row as [|c row]; [reflexivity|].
  cbn [Excel.read_rows].
  destruct (negb (Excel.truthy c)); [apply IH|].
  destruct (Excel.rule_of_row _) as [rule|e]; cbn [bind]; [|reflexivity].
  cbn [profile_selected]. rewrite <- IH, filter_snoc. reflexivity.
Qed.

Lemma csv_read_filter (csv_path : string) (csv_file : option Csv.file)
      (f : string) :
  Csv.read csv_path csv_file (Some f)
  = (all <- Csv.read csv_path csv_file None ;; Ok (filter (profile_is f) all)).
Proof.
  destruct csv_file as [[|fieldnames rows]|]; try reflexivity.
  apply (csv_read_rows_filter fieldnames f rows []).
Qed.

Lemma excel_read_filter (excel_path : string)
      (excel_file : option Excel.workbook) (sheet_name : option string)
      (f : string) :
  Excel.read excel_path excel_file sheet_name (Some f)
  = (all <- Excel.read excel_path excel_file sheet_name None ;;
     Ok (filter (profile_is f) all)).
Proof.
  destruct excel_file as [wb|]; [|reflexivity]. cbn [Excel.read].
  destruct (Excel.select_sheet wb sheet_name) as [sheet|e]; [|reflexivity].
  cbn [bind]. destruct (Excel.first_row sheet) as [headers|e]; [|reflexivity].
  cbn [bind]. destruct (Excel.check_headers _ headers); [|reflexivity].
  cbn [bind]. apply (excel_read_rows_filter _ f _ []).
Qed.

Lemma csv_read_rows_all (fieldnames : list string) (rows : list (list string)) :
  forall rules all : list Rule.t,
    Csv.read_rows fieldnames rows None rules = Ok all ->
    exists loaded,
      all = (rules ++ loaded)%list /\
      Forall2 (fun row rule =>
                 Csv.rule_of_row (Csv.row_dict fieldnames row) = Ok rule)
              (filter csv_row_read rows) loaded.
Proof.
  induction rows as [|row rows IH]; intros rules all.
  - intros H; injection H as <-. exists []. rewrite app_nil_r.
    split; [reflexivity | constructor].
  - destruct row as [|x row]; [apply IH|].
    cbn [Csv.read_rows filter csv_row_read].
    destruct (Csv.rule_of_row _) as [rule|e] eqn:Hrule; cbn [bind];
      [|discriminate].
    cbn [profile_selected]. intros H.
    apply IH in H as (loaded & -> & Hl).
    exists (rule :: loaded). rewrite <- app_assoc.
    split; [reflexivity | now constructor].
Qed.

Lemma excel_read_rows_all (headers : list Excel.cell)
      (rows : list (list Excel.cell)) :
  forall rules all : list Rule.t,
    Excel.read_rows headers rows None rules = Ok all ->
    exists loaded,
      all = (rules ++ loaded)%list /\
      Forall2 (fun row rule =>
                 Excel.rule_of_row (combine headers row) = Ok rule)
              (filter excel_row_read rows) loaded.
Proof.
  induction rows as [|row rows IH]; intros rules all.
  - intros H; injection H as <-. exists []. rewrite app_nil_r.
    split; [reflexivity | constructor].
  - destruct row as [|c row]; [discriminate|].
    cbn [Excel.read_rows filter excel_row_read].
    destruct (Excel.truthy c); cbn [negb]; [|apply IH].
    destruct (Excel.rule_of_row _) as [rule|e] eqn:Hrule; cbn [bind];
      [|discriminate].
    cbn [profile_selected]. intros H.
    apply IH in H as (loaded & -> & Hl).
    exists (rule :: loaded). rewrite <- app_assoc.
    split; [reflexivity | now constructor].
Qed.

Lemma filter_nothing {A : Type} (p : A -> bool) (l : list A) :
  (forall x, In x l -> p x = false) -> filter p l = [].
Proof.
  induction l as [|x l IH]; cbn [filter]; [reflexivity|].
  intros H. rewrite (H x) by now left. apply IH. intros y Hy. apply H. now right.
Qed.

Lemma fst_load_csv (csv_path : string) (csv_file : option Csv.file)
      (profile_filter : option string) (self : ExcelValidator) :
  fst (load_rules_from_csv csv_path csv_file profile_filter self)
  = Csv.read csv_path csv_file profile_filter.
Proof.
  unfold load_rules_from_csv. destruct (Csv.read _ _ _); reflexivity.
Qed.

Lemma fst_load_excel (excel_path : string) (excel_file : option Excel.workbook)
      (sheet_name profile_filter : option string) (self : ExcelValidator) :
  fst (load_rules_from_excel excel_path excel_file sheet_name profile_filter self)
  = Excel.read excel_path excel_file sheet_name profile_filter.
Proof.
  unfold load_rules_from_excel. destruct (Excel.read _ _ _ _); reflexivity.
Qed.

(** X30: a load with a profile filter returns the rules of the load
    without filter whose profile field is the filter, letter case apart,
    in the same order (and raises what that load raises); a filter that no
    rule has gives the empty list; a load without filter returns one rule
    for every row that is read, in the order of the rows. The profile
    field of a rule is the stripped text of the PROFILE value of its row,
    which for a row of a spreadsheet is the text [str] makes of the cell
    value. *)
Theorem profile_filter_selects_matching_rows :
  (forall (csv_path : string) (csv_file : option Csv.file) (f : string)
          (self : ExcelValidator),
      fst (load_rules_from_csv csv_path csv_file (Some f) self)
      = (all <- fst (load_rules_from_csv csv_path csv_file None self) ;;
         Ok (filter (fun rule => Py.upper (Rule.profile rule) =? Py.upper f)
                    all))) /\
  (forall (excel_path : string) (excel_file : option Excel.workbook)
          (sheet_name : option string) (f : string) (self : ExcelValidator),
      fst (load_rules_from_excel excel_path excel_file sheet_name (Some f) self)
      = (all <- fst (load_rules_from_excel excel_path excel_file sheet_name
                                           None self) ;;
         Ok (filter (fun rule => Py.upper (Rule.profile rule) =? Py.upper f)
                    all))) /\
  (forall (csv_path : string) (csv_file : option Csv.file) (f : string)
          (self : ExcelValidator) (all : list Rule.t),
      fst (load_rules_from_csv csv_path csv_file None self) = Ok all ->
      forallb (fun rule => negb (profile_is f rule)) all = true ->
      fst (load_rules_from_csv csv_path csv_file (Some f) self) = Ok []) /\
  (forall (excel_path : string) (excel_file : option Excel.workbook)
          (sheet_name : option string) (f : string) (self : ExcelValidator)
          (all : list Rule.t),
      fst (load_rules_from_excel excel_path excel_file sheet_name None self)
      = Ok all ->
      forallb (fun rule => negb (profile_is f rule)) all = true ->
      fst (load_rules_from_excel excel_path excel_file sheet_name (Some f) self)
      = Ok []) /\
  (forall (csv_path : string) (fieldnames : list string)
          (rows : list (list string)) (self : ExcelValidator)
          (all : list Rule.t),
      fst (load_rules_from_csv csv_path (Some (fieldnames :: rows)) None self)
      = Ok all ->
      Forall2 (fun row rule =>
                 Csv.rule_of_row (Csv.row_dict fieldnames row) = Ok rule)
              (filter csv_row_read rows) all) /\
  (forall (excel_path : string) (wb : Excel.workbook)
          (sheet_name : option string) (sheet : Excel.worksheet)
          (self : ExcelValidator) (all : list Rule.t),
      Excel.select_sheet wb sheet_name = Ok sheet ->
      fst (load_rules_from_excel excel_path (Some wb) sheet_name None self)
      = Ok all ->
      Forall2 (fun row rule =>
                 Excel.rule_of_row (combine (Excel.row1 sheet) row) = Ok rule)
              (filter excel_row_read (Excel.data_rows sheet)) all).
Proof.
  assert (Hnone : forall f (all : list Rule.t),
             forallb (fun rule => negb (profile_is f rule)) all = true ->
             filter (profile_is f) all = []).
  { intros f all H. apply filter_nothing. intros x Hx.
    rewrite forallb_forall in H. apply negb_true_iff, (H x Hx). }
  repeat apply conj.
  - intros. rewrite !fst_load_csv. apply csv_read_filter.
  - intros. rewrite !fst_load_excel. apply excel_read_filter.
  - intros csv_path csv_file f self all. rewrite !fst_load_csv.
    intros H Hf. rewrite csv_read_filter, H. cbn [bind].
    now rewrite (Hnone f all Hf).
  - intros excel_path excel_file sheet_name f self all. rewrite !fst_load_excel.
    intros H Hf. rewrite excel_read_filter, H. cbn [bind].
    now rewrite (Hnone f all Hf).
  - intros csv_path fieldnames rows self all. rewrite fst_load_csv.
    cbn [Csv.read]. intros H.
    apply csv_read_rows_all in H as (loaded & -> & Hl). exact Hl.
  - intros excel_path wb sheet_name sheet self all Hsheet.
    rewrite fst_load_excel. cbn [Excel.read]. rewrite Hsheet. cbn [bind].
    destruct sheet as [headers rows|]; cbn [Excel.first_row bind];
      [|discriminate].
    destruct (Excel.check_headers _ headers); cbn [bind]; [|discriminate].
    cbn [Excel.row1 Excel.data_rows]. intros H. apply excel_read_rows_all in H as (loaded & -> & Hl). exact Hl.
Qed.

Lemma profile_filter_selects_matching_rows_witness :
  (fst (load_rules_from_csv "rules.csv" (Some Sample.csv_table) None init)
   = Ok Sample.table_rules /\
   forallb (fun rule => negb (profile_is "severity_cat_iii" rule))
           Sample.table_rules = true /\
   Excel.select_sheet Sample.workbook (Some "Rules") = Ok Sample.worksheet /\
   fst (load_rules_from_excel "rules.xlsx" (Some Sample.workbook)
                              (Some "Rules") None init)
   = Ok Sample.sheet_rules /\
   forallb (fun rule => negb (profile_is "severity_cat_iii" rule))
           Sample.sheet_rules = true) /\
  fst (load_rules_from_csv "rules.csv" (Some Sample.csv_table)
                           (Some "severity_cat_iii") init) = Ok [] /\
  fst (load_rules_from_excel "rules.xlsx" (Some Sample.workbook)
                             (Some "Rules") (Some "severity_cat_iii") init)
  = Ok [] /\
  Forall2 (fun row rule =>
             Csv.rule_of_row (Csv.row_dict (hd [] Sample.csv_table) row)
             = Ok rule)
          (filter csv_row_read (tl Sample.csv_table)) Sample.table_rules /\
  Forall2 (fun row rule =>
             Excel.rule_of_row (combine (Excel.row1 Sample.worksheet) row)
             = Ok rule)
          (filter excel_row_read (Excel.data_rows Sample.worksheet))
          Sample.sheet_rules.
Proof.
  destruct profile_filter_selects_matching_rows
    as (_ & _ & Hcsv0 & Hxl0 & Hcsv & Hxl).
  split; [repeat split; vm_compute; reflexivity|].
  split; [apply (Hcsv0 _ _ _ _ Sample.table_rules); vm_compute; reflexivity|].
  split; [apply (Hxl0 _ _ _ _ _ Sample.sheet_rules); vm_compute; reflexivity|].
  split.
  - apply (Hcsv "rules.csv" _ _ init). vm_compute. reflexivity.
  - apply (Hxl "rules.xlsx" Sample.workbook (Some "Rules") _ init);
      vm_compute; reflexivity.
Defined.

(** C8, at an input where the code departs from it: a row of a
    spreadsheet whose PROFILE cell is empty is loaded with the profile
    None, the text of the missing value, and the load with the filter none
    returns it, although the PROFILE value of the row is not the filter;
    the CSV loader reads the empty field of the same table as the empty
    profile and returns no rule for that filter. *)
Theorem empty_profile_cell_is_selected_by_none :
  let headers := ["NUMBER"; "RULE_ID"; "EXPECTED_RESULT"; "PROFILE"] in
  let sheet :=
    Excel.mkWorksheet
      (map Excel.CStr headers)
      [ [Excel.CInt 1; Excel.CStr "r1"; Excel.CStr "COMPLIANT"; Excel.CNone];
        [Excel.CInt 2; Excel.CStr "r2"; Excel.CStr "COMPLIANT";
         Excel.CStr "SEVERITY_CAT_I"] ] in
  let table :=
    [ headers;
      ["1"; "r1"; "COMPLIANT"; ""];
      ["2"; "r2"; "COMPLIANT"; "SEVERITY_CAT_I"] ] in
  let loaded := [Rule.mk 1 "r1" "COMPLIANT" "" "None"] in
  (forall self : ExcelValidator,
      load_rules_from_excel "rules.xlsx"
        (Some (Excel.mkWorkbook [("Rules", sheet)] (Some sheet))) None
        (Some "none") self
      = (Ok loaded,
         mkExcelValidator loaded (all_rules self) (validation_results self)))
  /\
  Excel.lookup (combine (Excel.row1 sheet) (hd [] (Excel.data_rows sheet)))
               "PROFILE"
  = Some Excel.CNone /\
  (forall self : ExcelValidator,
      load_rules_from_csv "rules.csv" (Some table) (Some "none") self
      = (Ok [],
         mkExcelValidator [] (all_rules self) (validation_results self))) /\
  (forall self : ExcelValidator,
      fst (load_rules_from_csv "rules.csv" (Some table) None self)
      = Ok [ Rule.mk 1 "r1" "COMPLIANT" "" "";
             Rule.mk 2 "r2" "COMPLIANT" "" "SEVERITY_CAT_I" ]).
Proof.
  intros headers sheet table loaded.
  split; [intros self; reflexivity|]. split; [reflexivity|].
  split; intros self; reflexivity.
Qed.

Example load_with_filter :
  fst (load_rules_from_csv "rules.csv" (Some Sample.csv_table)
                           (Some "severity_cat_i") init)
  = Ok [ Rule.mk 1 "r1" "COMPLIANT" "first" "SEVERITY_CAT_I";
         Rule.mk 3 "r3" "NOT COMPLIANT" "" "Severity_Cat_I" ].
Proof. vm_compute. reflexivity. Qed.
(* ===================================================================== *)
(** * A header without a required column *)

Lemma check_headers_missing (headers : list Excel.cell) (header : string)
      (required : list string) :
  In header required ->
  Excel.has_header header headers = false ->
  exists missing,
    In missing required /\
    Excel.check_headers required headers
    = Raise (ValueError ("Missing required header: " ++ missing)).
Proof.
  induction required as [|h required IH]; cbn [In Excel.check_headers];
    [contradiction|].
  intros Hin Hmissing.
  destruct (Excel.has_header h headers) eqn:Hh; cbn [negb].
  - destruct Hin as [->|Hin]; [congruence|].
    destruct (IH Hin Hmissing) as (missing & Hm & ->). eauto.
  - exists h. split; [now left | reflexivity].
Qed.

(** The spreadsheet loader checks the header before it reads a row: without
    a required column it raises and leaves the object as it was. *)
Lemma excel_missing_header_raises (excel_path : string) (wb : Excel.workbook)
      (sheet_name profile_filter : option string) (sheet : Excel.worksheet)
      (headers : list Excel.cell) (header : string) (self : ExcelValidator) :
  Excel.select_sheet wb sheet_name = Ok sheet ->
  Excel.first_row sheet = Ok headers ->
  In header required_headers ->
  Excel.has_header header headers = false ->
  exists missing,
    In missing required_headers /\
    load_rules_from_excel excel_path (Some wb) sheet_name profile_filter self
    = (Raise (ValueError ("Missing required header: " ++ missing)), self).
Proof.
  intros Hsheet Hrow Hin Hmissing.
  destruct (check_headers_missing _ _ _ Hin Hmissing) as (missing & Hm & Hc).
  exists missing. split; [exact Hm|].
  unfold load_rules_from_excel, Excel.read. rewrite Hsheet. cbn [bind].
  rewrite Hrow. cbn [bind].
  unfold required_headers in Hc. rewrite Hc. reflexivity.
Qed.

(** A sheet without any row has no first row to read the header from: the
    loader raises [IndexError] and leaves the object as it was. *)
Lemma excel_sheet_without_rows_raises (excel_path : string)
      (wb : Excel.workbook) (sheet_name profile_filter : option string)
      (self : ExcelValidator) :
  Excel.select_sheet wb sheet_name = Ok Excel.NoRows ->
  load_rules_from_excel excel_path (Some wb) sheet_name profile_filter self
  = (Raise IndexError, self).
Proof.
  intros Hsheet. unfold load_rules_from_excel, Excel.read.
  rewrite Hsheet. reflexivity.
Qed.

Lemma in_skipn {A : Type} (x : A) (n : nat) (l : list A) :
  In x (skipn n l) -> In x l.
Proof.
  revert l; induction n as [|n IH]; intros [|y l]; cbn [skipn]; auto.
  intros H. right. now apply IH.
Qed.

Lemma row_dict_absent (fieldnames row : list string) (key : string) :
  ~ In key fieldnames -> getitem (Csv.row_dict fieldnames row) key = None.
Proof.
  intros H. apply getitem_absent. unfold Csv.row_dict.
  rewrite map_app, in_app_iff, map_map. cbn [fst]. rewrite map_id.
  intros [Hin|Hin].
  - apply in_map_iff in Hin as ([k v] & <- & Hkv).
    apply in_combine_l in Hkv. contradiction.
  - apply in_skipn in Hin. contradiction.
Qed.

Lemma rule_of_row_missing_column (fieldnames row : list string)
      (column : string) :
  In column required_headers -> ~ In column fieldnames ->
  exists e, Csv.rule_of_row (Csv.row_dict fieldnames row) = Raise e.
Proof.
  intros Hin Hmissing. unfold Csv.rule_of_row.
  pose proof (row_dict_absent fieldnames row column Hmissing) as Hget.
  destruct Hin as [<-|[<-|[<-|[]]]].
  - unfold Csv.number_field. rewrite Hget. eexists; reflexivity.
  - destruct (Csv.number_field _); cbn [bind]; [|eexists; reflexivity].
    unfold Csv.field at 1. rewrite Hget. eexists; reflexivity.
  - destruct (Csv.number_field _); cbn [bind]; [|eexists; reflexivity].
    destruct (Csv.field _ "RULE_ID"); cbn [bind]; [|eexists; reflexivity].
    unfold Csv.field at 1. rewrite Hget. eexists; reflexivity.
Qed.

(** The CSV loader has no check of the header: without a required column it
    raises at the first row it reads, and leaves the object as it was. *)
Lemma csv_missing_column_raises (csv_path : string) (fieldnames : list string)
      (rows : list (list string)) (profile_filter : option string)
      (column : string) (self : ExcelValidator) :
  In column required_headers -> ~ In column fieldnames ->
  filter csv_row_read rows <> [] ->
  exists e,
    load_rules_from_csv csv_path (Some (fieldnames :: rows)) profile_filter self
    = (Raise e, self).
Proof.
  intros Hin Hmissing Hrows.
  assert (H : forall rules, exists e,
               Csv.read_rows fieldnames rows profile_filter rules = Raise e).
  { induction rows as [|row rows IH]; [contradiction|]. intros rules.
    destruct row as [|x row]; [apply IH; exact Hrows|].
    cbn [Csv.read_rows].
    destruct (rule_of_row_missing_column fieldnames (x :: row) column
                Hin Hmissing) as (e & ->).
    eexists; reflexivity. }
  destruct (H []) as (e & He). exists e.
  unfold load_rules_from_csv, Csv.read. rewrite He. reflexivity.
Qed.

(** The CSV loader returns the empty list, and replaces the retained rules
    by it, for any header when there are no rows to read. *)
Lemma csv_without_rows_loads (csv_path : string) (fieldnames : list string)
      (rows : list (list string)) (self : ExcelValidator) :
  filter csv_row_read rows = [] ->
  load_rules_from_csv csv_path (Some (fieldnames :: rows)) None self
  = (Ok [], mkExcelValidator [] [] (validation_results self)).
Proof.
  intros Hrows.
  assert (H : forall rules,
             Csv.read_rows fieldnames rows None rules = Ok rules).
  { induction rows as [|row rows IH]; [reflexivity|]. intros rules.
    destruct row as [|x row]; [apply IH; exact Hrows|]. discriminate Hrows. }
  unfold load_rules_from_csv, Csv.read. rewrite (H []). reflexivity.
Qed.

(** C6, at an input where the code departs from it: the header of the CSV
    file lacks the RULE_ID column and the file has no data rows; the load
    returns the empty list and replaces the retained rules by it, where
    the spreadsheet loader raises for the same header. *)
Theorem csv_header_without_rule_id_loads :
  In "RULE_ID" required_headers /\
  ~ In "RULE_ID" (hd [] Sample.csv_without_rule_id) /\
  (forall self : ExcelValidator,
      load_rules_from_csv "rules.csv" (Some Sample.csv_without_rule_id) None
                          self
      = (Ok [], mkExcelValidator [] [] (validation_results self))) /\
  (forall self : ExcelValidator,
      load_rules_from_excel "rules.xlsx"
        (Some (Excel.mkWorkbook []
                 (Some (Excel.mkWorksheet
                          [Excel.CStr "NUMBER"; Excel.CStr "EXPECTED_RESULT";
                           Excel.CStr "PROFILE"] []))))
        None None self
      = (Raise (ValueError "Missing required header: RULE_ID"), self)).
Proof.
  split; [cbn; tauto|]. split.
  - cbn. intros [H|[H|[H|[]]]]; discriminate H.
  - split; intros self; [|reflexivity].
    apply (csv_without_rows_loads "rules.csv" _ [] self). reflexivity.
Qed.

(* ===================================================================== *)
(** * The object across calls *)

Lemma validate_raise_inv (xml_content : ET.document) (self self' : ExcelValidator)
      (e : exn) :
  validate_xccdf_report xml_content self = (Raise e, self') -> self' = self.
Proof.
  unfold validate_xccdf_report.
  destruct (rules self) as [|rule rules']; [now intros [= _ <-]|].
  destruct (bind _ _) as [[[p f] rs]|e']; [discriminate | now intros [= _ <-]].
Qed.

(** X1: a validate call that raises, for whatever reason, leaves the object
    as it was: the verdicts of the previous call stay, and the lists of
    failed and of passed rules are the ones of before. *)
Theorem validate_that_raises_keeps_object (xml_content : ET.document)
        (self self' : ExcelValidator) (e : exn) :
  validate_xccdf_report xml_content self = (Raise e, self') ->
  self' = self /\
  get_failed_rules self' = get_failed_rules self /\
  get_passed_rules self' = get_passed_rules self.
Proof.
  intros H. apply validate_raise_inv in H. subst self'. auto.
Qed.

Lemma validate_that_raises_keeps_object_witness :
  let self := mkExcelValidator [Sample.rule 3 "r3" "UNKNOWN"] []
                [Verdict.mk 1 "r1" "" "COMPLIANT" "COMPLIANT" "PASS" ""] in
  let self' := snd (validate_xccdf_report (ET.WellFormed Sample.report) self) in
  validate_xccdf_report (ET.WellFormed Sample.report) self
  = (Raise AttributeError, self') /\
  (self' = self /\
   get_failed_rules self' = get_failed_rules self /\
   get_passed_rules self' = get_passed_rules self).
Proof.
  intros self self'. split; [vm_compute; reflexivity|].
  apply (validate_that_raises_keeps_object (ET.WellFormed Sample.report) self
           self' AttributeError).
  vm_compute. reflexivity.
Defined.

(** X2: in every outcome validate leaves the rules and the unfiltered rules
    of the object as they were, and a second call on the same report gives
    the outcome and the object of the first. *)
Theorem validate_keeps_rules_and_repeats (xml_content : ET.document)
        (self : ExcelValidator) :
  let self' := snd (validate_xccdf_report xml_content self) in
  rules self' = rules self /\ all_rules self' = all_rules self /\
  validate_xccdf_report xml_content self'
  = validate_xccdf_report xml_content self.
Proof.
  unfold validate_xccdf_report.
  destruct (rules self) as [|rule rules'] eqn:Hrules.
  - cbn [snd]. rewrite Hrules. auto.
  - destruct (bind _ _) as [[[p f] rs]|e] eqn:Hrun; cbn [snd rules all_rules].
    + rewrite Hrun. auto.
    + rewrite Hrules, Hrun. auto.
Qed.

(** The loop, for a property every step of the body keeps. *)
Lemma validate_rules_forall2 (root : ET.Element)
      (P : Rule.t -> Verdict.t -> Prop) :
  (forall rule p f p' f' rs rs',
      validate_rule root rule (p, f, rs) = Ok (p', f', rs') ->
      exists v, rs' = (rs ++ [v])%list /\ P rule v) ->
  forall (rules : list Rule.t) (p f p' f' : Z) (rs rs' : list Verdict.t),
    validate_rules root rules (p, f, rs) = Ok (p', f', rs') ->
    exists vs, rs' = (rs ++ vs)%list /\ Forall2 P rules vs.
Proof.
  intros Hstep rules.
  induction rules as [|rule rules IH]; intros p f p' f' rs rs';
    cbn [validate_rules].
  - intros [= <- <- <-]. exists []. rewrite app_nil_r. split; constructor.
  - destruct (validate_rule root rule (p, f, rs)) as [[[p1 f1] rs1]|e] eqn:H1;
      cbn [bind]; [|discriminate].
    intros H2. apply Hstep in H1 as (v & -> & Hv).
    apply IH in H2 as (vs & -> & Hvs).
    exists (v :: vs). rewrite <- app_assoc. split; [reflexivity|].
    now constructor.
Qed.

Lemma graded_status (root : ET.Element) (rule : Rule.t) (v : Verdict.t) :
  graded root rule v -> Verdict.status v = "PASS" \/ Verdict.status v = "FAIL".
Proof.
  intros [(_ & _ & H)|(_ & [(_ & H)|(_ & H)])]; auto.
Qed.

Lemma filter_pass_fail (vs : list Verdict.t) :
  Forall (fun v => Verdict.status v = "PASS" \/ Verdict.status v = "FAIL") vs ->
  (List.length (filter (fun r => (Verdict.status r =? "PASS")%string) vs)
   + List.length (filter (fun r => (Verdict.status r =? "FAIL")%string) vs)
   = List.length vs)%nat.
Proof.
  induction 1 as [|v vs [Hv|Hv] _ IH]; [reflexivity| |]; cbn [filter];
    rewrite Hv; cbn [String.eqb Ascii.eqb Bool.eqb List.length]; lia.
Qed.

Lemma Forall2_right {A B : Type} (P : A -> B -> Prop) (Q : B -> Prop)
      (l : list A) (l' : list B) :
  (forall a b, P a b -> Q b) -> Forall2 P l l' -> Forall Q l'.
Proof. intros H; induction 1; constructor; eauto. Qed.

(** X3: after a validate call that returns, the passed rules and the failed
    rules are as many as the counts returned, every verdict is in one of
    the two lists and none is in both. *)
Theorem passed_and_failed_rules_split_the_results
        (xml_content : ET.document) (self self' : ExcelValidator)
        (passed failed : Z) (results : list Verdict.t) :
  validate_xccdf_report xml_content self
  = (Ok (passed, failed, results), self') ->
  Z.of_nat (List.length (get_passed_rules self')) = passed /\
  Z.of_nat (List.length (get_failed_rules self')) = failed /\
  (forall v, In v results <->
             In v (get_passed_rules self') \/ In v (get_failed_rules self')) /\
  (forall v, In v (get_passed_rules self') -> ~ In v (get_failed_rules self')).
Proof.
  intros H. apply validate_inv in H as (root & _ & _ & H & ->).
  apply validate_rules_inv in H as (vs & Hrs & _ & Hgs & -> & ->).
  cbn [app] in Hrs. subst vs.
  apply (Forall2_right _ _ _ _ (graded_status root)) in Hgs.
  pose proof (filter_pass_fail results Hgs) as Hlen.
  unfold get_passed_rules, get_failed_rules, count_pass in *.
  cbn [validation_results].
  split; [lia|]. split; [lia|]. split.
  - intros v. rewrite !filter_In. split.
    + intros Hin. rewrite Forall_forall in Hgs.
      destruct (Hgs v Hin) as [Hs|Hs]; rewrite Hs; auto.
    + tauto.
  - intros v. rewrite !filter_In. intros [_ Hp] [_ Hf].
    apply String.eqb_eq in Hp, Hf. congruence.
Qed.

Lemma passed_and_failed_rules_split_the_results_witness :
  let self := Sample.validator [Sample.rule 1 "r1" "COMPLIANT";
                                Sample.rule 2 "r2" "FIXED";
                                Sample.rule 9 "r9" "COMPLIANT"] in
  let run := validate_xccdf_report (ET.WellFormed Sample.report) self in
  exists results,
    run = (Ok (1, 2, results)%Z, snd run) /\
    map Verdict.rule_id (get_passed_rules (snd run)) = ["r1"] /\
    map Verdict.rule_id (get_failed_rules (snd run)) = ["r2"; "r9"] /\
    (Z.of_nat (List.length (get_passed_rules (snd run))) = 1%Z /\
     Z.of_nat (List.length (get_failed_rules (snd run))) = 2%Z /\
     (forall v, In v results <->
                In v (get_passed_rules (snd run)) \/
                In v (get_failed_rules (snd run))) /\
     (forall v, In v (get_passed_rules (snd run)) ->
                ~ In v (get_failed_rules (snd run)))).
Proof.
  intros self run. eexists.
  split; [vm_compute; reflexivity|]. split; [reflexivity|].
  split; [reflexivity|].
  apply (passed_and_failed_rules_split_the_results
           (ET.WellFormed Sample.report) self).
  vm_compute. reflexivity.
Defined.

Lemma validate_rule_message (root : ET.Element) (rule : Rule.t)
      (p f p' f' : Z) (rs rs' : list Verdict.t) :
  validate_rule root rule (p, f, rs) = Ok (p', f', rs') ->
  exists v, rs' = (rs ++ [v])%list /\ message_for root rule v.
Proof.
  unfold validate_rule, message_for, search, rule_result_path.
  destruct (ElementPath.find root _) as [[rr|]|e] eqn:Hfind;
    cbn [bind]; [| |discriminate].
  - destruct (ElementPath.find rr _) as [re|e]; cbn [bind]; [|discriminate].
    match goal with
    | |- bind ?a _ = _ -> _ => destruct a as [actual|e]
    end; cbn [bind]; [|discriminate].
    destruct (actual =? Rule.expected_result rule);
      intros [= <- <- <-]; eexists; (split; [reflexivity|]); cbn; auto.
  - intros [= <- <- <-]; eexists; (split; [reflexivity|]); reflexivity.
Qed.

(** X4: in a validate call that returns, the message of a verdict is the
    not-found text when the search found no rule-result, the match text
    when the status is PASS, and otherwise the mismatch text with the
    expected and the actual result of that verdict. *)
Theorem verdict_messages (root : ET.Element) (self self' : ExcelValidator)
        (passed failed : Z) (results : list Verdict.t) :
  validate_xccdf_report (ET.WellFormed root) self
  = (Ok (passed, failed, results), self') ->
  Forall2 (message_for root) (rules self) results.
Proof.
  intros H. apply validate_inv in H as (root' & [= <-] & _ & H & _).
  apply (validate_rules_forall2 root (message_for root)
           (validate_rule_message root)) in H as (vs & -> & Hvs).
  exact Hvs.
Qed.

Lemma verdict_messages_witness :
  let self := Sample.validator [Sample.rule 1 "r1" "COMPLIANT";
                                Sample.rule 2 "r2" "FIXED";
                                Sample.rule 9 "r9" "COMPLIANT"] in
  let run := validate_xccdf_report (ET.WellFormed Sample.report) self in
  exists results,
    run = (Ok (1, 2, results)%Z, snd run) /\
    map Verdict.message results
    = [check_mark ++ " Match";
       ballot_x ++ " Mismatch: Expected FIXED, Got ERROR";
       "Rule not found in XCCDF report"] /\
    Forall2 (message_for Sample.report) (rules self) results.
Proof.
  intros self run. eexists.
  split; [vm_compute; reflexivity|]. split; [reflexivity|].
  apply (verdict_messages Sample.report self (snd run) 1%Z 2%Z).
  vm_compute. reflexivity.
Defined.


(* ===================================================================== *)
(** * The search as a filter of the elements *)

Lemma compared_status (rule : Rule.t) (actual_result : string) :
  Verdict.status (compared rule actual_result)
  = if actual_result =? Rule.expected_result rule then "PASS" else "FAIL".
Proof.
  unfold compared. destruct (actual_result =? _); reflexivity.
Qed.

(** The body of the loop for an identifier without single quote. *)
Lemma validate_rule_judge (root : ET.Element) (rule : Rule.t)
      (p f : Z) (rs : list Verdict.t) :
  quote_free rule = true ->
  validate_rule root rule (p, f, rs)
  = (v <- judge root rule ;;
     Ok (p + count_pass [v], f + (1 - count_pass [v]), rs ++ [v])%Z%list).
Proof.
  unfold quote_free. intros Hq. apply negb_true_iff in Hq.
  unfold validate_rule, judge.
  fold (rule_result_path (Rule.rule_id rule)).
  rewrite (find_rule_result _ _ Hq).
  destruct (hd_error (rule_results_for root _)) as [rr|]; cbn [bind].
  - rewrite find_result.
    assert (Hcmp : forall actual,
      (if actual =? Rule.expected_result rule
       then Ok (p + 1, f,
                rs ++ [Verdict.mk (Rule.number rule) (Rule.rule_id rule)
                         (Rule.description rule) (Rule.expected_result rule)
                         actual "PASS" (check_mark ++ " Match")])%Z%list
       else Ok (p, f + 1,
                rs ++ [Verdict.mk (Rule.number rule) (Rule.rule_id rule)
                         (Rule.description rule) (Rule.expected_result rule)
                         actual "FAIL"
                         (ballot_x ++ " Mismatch: Expected "
                          ++ Rule.expected_result rule ++ ", Got "
                          ++ actual)])%Z%list)
      = Ok (p + count_pass [compared rule actual],
            f + (1 - count_pass [compared rule actual]),
            rs ++ [compared rule actual])%Z%list).
    { intros actual. unfold compared, count_pass.
      destruct (actual =? Rule.expected_result rule); cbn; do 3 f_equal; lia. }
    destruct (hd_error (result_elements rr)) as [re|]; cbn [bind].
    + destruct (ET.text re) as [t|]; cbn [bind]; [|reflexivity].
      fold (actual_of_text t). apply Hcmp.
    + apply Hcmp.
  - cbn. do 3 f_equal; lia.
Qed.

Lemma count_pass_nonneg (vs : list Verdict.t) : (0 <= count_pass vs)%Z.
Proof. unfold count_pass. lia. Qed.

Lemma validate_rules_judge (root : ET.Element) (rules : list Rule.t) :
  forallb quote_free rules = true ->
  forall (p f : Z) (rs : list Verdict.t),
    validate_rules root rules (p, f, rs)
    = (vs <- traverse (judge root) rules ;;
       Ok (p + count_pass vs,
           f + (Z.of_nat (List.length vs) - count_pass vs),
           rs ++ vs)%Z%list).
Proof.
  induction rules as [|rule rules IH]; cbn [forallb validate_rules traverse];
    intros Hq p f rs.
  - cbn. rewrite app_nil_r. do 3 f_equal; lia.
  - apply andb_prop in Hq as [Hq Hqs].
    rewrite (validate_rule_judge _ _ _ _ _ Hq).
    destruct (judge root rule) as [v|e]; cbn [bind]; [|reflexivity].
    rewrite (IH Hqs).
    destruct (traverse (judge root) rules) as [vs|e]; cbn [bind]; [|reflexivity].
    rewrite <- app_assoc, !count_pass_cons. cbn [app List.length].
    change (count_pass []) with 0%Z. rewrite Nat2Z.inj_succ.
    destruct (Verdict.status v =? "PASS"); do 3 f_equal; lia.
Qed.

(** X5: for rule identifiers without single quote, validate is a pass over
    the rules that reads each verdict off the first rule-result element, in
    document order and in any namespace, whose idref is the identifier, and
    the first result element below it; the counts are those of the PASS
    verdicts and of the others. *)
Theorem validate_by_first_matching_elements (root : ET.Element)
        (self : ExcelValidator) :
  rules self <> [] ->
  forallb quote_free (rules self) = true ->
  validate_xccdf_report (ET.WellFormed root) self
  = match traverse (judge root) (rules self) with
    | Ok results =>
        (Ok (count_pass results,
             (Z.of_nat (List.length results) - count_pass results)%Z,
             results),
         mkExcelValidator (rules self) (all_rules self) results)
    | Raise e => (Raise e, self)
    end.
Proof.
  intros Hne Hq. unfold validate_xccdf_report.
  destruct (rules self) as [|rule rules'] eqn:Hrules; [contradiction|].
  cbn [ET.fromstring bind]. rewrite (validate_rules_judge _ _ Hq).
  destruct (traverse (judge root) (rule :: rules')) as [vs|e]; cbn [bind app];
    reflexivity.
Qed.

Lemma validate_by_first_matching_elements_witness :
  let self := Sample.validator [Sample.rule 1 "r1" "COMPLIANT";
                                Sample.rule 2 "r2" "FIXED"] in
  (rules self <> [] /\ forallb quote_free (rules self) = true) /\
  validate_xccdf_report (ET.WellFormed Sample.report) self
  = match traverse (judge Sample.report) (rules self) with
    | Ok results =>
        (Ok (count_pass results,
             (Z.of_nat (List.length results) - count_pass results)%Z,
             results),
         mkExcelValidator (rules self) (all_rules self) results)
    | Raise e => (Raise e, self)
    end.
Proof.
  intros self. split; [split; [discriminate | reflexivity]|].
  apply (validate_by_first_matching_elements Sample.report self);
    [discriminate | reflexivity].
Defined.

Lemma hd_error_in {A : Type} (l : list A) (x : A) :
  hd_error l = Some x -> In x l.
Proof. destruct l; [discriminate|]. intros [= <-]. now left. Qed.

Lemma traverse_total {A B : Type} (f : A -> result B) (l : list A) :
  (forall x, In x l -> exists y, f x = Ok y) ->
  exists ys, traverse f l = Ok ys /\ List.length ys = List.length l.
Proof.
  induction l as [|x l IH]; intros H; cbn [traverse].
  - exists []. split; reflexivity.
  - destruct (H x) as (y & ->); [now left|]. cbn [bind].
    destruct IH as (ys & -> & Hlen); [intros z Hz; apply H; now right|].
    exists (y :: ys). cbn [bind List.length]. split; [reflexivity | congruence].
Qed.

Lemma traverse_raise {A B : Type} (f : A -> result B) (l : list A) (e : exn) :
  traverse f l = Raise e -> exists x, In x l /\ f x = Raise e.
Proof.
  induction l as [|x l IH]; cbn [traverse]; [discriminate|].
  destruct (f x) as [y|e'] eqn:Hx; cbn [bind].
  - destruct (traverse f l) as [ys|e'']; cbn [bind]; [discriminate|].
    intros [= ->]. destruct IH as (z & Hz & Hf); [reflexivity|].
    exists z. split; [now right | exact Hf].
  - intros [= ->]. exists x. split; [now left | exact Hx].
Qed.

Lemma judge_raise (root : ET.Element) (rule : Rule.t) (e : exn) :
  judge root rule = Raise e ->
  e = AttributeError /\
  exists rule_result result_elem,
    hd_error (rule_results_for root (Rule.rule_id rule)) = Some rule_result /\
    hd_error (result_elements rule_result) = Some result_elem /\
    ET.text result_elem = None.
Proof.
  unfold judge.
  destruct (hd_error (rule_results_for root _)) as [rr|]; [|discriminate].
  destruct (hd_error (result_elements rr)) as [re|] eqn:Hre; [|discriminate].
  destruct (ET.text re) eqn:Ht; [discriminate|].
  intros [= <-]. split; [reflexivity|]. exists rr, re. auto.
Qed.

Lemma judge_total (root : ET.Element) (rule : Rule.t) :
  results_have_text root = true -> exists v, judge root rule = Ok v.
Proof.
  intros H. destruct (judge root rule) as [v|e] eqn:Hj; [eauto|].
  apply judge_raise in Hj as (_ & rr & re & Hrr & Hre & Ht).
  apply hd_error_in in Hrr, Hre.
  unfold rule_results_for in Hrr. apply filter_In in Hrr as [Hrr _].
  unfold results_have_text in H. rewrite forallb_forall in H.
  specialize (H rr Hrr). rewrite forallb_forall in H.
  specialize (H re Hre). unfold has_text in H. rewrite Ht in H. discriminate.
Qed.

(** X6: for a non-empty rule list without single quotes in the identifiers
    and a well-formed report, validate returns one verdict per rule when
    every result element below a rule-result element has text; when it
    raises, the exception is an attribute error and some such result
    element has no text. *)
Theorem validate_returns_when_results_have_text (root : ET.Element)
        (self : ExcelValidator) :
  rules self <> [] ->
  forallb quote_free (rules self) = true ->
  (results_have_text root = true ->
   exists passed failed results,
     validate_xccdf_report (ET.WellFormed root) self
     = (Ok (passed, failed, results),
        mkExcelValidator (rules self) (all_rules self) results) /\
     List.length results = List.length (rules self)) /\
  (forall (e : exn) (self' : ExcelValidator),
      validate_xccdf_report (ET.WellFormed root) self = (Raise e, self') ->
      e = AttributeError /\ results_have_text root = false).
Proof.
  intros Hne Hq. unfold validate_xccdf_report.
  destruct (rules self) as [|rule rules'] eqn:Hrules; [contradiction|].
  cbn [ET.fromstring bind]. rewrite (validate_rules_judge _ _ Hq). split.
  - intros Ht.
    destruct (traverse_total (judge root) (rule :: rules')) as (vs & -> & Hlen);
      [intros x _; now apply judge_total|].
    cbn [bind app]. eauto.
  - intros e self'.
    destruct (traverse (judge root) (rule :: rules')) as [vs|e'] eqn:Hrun;
      cbn [bind]; [discriminate|].
    intros [= -> _]. apply traverse_raise in Hrun as (x & _ & Hx).
    split; [apply (judge_raise _ _ _ Hx)|].
    destruct (results_have_text root) eqn:Ht; [|reflexivity].
    destruct (judge_total root x Ht) as (v & Hv). congruence.
Qed.

Lemma validate_returns_when_results_have_text_witness :
  let root :=
    ET.mkElement "Benchmark" [] None None
      [Sample.rule_result "r1" (Some "pass");
       ET.mkElement "rule-result" [("idref", "r1")] None None [];
       Sample.rule_result "r2" (Some "fail")] in
  let self := Sample.validator [Sample.rule 1 "r1" "COMPLIANT";
                                Sample.rule 2 "r2" "COMPLIANT";
                                Sample.rule 3 "r 3" "NOT FOUND"] in
  (rules self <> [] /\ forallb quote_free (rules self) = true /\
   results_have_text root = true) /\
  exists passed failed results,
    validate_xccdf_report (ET.WellFormed root) self
    = (Ok (passed, failed, results),
       mkExcelValidator (rules self) (all_rules self) results) /\
    List.length results = List.length (rules self).
Proof.
  intros root self.
  split; [split; [discriminate | split; reflexivity]|].
  apply (validate_returns_when_results_have_text root self);
    [discriminate | reflexivity | reflexivity].
Defined.


(* ===================================================================== *)
(** * strip, upper and lower *)

Lemma lstrip_head (s : string) :
  match Py.lstrip s with
  | EmptyString => True
  | String c _ => Py.isspace c = false
  end.
Proof.
  induction s as [|c s IH]; cbn [Py.lstrip]; [exact I|].
  destruct (Py.isspace c) eqn:Hc; [exact IH | exact Hc].
Qed.

Lemma rstrip_head (c : ascii) (s : string) :
  Py.isspace c = false -> exists r, Py.rstrip (String c s) = String c r.
Proof.
  intros Hc. cbn [Py.rstrip]. rewrite Hc. destruct (Py.rstrip s); eauto.
Qed.

Lemma rstrip_idem (s : string) : Py.rstrip (Py.rstrip s) = Py.rstrip s.
Proof.
  induction s as [|c s IH]; [reflexivity|]. cbn [Py.rstrip].
  destruct (Py.rstrip s) as [|d r] eqn:Hr.
  - destruct (Py.isspace c) eqn:Hc; [reflexivity|].
    cbn [Py.rstrip]. now rewrite Hc.
  - change (Py.rstrip (String c (String d r)))
      with (match Py.rstrip (String d r) with
            | EmptyString =>
                if Py.isspace c then EmptyString else String c EmptyString
            | String a b => String c (String a b)
            end).
    now rewrite IH.
Qed.

Lemma strip_idem (s : string) : Py.strip (Py.strip s) = Py.strip s.
Proof.
  unfold Py.strip. pose proof (lstrip_head s) as Hh.
  destruct (Py.lstrip s) as [|c x]; [reflexivity|].
  destruct (rstrip_head c x Hh) as (r & Hr). rewrite Hr.
  cbn [Py.lstrip]. rewrite Hh, <- Hr. apply rstrip_idem.
Qed.

Lemma isspace_upper_char (c : ascii) :
  Py.isspace (Py.upper_char c) = Py.isspace c.
Proof. destruct c as [[] [] [] [] [] [] [] []]; reflexivity. Qed.

Lemma isspace_lower_char (c : ascii) :
  Py.isspace (Py.lower_char c) = Py.isspace c.
Proof. destruct c as [[] [] [] [] [] [] [] []]; reflexivity. Qed.

Lemma upper_char_idem (c : ascii) :
  Py.upper_char (Py.upper_char c) = Py.upper_char c.
Proof. destruct c as [[] [] [] [] [] [] [] []]; reflexivity. Qed.

Lemma upper_idem (s : string) : Py.upper (Py.upper s) = Py.upper s.
Proof.
  unfold Py.upper. induction s as [|c s IH]; cbn [Py.map_str]; [reflexivity|].
  now rewrite upper_char_idem, IH.
Qed.

Lemma lstrip_map (f : ascii -> ascii) (s : string) :
  (forall c, Py.isspace (f c) = Py.isspace c) ->
  Py.lstrip (Py.map_str f s) = Py.map_str f (Py.lstrip s).
Proof.
  intros Hf. induction s as [|c s IH]; [reflexivity|].
  cbn [Py.map_str Py.lstrip]. rewrite Hf.
  destruct (Py.isspace c); [exact IH | reflexivity].
Qed.

Lemma rstrip_map (f : ascii -> ascii) (s : string) :
  (forall c, Py.isspace (f c) = Py.isspace c) ->
  Py.rstrip (Py.map_str f s) = Py.map_str f (Py.rstrip s).
Proof.
  intros Hf. induction s as [|c s IH]; [reflexivity|].
  cbn [Py.map_str Py.rstrip]. rewrite IH, Hf.
  destruct (Py.rstrip s); cbn [Py.map_str]; [|reflexivity].
  destruct (Py.isspace c); reflexivity.
Qed.

Lemma strip_map (f : ascii -> ascii) (s : string) :
  (forall c, Py.isspace (f c) = Py.isspace c) ->
  Py.strip (Py.map_str f s) = Py.map_str f (Py.strip s).
Proof.
  intros Hf. unfold Py.strip. now rewrite lstrip_map, rstrip_map.
Qed.

Lemma strip_upper (s : string) : Py.strip (Py.upper s) = Py.upper (Py.strip s).
Proof. apply strip_map, isspace_upper_char. Qed.

Lemma strip_lower (s : string) : Py.strip (Py.lower s) = Py.lower (Py.strip s).
Proof. apply strip_map, isspace_lower_char. Qed.

Lemma length_map_str (f : ascii -> ascii) (s : string) :
  String.length (Py.map_str f s) = String.length s.
Proof. induction s; cbn [Py.map_str String.length]; congruence. Qed.

Lemma lstrip_shorter (s : string) :
  Py.lstrip s = s \/ String.length (Py.lstrip s) < String.length s.
Proof.
  induction s as [|c s IH]; [now left|]. cbn [Py.lstrip String.length].
  destruct (Py.isspace c); [right | now left]. destruct IH as [->|IH]; lia.
Qed.

Lemma rstrip_shorter (s : string) :
  Py.rstrip s = s \/ String.length (Py.rstrip s) < String.length s.
Proof.
  induction s as [|c s IH]; [now left|]. cbn [Py.rstrip].
  destruct IH as [->|IH].
  - destruct s; [|now left].
    destruct (Py.isspace c); [right; cbn; lia | now left].
  - right. destruct (Py.rstrip s); [destruct (Py.isspace c)|];
      cbn [String.length] in *; lia.
Qed.

Lemma strip_shorter (s : string) :
  Py.strip s = s \/ String.length (Py.strip s) < String.length s.
Proof.
  unfold Py.strip. destruct (lstrip_shorter s) as [->|Hl].
  - apply rstrip_shorter.
  - right. destruct (rstrip_shorter (Py.lstrip s)) as [->|Hr]; lia.
Qed.

(** A string is stripped when its image in another letter case is. *)
Lemma stripped_map (f : ascii -> ascii) (s : string) :
  (forall c, Py.isspace (f c) = Py.isspace c) ->
  Py.strip (Py.map_str f s) = Py.map_str f s -> Py.strip s = s.
Proof.
  intros Hf H. rewrite (strip_map f s Hf) in H.
  apply (f_equal String.length) in H. rewrite !length_map_str in H.
  destruct (strip_shorter s) as [Hs|Hs]; [exact Hs | lia].
Qed.

(* ===================================================================== *)
(** * The rules a load returns *)

Lemma normalised_fields (number : Z) (rule_id expected description profile : string) :
  normalised (Rule.mk number (Py.strip rule_id) (Py.upper (Py.strip expected))
                      (Py.strip description) (Py.strip profile)) = true.
Proof.
  unfold normalised. cbn [Rule.rule_id Rule.expected_result Rule.description
                          Rule.profile].
  rewrite strip_upper, upper_idem, !strip_idem, !String.eqb_refl. reflexivity.
Qed.

Lemma csv_rule_normalised (d : list (string * option string)) (rule : Rule.t) :
  Csv.rule_of_row d = Ok rule -> normalised rule = true.
Proof.
  unfold Csv.rule_of_row.
  destruct (Csv.number_field d); cbn [bind]; [|discriminate].
  destruct (Csv.field d "RULE_ID"); cbn [bind]; [|discriminate].
  destruct (Csv.field d "EXPECTED_RESULT"); cbn [bind]; [|discriminate].
  destruct (Csv.field_or_empty d "DESCRIPTION"); cbn [bind]; [|discriminate].
  destruct (Csv.field_or_empty d "PROFILE"); cbn [bind]; [|discriminate].
  intros [= <-]. apply normalised_fields.
Qed.

Lemma excel_rule_normalised (d : list (Excel.cell * Excel.cell)) (rule : Rule.t) :
  Excel.rule_of_row d = Ok rule -> normalised rule = true.
Proof.
  unfold Excel.rule_of_row.
  destruct (Excel.item d "NUMBER") as [n|]; cbn [bind]; [|discriminate].
  destruct (Excel.int n); cbn [bind]; [|discriminate].
  destruct (Excel.item d "RULE_ID"); cbn [bind]; [|discriminate].
  destruct (Excel.item d "EXPECTED_RESULT"); cbn [bind]; [|discriminate].
  intros [= <-]. apply normalised_fields.
Qed.

Lemma csv_read_rows_forall (P : Rule.t -> Prop) (fieldnames : list string)
      (profile_filter : option string) :
  (forall d rule, Csv.rule_of_row d = Ok rule -> P rule) ->
  forall (rows : list (list string)) (rules loaded : list Rule.t),
    Forall P rules ->
    Csv.read_rows fieldnames rows profile_filter rules = Ok loaded ->
    Forall P loaded.
Proof.
  intros HP. induction rows as [|row rows IH]; intros rules loaded Hrules.
  - now intros [= <-].
  - destruct row as [|x row]; [now apply IH|]. cbn [Csv.read_rows].
    destruct (Csv.rule_of_row _) as [rule|e] eqn:Hrule; cbn [bind];
      [|discriminate].
    apply IH. destruct (profile_selected profile_filter rule); [|exact Hrules].
    apply Forall_app. split; [exact Hrules|]. constructor; eauto.
Qed.

Lemma excel_read_rows_forall (P : Rule.t -> Prop) (headers : list Excel.cell)
      (profile_filter : option string) :
  (forall d rule, Excel.rule_of_row d = Ok rule -> P rule) ->
  forall (rows : list (list Excel.cell)) (rules loaded : list Rule.t),
    Forall P rules ->
    Excel.read_rows headers rows profile_filter rules = Ok loaded ->
    Forall P loaded.
Proof.
  intros HP. induction rows as [|row rows IH]; intros rules loaded Hrules.
  - now intros [= <-].
  - destruct row as [|c row]; [discriminate|]. cbn [Excel.read_rows].
    destruct (negb (Excel.truthy c)); [now apply IH|].
    destruct (Excel.rule_of_row _) as [rule|e] eqn:Hrule; cbn [bind];
      [|discriminate].
    apply IH. destruct (profile_selected profile_filter rule); [|exact Hrules].
    apply Forall_app. split; [exact Hrules|]. constructor; eauto.
Qed.

Lemma csv_read_forall (P : Rule.t -> Prop) (csv_path : string)
      (csv_file : option Csv.file) (profile_filter : option string)
      (loaded : list Rule.t) :
  (forall d rule, Csv.rule_of_row d = Ok rule -> P rule) ->
  Csv.read csv_path csv_file profile_filter = Ok loaded -> Forall P loaded.
Proof.
  intros HP. destruct csv_file as [[|fieldnames rows]|]; cbn [Csv.read];
    [now intros [= <-] | | discriminate].
  now apply csv_read_rows_forall.
Qed.

Lemma excel_read_forall (P : Rule.t -> Prop) (excel_path : string)
      (excel_file : option Excel.workbook)
      (sheet_name profile_filter : option string) (loaded : list Rule.t) :
  (forall d rule, Excel.rule_of_row d = Ok rule -> P rule) ->
  Excel.read excel_path excel_file sheet_name profile_filter = Ok loaded ->
  Forall P loaded.
Proof.
  intros HP. destruct excel_file as [wb|]; cbn [Excel.read]; [|discriminate].
  destruct (Excel.select_sheet wb sheet_name) as [sheet|e]; cbn [bind];
    [|discriminate].
  destruct (Excel.first_row sheet) as [headers|e]; cbn [bind]; [|discriminate].
  destruct (Excel.check_headers _ headers); cbn [bind]; [|discriminate].
  now apply excel_read_rows_forall.
Qed.

Lemma Forall_forallb {A : Type} (p : A -> bool) (l : list A) :
  Forall (fun x => p x = true) l -> forallb p l = true.
Proof. intros H. apply forallb_forall. now apply Forall_forall. Qed.

(** X7: every rule a load returns, and retains, has stripped text fields
    and an expected result in upper case, so that stripping or upper-casing
    them again changes nothing. *)
Theorem loaded_rules_are_normalised :
  (forall (csv_path : string) (csv_file : option Csv.file)
          (profile_filter : option string) (self self' : ExcelValidator)
          (loaded : list Rule.t),
      load_rules_from_csv csv_path csv_file profile_filter self
      = (Ok loaded, self') ->
      forallb normalised loaded = true /\ forallb normalised (rules self') = true)
  /\
  (forall (excel_path : string) (excel_file : option Excel.workbook)
          (sheet_name profile_filter : option string)
          (self self' : ExcelValidator) (loaded : list Rule.t),
      load_rules_from_excel excel_path excel_file sheet_name profile_filter self
      = (Ok loaded, self') ->
      forallb normalised loaded = true /\ forallb normalised (rules self') = true).
Proof.
  split.
  - intros csv_path csv_file profile_filter self self' loaded.
    unfold load_rules_from_csv.
    destruct (Csv.read _ _ _) as [rs|e] eqn:Hread; [|discriminate].
    intros [= <- <-]. cbn [rules].
    apply (csv_read_forall (fun r => normalised r = true)) in Hread;
      [|exact csv_rule_normalised].
    split; now apply Forall_forallb.
  - intros excel_path excel_file sheet_name profile_filter self self' loaded.
    unfold load_rules_from_excel.
    destruct (Excel.read _ _ _ _) as [rs|e] eqn:Hread; [|discriminate].
    intros [= <- <-]. cbn [rules].
    apply (excel_read_forall (fun r => normalised r = true)) in Hread;
      [|exact excel_rule_normalised].
    split; now apply Forall_forallb.
Qed.

Lemma loaded_rules_are_normalised_witness :
  (load_rules_from_csv "rules.csv" (Some Sample.csv_table) None init
   = (Ok Sample.table_rules,
      mkExcelValidator Sample.table_rules Sample.table_rules []) /\
   load_rules_from_excel "rules.xlsx" (Some Sample.workbook) None
                         (Some "severity_cat_ii") init
   = (Ok [Rule.mk 2 "r2" "FIXED" "second" "severity_cat_ii"],
      mkExcelValidator [Rule.mk 2 "r2" "FIXED" "second" "severity_cat_ii"]
                       [] [])) /\
  (forallb normalised Sample.table_rules = true /\
   forallb normalised
           (rules (mkExcelValidator Sample.table_rules Sample.table_rules []))
   = true) /\
  (forallb normalised [Rule.mk 2 "r2" "FIXED" "second" "severity_cat_ii"]
   = true /\
   forallb normalised
           (rules (mkExcelValidator
                     [Rule.mk 2 "r2" "FIXED" "second" "severity_cat_ii"] [] []))
   = true).
Proof.
  destruct loaded_rules_are_normalised as [Hcsv Hxl].
  split; [split; vm_compute; reflexivity|]. split.
  - apply (Hcsv "rules.csv" (Some Sample.csv_table) None init).
    vm_compute. reflexivity.
  - apply (Hxl "rules.xlsx" (Some Sample.workbook) None
               (Some "severity_cat_ii") init).
    vm_compute. reflexivity.
Defined.

(* ===================================================================== *)
(** * Result text with surrounding whitespace *)

Lemma getitem_present {V : Type} (d : list (string * V)) (key : string) (v : V) :
  getitem d key = Some v -> In key (map fst d).
Proof.
  induction d as [|[k w] d IH]; cbn [getitem map fst In]; [discriminate|].
  destruct (getitem d key); [intros H; right; now apply IH|].
  destruct (String.eqb_spec k key); [now left | discriminate].
Qed.

Lemma actual_of_padded_text (text expected : string) :
  Py.strip text <> text -> Py.strip expected = expected ->
  actual_of_text text <> expected.
Proof.
  intros Hpad Hexp. unfold actual_of_text.
  destruct (getitem RESULT_MAPPING (Py.lower text)) as [label|] eqn:Hget.
  - apply getitem_present in Hget. exfalso. apply Hpad.
    apply (stripped_map Py.lower_char); [exact isspace_lower_char|].
    fold (Py.lower text).
    cbn [RESULT_MAPPING map fst In] in Hget.
    repeat (destruct Hget as [<-|Hget]; [reflexivity|]). contradiction.
  - rewrite upper_lower. intros <-. apply Hpad.
    apply (stripped_map Py.upper_char); [exact isspace_upper_char|].
    exact Hexp.
Qed.

(** X8: the text of a result element is not stripped: a result text with
    whitespace around it never equals the expected result of a loaded rule,
    and the rule fails. *)
Theorem padded_result_text_fails (root : ET.Element) (rule : Rule.t)
        (rule_result result_elem : ET.Element) (text : string)
        (passed failed : Z) (results : list Verdict.t) :
  search root rule = Ok (Some rule_result) ->
  ElementPath.find rule_result ".//{*}result" = Ok (Some result_elem) ->
  ET.text result_elem = Some text ->
  Py.strip text <> text ->
  normalised rule = true ->
  exists v,
    validate_rule root rule (passed, failed, results)
    = Ok (passed, (failed + 1)%Z, (results ++ [v])%list) /\
    Verdict.actual v = actual_of_text text /\ Verdict.status v = "FAIL".
Proof.
  unfold search, rule_result_path, validate_rule. intros H1 H2 H3 Hpad Hn.
  rewrite H1. cbn [bind]. rewrite H2. cbn [bind]. rewrite H3. cbn [bind].
  fold (actual_of_text text).
  unfold normalised in Hn. rewrite !andb_true_iff in Hn.
  destruct Hn as ((((_ & Hn) & _) & _) & _). apply String.eqb_eq in Hn.
  pose proof (actual_of_padded_text text _ Hpad Hn) as Hne.
  apply String.eqb_neq in Hne. rewrite Hne.
  eexists. split; [reflexivity|]. split; reflexivity.
Qed.

Lemma padded_result_text_fails_witness :
  let padded := String "010"%char "  pass " in
  let root :=
    ET.mkElement "Benchmark" [] None None
      [Sample.rule_result "r1" (Some padded)] in
  let rule := Rule.mk 1 "r1" "COMPLIANT" "" "" in
  let result_elem :=
    ET.mkElement (Sample.xccdf "result") [] (Some padded) None [] in
  (search root rule = Ok (Some (Sample.rule_result "r1" (Some padded))) /\
   ElementPath.find (Sample.rule_result "r1" (Some padded)) ".//{*}result"
   = Ok (Some result_elem) /\
   ET.text result_elem = Some padded /\
   Py.strip padded <> padded /\ normalised rule = true) /\
  exists v,
    validate_rule root rule (0, 0, [])%Z
    = Ok (0, (0 + 1), ([] ++ [v])%list)%Z /\
    Verdict.actual v = actual_of_text padded /\ Verdict.status v = "FAIL".
Proof.
  intros padded root rule result_elem.
  assert (Hpad : Py.strip padded <> padded)
    by (intros H; vm_compute in H; discriminate H).
  split; [repeat split; try (vm_compute; reflexivity); exact Hpad|].
  apply (padded_result_text_fails root rule
           (Sample.rule_result "r1" (Some padded)) result_elem padded);
    try (vm_compute; reflexivity); exact Hpad.
Defined.

(* ===================================================================== *)
(** * What a load does to the object *)

(** X9: no load touches the retained verdicts, whatever its outcome: the
    failed and the passed rules stay those of the last validation; a load
    with a profile filter leaves the unfiltered rules as they were. *)
Theorem load_keeps_validation_results :
  (forall (csv_path : string) (csv_file : option Csv.file)
          (profile_filter : option string) (self : ExcelValidator),
      let self' :=
        snd (load_rules_from_csv csv_path csv_file profile_filter self) in
      validation_results self' = validation_results self /\
      get_failed_rules self' = get_failed_rules self /\
      get_passed_rules self' = get_passed_rules self /\
      (profile_filter <> None -> all_rules self' = all_rules self)) /\
  (forall (excel_path : string) (excel_file : option Excel.workbook)
          (sheet_name profile_filter : option string) (self : ExcelValidator),
      let self' :=
        snd (load_rules_from_excel excel_path excel_file sheet_name
                                   profile_filter self) in
      validation_results self' = validation_results self /\
      get_failed_rules self' = get_failed_rules self /\
      get_passed_rules self' = get_passed_rules self /\
      (profile_filter <> None -> all_rules self' = all_rules self)).
Proof.
  split.
  - intros csv_path csv_file profile_filter self. unfold load_rules_from_csv.
    destruct (Csv.read _ _ _); cbn [snd]; [|tauto].
    unfold get_failed_rules, get_passed_rules. cbn [validation_results all_rules].
    repeat split. destruct profile_filter; [reflexivity | contradiction].
  - intros excel_path excel_file sheet_name profile_filter self.
    unfold load_rules_from_excel.
    destruct (Excel.read _ _ _ _); cbn [snd]; [|tauto].
    unfold get_failed_rules, get_passed_rules. cbn [validation_results all_rules].
    repeat split. destruct profile_filter; [reflexivity | contradiction].
Qed.

Lemma load_csv_raise_inv (csv_path : string) (csv_file : option Csv.file)
      (profile_filter : option string) (self self' : ExcelValidator) (e : exn) :
  load_rules_from_csv csv_path csv_file profile_filter self = (Raise e, self') ->
  self' = self.
Proof.
  unfold load_rules_from_csv. destruct (Csv.read _ _ _); [discriminate|].
  now intros [= _ <-].
Qed.

Lemma load_excel_raise_inv (excel_path : string)
      (excel_file : option Excel.workbook)
      (sheet_name profile_filter : option string)
      (self self' : ExcelValidator) (e : exn) :
  load_rules_from_excel excel_path excel_file sheet_name profile_filter self
  = (Raise e, self') ->
  self' = self.
Proof.
  unfold load_rules_from_excel. destruct (Excel.read _ _ _ _); [discriminate|].
  now intros [= _ <-].
Qed.

(** X10: a load that raises leaves the object as it was; a path that does
    not exist raises the file-not-found error that names the path. *)
Theorem load_that_raises_keeps_object :
  (forall (csv_path : string) (csv_file : option Csv.file)
          (profile_filter : option string) (self self' : ExcelValidator)
          (e : exn),
      load_rules_from_csv csv_path csv_file profile_filter self
      = (Raise e, self') ->
      self' = self) /\
  (forall (excel_path : string) (excel_file : option Excel.workbook)
          (sheet_name profile_filter : option string)
          (self self' : ExcelValidator) (e : exn),
      load_rules_from_excel excel_path excel_file sheet_name profile_filter self
      = (Raise e, self') ->
      self' = self) /\
  (forall (csv_path : string) (profile_filter : option string)
          (self : ExcelValidator),
      load_rules_from_csv csv_path None profile_filter self
      = (Raise (FileNotFoundError ("CSV file not found: " ++ csv_path)), self)) /\
  (forall (excel_path : string) (sheet_name profile_filter : option string)
          (self : ExcelValidator),
      load_rules_from_excel excel_path None sheet_name profile_filter self
      = (Raise (FileNotFoundError ("Excel file not found: " ++ excel_path)),
         self)).
Proof.
  split; [exact load_csv_raise_inv|]. split; [exact load_excel_raise_inv|].
  split; reflexivity.
Qed.

Lemma load_that_raises_keeps_object_witness :
  let self := mkExcelValidator Sample.table_rules Sample.table_rules [] in
  let bad_csv := [["NUMBER"; "RULE_ID"; "EXPECTED_RESULT"];
                  ["1"; "r1"; "COMPLIANT"]; ["two"; "r2"; "FIXED"]] in
  let bad_sheet :=
    Excel.mkWorkbook []
      (Some (Excel.mkWorksheet
               [Excel.CStr "NUMBER"; Excel.CStr "RULE_ID";
                Excel.CStr "EXPECTED_RESULT"]
               [[Excel.CInt 1; Excel.CStr "r1"; Excel.CStr "COMPLIANT"]; []])) in
  let after_csv := snd (load_rules_from_csv "rules.csv" (Some bad_csv) None self) in
  let after_excel :=
    snd (load_rules_from_excel "rules.xlsx" (Some bad_sheet) None None self) in
  (load_rules_from_csv "rules.csv" (Some bad_csv) None self
   = (Raise (ValueError "invalid literal for int() with base 10"), after_csv) /\
   load_rules_from_excel "rules.xlsx" (Some bad_sheet) None None self
   = (Raise IndexError, after_excel)) /\
  after_csv = self /\ after_excel = self.
Proof.
  intros self bad_csv bad_sheet after_csv after_excel.
  destruct load_that_raises_keeps_object as (Hcsv & Hxl & _).
  split; [split; vm_compute; reflexivity|]. split.
  - apply (Hcsv "rules.csv" (Some bad_csv) None self after_csv
                (ValueError "invalid literal for int() with base 10")).
    vm_compute. reflexivity.
  - apply (Hxl "rules.xlsx" (Some bad_sheet) None None self after_excel
               IndexError).
    vm_compute. reflexivity.
Defined.

(** X11: after a load without filter, a load of the same file with a
    profile filter retains the matching rules as the rules and still holds
    the whole table as the unfiltered rules; on a fresh object the same
    load leaves the unfiltered rules empty. *)
Theorem filtered_load_after_full_load :
  (forall (csv_path : string) (csv_file : option Csv.file) (f : string)
          (self self1 : ExcelValidator) (all : list Rule.t),
      load_rules_from_csv csv_path csv_file None self = (Ok all, self1) ->
      let selected := filter (profile_is f) all in
      load_rules_from_csv csv_path csv_file (Some f) self1
      = (Ok selected,
         mkExcelValidator selected all (validation_results self)) /\
      load_rules_from_csv csv_path csv_file (Some f) init
      = (Ok selected, mkExcelValidator selected [] [])) /\
  (forall (excel_path : string) (excel_file : option Excel.workbook)
          (sheet_name : option string) (f : string)
          (self self1 : ExcelValidator) (all : list Rule.t),
      load_rules_from_excel excel_path excel_file sheet_name None self
      = (Ok all, self1) ->
      let selected := filter (profile_is f) all in
      load_rules_from_excel excel_path excel_file sheet_name (Some f) self1
      = (Ok selected,
         mkExcelValidator selected all (validation_results self)) /\
      load_rules_from_excel excel_path excel_file sheet_name (Some f) init
      = (Ok selected, mkExcelValidator selected [] [])).
Proof.
  split.
  - intros csv_path csv_file f self self1 all. unfold load_rules_from_csv.
    rewrite csv_read_filter.
    destruct (Csv.read csv_path csv_file None) as [rs|e]; [|discriminate].
    intros [= <- <-]. cbn [bind]. split; reflexivity.
  - intros excel_path excel_file sheet_name f self self1 all.
    unfold load_rules_from_excel. rewrite excel_read_filter.
    destruct (Excel.read excel_path excel_file sheet_name None) as [rs|e];
      [|discriminate].
    intros [= <- <-]. cbn [bind]. split; reflexivity.
Qed.

Lemma filtered_load_after_full_load_witness :
  let full := mkExcelValidator Sample.table_rules Sample.table_rules [] in
  let selected := filter (profile_is "severity_cat_i") Sample.table_rules in
  let sheet := mkExcelValidator Sample.sheet_rules Sample.sheet_rules [] in
  let chosen := filter (profile_is "severity_cat_ii") Sample.sheet_rules in
  (load_rules_from_csv "rules.csv" (Some Sample.csv_table) None init
   = (Ok Sample.table_rules, full) /\
   map Rule.rule_id selected = ["r1"; "r3"] /\
   load_rules_from_excel "rules.xlsx" (Some Sample.workbook) None None init
   = (Ok Sample.sheet_rules, sheet) /\
   map Rule.rule_id chosen = ["r2"]) /\
  (load_rules_from_csv "rules.csv" (Some Sample.csv_table)
                       (Some "severity_cat_i") full
   = (Ok selected,
      mkExcelValidator selected Sample.table_rules (validation_results init)) /\
   load_rules_from_csv "rules.csv" (Some Sample.csv_table)
                       (Some "severity_cat_i") init
   = (Ok selected, mkExcelValidator selected [] [])) /\
  (load_rules_from_excel "rules.xlsx" (Some Sample.workbook) None
                         (Some "severity_cat_ii") sheet
   = (Ok chosen,
      mkExcelValidator chosen Sample.sheet_rules (validation_results init)) /\
   load_rules_from_excel "rules.xlsx" (Some Sample.workbook) None
                         (Some "severity_cat_ii") init
   = (Ok chosen, mkExcelValidator chosen [] [])).
Proof.
  intros full selected sheet chosen.
  destruct filtered_load_after_full_load as [Hcsv Hxl].
  split; [repeat split; vm_compute; reflexivity|]. split.
  - apply (Hcsv "rules.csv" (Some Sample.csv_table) "severity_cat_i" init full
                Sample.table_rules).
    vm_compute. reflexivity.
  - apply (Hxl "rules.xlsx" (Some Sample.workbook) None "severity_cat_ii" init
               sheet Sample.sheet_rules).
    vm_compute. reflexivity.
Defined.

(* ===================================================================== *)
(** * The lines of the summary table *)

Lemma length_repeat_char (c : ascii) (n : nat) :
  String.length (Py.repeat_char c n) = n.
Proof. induction n; cbn [Py.repeat_char String.length]; congruence. Qed.

Lemma length_ljust (n : nat) (s : string) :
  String.length (Py.ljust n s) = Nat.max n (String.length s).
Proof.
  unfold Py.ljust. rewrite length_app, length_repeat_char. lia.
Qed.

Lemma length_take (n : nat) (s : string) :
  String.length (Py.take n s) = Nat.min n (String.length s).
Proof.
  revert s; induction n as [|n IH]; intros [|c s]; cbn [Py.take String.length];
    try reflexivity.
  now rewrite IH.
Qed.

Lemma take_all (n : nat) (s : string) :
  String.length s <= n -> Py.take n s = s.
Proof.
  revert s; induction n as [|n IH]; intros [|c s]; cbn [Py.take String.length];
    try reflexivity; intros H; [lia|].
  f_equal. apply IH. lia.
Qed.

(** X12: a line of the summary table pads each column to its width and
    cuts none but the description, which takes exactly thirty characters:
    the line is as long as the four other columns, each at least its
    width, and forty-three characters more; only the first thirty
    characters of the description show. *)
Theorem summary_line_width (r : Verdict.t) :
  String.length (summary_line r)
  = Nat.max 4 (String.length (Py.str_of_int (Verdict.number r)))
    + Nat.max 6 (String.length (Verdict.status r))
    + Nat.max 15 (String.length (Verdict.expected r))
    + Nat.max 15 (String.length (Verdict.actual r))
    + 43 /\
  summary_line r
  = summary_line (Verdict.mk (Verdict.number r) (Verdict.rule_id r)
                             (Py.take 30 (Verdict.description r))
                             (Verdict.expected r) (Verdict.actual r)
                             (Verdict.status r) (Verdict.message r)).
Proof.
  unfold summary_line. split.
  - rewrite !length_app, !length_ljust, length_take.
    cbn [String.length nl]. lia.
  - cbn [Verdict.number Verdict.status Verdict.expected Verdict.actual
         Verdict.description].
    rewrite (take_all 30 (Py.take 30 _)); [reflexivity|].
    rewrite length_take. lia.
Qed.

(* ===================================================================== *)
(** * Short rows and empty cells *)

Lemma getitem_app {V : Type} (a b : list (string * V)) (key : string) :
  getitem (a ++ b)%list key
  = match getitem b key with
    | Some v => Some v
    | None => getitem a key
    end.
Proof.
  induction a as [|[k v] a IH]; cbn [app getitem].
  - destruct (getitem b key); reflexivity.
  - rewrite IH. destruct (getitem b key); reflexivity.
Qed.

Lemma getitem_padding (fieldnames : list string) (key : string) :
  In key fieldnames ->
  getitem (map (fun k => (k, @None string)) fieldnames) key = Some None.
Proof.
  induction fieldnames as [|k l IH]; cbn [In map getitem]; [contradiction|].
  intros H. destruct (in_dec string_dec key l) as [Hin|Hout].
  - now rewrite (IH Hin).
  - destruct H as [->|H]; [|contradiction].
    rewrite getitem_absent, String.eqb_refl; [reflexivity|].
    rewrite map_map. cbn [fst]. now rewrite map_id.
Qed.

(** The field of a column the row does not reach is [None]. *)
Lemma row_dict_short (fieldnames row : list string) (key : string) :
  In key (skipn (List.length row) fieldnames) ->
  getitem (Csv.row_dict fieldnames row) key = Some None.
Proof.
  intros H. unfold Csv.row_dict. rewrite getitem_app, getitem_padding by exact H.
  reflexivity.
Qed.

Lemma rule_of_short_row (fieldnames row : list string) (key : string) :
  key = "DESCRIPTION" \/ key = "PROFILE" ->
  In key (skipn (List.length row) fieldnames) ->
  exists e, Csv.rule_of_row (Csv.row_dict fieldnames row) = Raise e.
Proof.
  intros Hkey Hshort. pose proof (row_dict_short _ _ _ Hshort) as Hget.
  unfold Csv.rule_of_row.
  destruct (Csv.number_field _); cbn [bind]; [|eexists; reflexivity].
  destruct (Csv.field _ "RULE_ID"); cbn [bind]; [|eexists; reflexivity].
  destruct (Csv.field _ "EXPECTED_RESULT"); cbn [bind]; [|eexists; reflexivity].
  destruct Hkey as [->| ->].
  - unfold Csv.field_or_empty at 1. rewrite Hget. eexists; reflexivity.
  - destruct (Csv.field_or_empty _ "DESCRIPTION"); cbn [bind];
      [|eexists; reflexivity].
    unfold Csv.field_or_empty at 1. rewrite Hget. eexists; reflexivity.
Qed.

(** X13: the default of the optional columns does not cover a short row:
    when the header names DESCRIPTION or PROFILE and a row ends before
    that column, the field is None, the strip raises, and the load raises
    and leaves the object as it was. *)
Theorem csv_short_row_raises (csv_path : string) (fieldnames : list string)
        (rows : list (list string)) (profile_filter : option string)
        (row : list string) (key : string) (self : ExcelValidator) :
  In row rows -> row <> [] ->
  key = "DESCRIPTION" \/ key = "PROFILE" ->
  In key (skipn (List.length row) fieldnames) ->
  Csv.field_or_empty (Csv.row_dict fieldnames row) key = Raise AttributeError /\
  exists e,
    load_rules_from_csv csv_path (Some (fieldnames :: rows)) profile_filter self
    = (Raise e, self).
Proof.
  intros Hin Hrow Hkey Hshort. split.
  { unfold Csv.field_or_empty. now rewrite (row_dict_short _ _ _ Hshort). }
  assert (H : forall rules, exists e,
               Csv.read_rows fieldnames rows profile_filter rules = Raise e).
  { induction rows as [|r rows IH]; [contradiction|]. intros rules.
    destruct Hin as [->|Hin].
    - destruct row as [|x row]; [contradiction|]. cbn [Csv.read_rows].
      destruct (rule_of_short_row fieldnames (x :: row) key Hkey Hshort)
        as (e & ->).
      eexists; reflexivity.
    - destruct r as [|x r]; [apply IH; exact Hin|]. cbn [Csv.read_rows].
      destruct (Csv.rule_of_row _); cbn [bind]; [|eexists; reflexivity].
      apply IH. exact Hin. }
  destruct (H []) as (e & He). exists e.
  unfold load_rules_from_csv, Csv.read. rewrite He. reflexivity.
Qed.

Lemma csv_short_row_raises_witness :
  let fieldnames := ["NUMBER"; "RULE_ID"; "EXPECTED_RESULT"; "PROFILE"] in
  let rows := [["1"; "r1"; "COMPLIANT"; "A"]; ["2"; "r2"; "FIXED"]] in
  (In ["2"; "r2"; "FIXED"] rows /\ ["2"; "r2"; "FIXED"] <> [] /\
   In "PROFILE" (skipn (List.length ["2"; "r2"; "FIXED"]) fieldnames)) /\
  Csv.field_or_empty (Csv.row_dict fieldnames ["2"; "r2"; "FIXED"]) "PROFILE"
  = Raise AttributeError /\
  exists e,
    load_rules_from_csv "rules.csv" (Some (fieldnames :: rows)) None init
    = (Raise e, init).
Proof.
  intros fieldnames rows.
  split; [split; [simpl; tauto | split; [discriminate | simpl; tauto]]|].
  apply (csv_short_row_raises "rules.csv" fieldnames rows None
           ["2"; "r2"; "FIXED"] "PROFILE" init);
    [simpl; tauto | discriminate | now right | simpl; tauto].
Defined.

(** X14: the spreadsheet loader puts every cell through str: an empty cell
    loads as the text None (NONE for the expected result), so that the
    profile filter none selects the rows without profile; a column that is
    absent loads as the empty text. *)
Theorem empty_cells_load_as_None (rule_data : list (Excel.cell * Excel.cell))
        (rule : Rule.t) :
  Excel.rule_of_row rule_data = Ok rule ->
  (Excel.lookup rule_data "RULE_ID" = Some Excel.CNone ->
   Rule.rule_id rule = "None") /\
  (Excel.lookup rule_data "EXPECTED_RESULT" = Some Excel.CNone ->
   Rule.expected_result rule = "NONE") /\
  (Excel.lookup rule_data "DESCRIPTION" = Some Excel.CNone ->
   Rule.description rule = "None") /\
  (Excel.lookup rule_data "PROFILE" = Some Excel.CNone ->
   Rule.profile rule = "None" /\ profile_selected (Some "none") rule = true) /\
  (Excel.lookup rule_data "DESCRIPTION" = None -> Rule.description rule = "") /\
  (Excel.lookup rule_data "PROFILE" = None ->
   Rule.profile rule = "" /\ profile_selected (Some "") rule = true).
Proof.
  unfold Excel.rule_of_row, Excel.item, Excel.item_or_empty.
  destruct (Excel.lookup rule_data "NUMBER") as [n|]; cbn [bind]; [|discriminate].
  destruct (Excel.int n); cbn [bind]; [|discriminate].
  destruct (Excel.lookup rule_data "RULE_ID") as [i|]; cbn [bind];
    [|discriminate].
  destruct (Excel.lookup rule_data "EXPECTED_RESULT") as [x|]; cbn [bind];
    [|discriminate].
  intros [= <-].
  cbn [Rule.rule_id Rule.expected_result Rule.description Rule.profile
       profile_selected].
  repeat apply conj; intros H; try (injection H as ->); rewrite ?H;
    try split; reflexivity.
Qed.

Lemma empty_cells_load_as_None_witness :
  let rule_data :=
    combine [Excel.CStr "NUMBER"; Excel.CStr "RULE_ID";
             Excel.CStr "EXPECTED_RESULT"; Excel.CStr "PROFILE"]
            [Excel.CInt 7; Excel.CStr "r7"; Excel.CNone; Excel.CNone] in
  let rule := Rule.mk 7 "r7" "NONE" "" "None" in
  Excel.rule_of_row rule_data = Ok rule /\
  (Excel.lookup rule_data "RULE_ID" = Some Excel.CNone ->
   Rule.rule_id rule = "None") /\
  (Excel.lookup rule_data "EXPECTED_RESULT" = Some Excel.CNone ->
   Rule.expected_result rule = "NONE") /\
  (Excel.lookup rule_data "DESCRIPTION" = Some Excel.CNone ->
   Rule.description rule = "None") /\
  (Excel.lookup rule_data "PROFILE" = Some Excel.CNone ->
   Rule.profile rule = "None" /\ profile_selected (Some "none") rule = true) /\
  (Excel.lookup rule_data "DESCRIPTION" = None -> Rule.description rule = "") /\
  (Excel.lookup rule_data "PROFILE" = None ->
   Rule.profile rule = "" /\ profile_selected (Some "") rule = true).
Proof.
  intros rule_data rule. split; [vm_compute; reflexivity|].
  apply (empty_cells_load_as_None rule_data rule). vm_compute. reflexivity.
Defined.

(** X15: the rows a load passes over do not affect it, whatever they hold:
    the blank lines of a CSV file, and the spreadsheet rows whose first
    cell is false (empty, zero, the empty text); a spreadsheet row without
    cells, reached after rows that load, raises an index error. *)
Theorem rows_passed_over_leave_no_trace :
  (forall (fieldnames : list string) (rows : list (list string))
          (profile_filter : option string) (rules : list Rule.t),
      Csv.read_rows fieldnames rows profile_filter rules
      = Csv.read_rows fieldnames (filter csv_row_read rows) profile_filter
                      rules) /\
  (forall (headers : list Excel.cell) (rows : list (list Excel.cell))
          (profile_filter : option string) (rules : list Rule.t),
      ~ In [] rows ->
      Excel.read_rows headers rows profile_filter rules
      = Excel.read_rows headers (filter excel_row_read rows) profile_filter
                        rules) /\
  (forall (headers : list Excel.cell) (rows later : list (list Excel.cell))
          (profile_filter : option string) (rules loaded : list Rule.t),
      Excel.read_rows headers rows profile_filter rules = Ok loaded ->
      Excel.read_rows headers (rows ++ [] :: later) profile_filter rules
      = Raise IndexError).
Proof.
  split; [|split].
  - intros fieldnames rows profile_filter.
    induction rows as [|row rows IH]; intros rules; [reflexivity|].
    destruct row as [|x row]; [apply IH|].
    cbn [filter csv_row_read Csv.read_rows].
    destruct (Csv.rule_of_row _); cbn [bind]; [apply IH | reflexivity].
  - intros headers rows profile_filter.
    induction rows as [|row rows IH]; intros rules Hne; [reflexivity|].
    destruct row as [|c row]; [exfalso; apply Hne; now left|].
    assert (Hne' : ~ In [] rows) by (intros H; apply Hne; now right).
    cbn [filter excel_row_read Excel.read_rows].
    destruct (Excel.truthy c) eqn:Hc; cbn [negb]; [|now apply IH].
    cbn [Excel.read_rows]. rewrite Hc. cbn [negb].
    destruct (Excel.rule_of_row _); cbn [bind]; [now apply IH | reflexivity].
  - intros headers rows later profile_filter.
    induction rows as [|row rows IH]; intros rules loaded; [reflexivity|].
    destruct row as [|c row]; [discriminate|]. cbn [app Excel.read_rows].
    destruct (negb (Excel.truthy c)); [apply IH|].
    destruct (Excel.rule_of_row _); cbn [bind]; [apply IH | discriminate].
Qed.

Lemma rows_passed_over_leave_no_trace_witness :
  let headers := Excel.row1 Sample.worksheet in
  let rows :=
    [[Excel.CInt 0; Excel.CStr "r0"; Excel.CStr "COMPLIANT"];
     [Excel.CStr ""; Excel.CStr "r0"; Excel.CNone];
     [Excel.CInt 1; Excel.CStr "r1"; Excel.CStr "COMPLIANT"];
     [Excel.CBool false]] in
  let loaded := [Rule.mk 1 "r1" "COMPLIANT" "" ""] in
  (~ In [] rows /\ Excel.read_rows headers rows None [] = Ok loaded) /\
  Excel.read_rows headers rows None []
  = Excel.read_rows headers (filter excel_row_read rows) None [] /\
  Excel.read_rows headers (rows ++ [] :: []) None [] = Raise IndexError.
Proof.
  intros headers rows loaded.
  destruct rows_passed_over_leave_no_trace as (_ & Hskip & Hempty).
  assert (Hne : ~ In [] rows)
    by (simpl; intros [H|[H|[H|[H|[]]]]]; discriminate H).
  split; [split; [exact Hne | vm_compute; reflexivity]|]. split.
  - apply (Hskip headers rows None []). exact Hne.
  - apply (Hempty headers rows [] None [] loaded). vm_compute. reflexivity.
Defined.

(* ===================================================================== *)
(** * The report request *)

Lemma getitem_last {V : Type} (d : list (string * V)) (key : string) (x : V) :
  getitem (d ++ [(key, x)])%list key = Some x.
Proof.
  rewrite getitem_app. cbn [getitem]. now rewrite String.eqb_refl.
Qed.

Lemma getitem_other {V : Type} (d : list (string * V)) (k key : string) (x : V) :
  (k =? key) = false -> getitem (d ++ [(k, x)])%list key = getitem d key.
Proof.
  intros H. rewrite getitem_app. cbn [getitem]. now rewrite H.
Qed.

Section BuildProperties.
Import Json XCCDFReportGenerator.

Variable repr : value -> string.

Lemma get_dict_or_absent (d : list (string * value)) (key : string) :
  dict_or_absent d key = true ->
  exists x, get_or d key (JDict []) = JDict x.
Proof.
  unfold dict_or_absent, get_or.
  destruct (getitem d key) as [[]|]; try discriminate; eauto.
Qed.

Lemma get_not_dict (d : list (string * value)) (key name : string)
      (default : value) :
  dict_or_absent d key = false ->
  get (get_or d key (JDict [])) name default = Raise AttributeError.
Proof.
  unfold dict_or_absent, get_or.
  destruct (getitem d key) as [[]|]; try discriminate; reflexivity.
Qed.

(** X16: the builder raises nothing but an attribute error, and it returns
    exactly for the payloads that are a dictionary whose report_config,
    and in it filters, generate and delivery, are each absent or a
    dictionary; every other key may be absent or hold any value. *)
Theorem build_returns_iff_well_shaped (json_payload : value) :
  match build_xccdf_report_xml repr json_payload with
  | Ok _ => well_shaped json_payload = true
  | Raise e => e = AttributeError /\ well_shaped json_payload = false
  end.
Proof.
  destruct json_payload as [| | | | |d]; try (split; reflexivity).
  unfold build_xccdf_report_xml, well_shaped. cbn [get bind].
  change (get_or d "report_config" (JDict []))
    with (match getitem d "report_config" with
          | Some x => x
          | None => JDict []
          end).
  destruct (getitem d "report_config") as [config|];
    [|cbn [get get_or getitem bind]; reflexivity].
  destruct config as [| | | | |config]; try (split; reflexivity).
  cbn [get bind].
  destruct (dict_or_absent config "filters") eqn:Hf; cbn [andb].
  2:{ rewrite (get_not_dict _ _ _ _ Hf). split; reflexivity. }
  destruct (get_dict_or_absent _ _ Hf) as (fl & ->). cbn [get bind].
  destruct (dict_or_absent config "generate") eqn:Hg; cbn [andb].
  2:{ rewrite (get_not_dict _ _ _ _ Hg). split; reflexivity. }
  destruct (get_dict_or_absent _ _ Hg) as (ge & ->). cbn [get bind].
  destruct (dict_or_absent config "delivery") eqn:Hd; cbn [andb].
  2:{ rewrite (get_not_dict _ _ _ _ Hd). split; reflexivity. }
  destruct (get_dict_or_absent _ _ Hd) as (de & ->). reflexivity.
Qed.

Lemma item_dict (d : list (string * value)) (key : string) (x : value) :
  getitem d key = Some x -> item (JDict d) key = Ok x.
Proof. intros H. cbn [item]. now rewrite H. Qed.

Lemma get_or_last (d : list (string * value)) (key : string) (x default : value) :
  get_or (d ++ [(key, x)])%list key default = x.
Proof. unfold get_or. now rewrite getitem_last. Qed.

Lemma get_or_other (d : list (string * value)) (k key : string)
      (x default : value) :
  (k =? key) = false ->
  get_or (d ++ [(k, x)])%list key default = get_or d key default.
Proof. intros H. unfold get_or. now rewrite getitem_other. Qed.

(** The payload after the four assignments. *)
Lemma updated_payload (d config filters : list (string * value))
      (session_id site_id policy_natural_id report_name : string) :
  getitem d "report_config" = Some (JDict config) ->
  getitem config "filters" = Some (JDict filters) ->
  load_and_build_xccdf_report repr "" (Parsed (JDict d)) session_id site_id
                              policy_natural_id report_name
  = let config1 := (config ++ [("name", JStr report_name)])%list in
    let filters1 := (filters ++ [("site_id", JStr site_id)])%list in
    let config2 := (config1 ++ [("filters", JDict filters1)])%list in
    let filters2 :=
      (filters1 ++ [("policy_natural_id", JStr policy_natural_id)])%list in
    let config3 := (config2 ++ [("filters", JDict filters2)])%list in
    build_xccdf_report_xml repr
      (JDict (((((d ++ [("session_id", JStr session_id)])
                 ++ [("report_config", JDict config1)])
                ++ [("report_config", JDict config2)])
               ++ [("report_config", JDict config3)]))%list).
Proof.
  intros Hc Hf. unfold load_and_build_xccdf_report.
  cbn [load bind setitem]. unfold update.
  rewrite (item_dict _ _ (JDict config))
    by (rewrite getitem_other by reflexivity; exact Hc).
  cbn [bind setitem].
  rewrite (item_dict _ "report_config" _ (getitem_last _ _ _)).
  cbn [bind].
  rewrite (item_dict _ "filters" (JDict filters))
    by (rewrite getitem_other by reflexivity; exact Hf).
  cbn [bind setitem].
  rewrite (item_dict _ "report_config" _ (getitem_last _ _ _)).
  cbn [bind].
  rewrite (item_dict _ "filters" _ (getitem_last _ _ _)).
  cbn [bind setitem]. reflexivity.
Qed.

(** X17: of a template whose report_config and filters are dictionaries,
    only generate_now, id, format, generate and delivery reach the request:
    the session, the name and the two filters are the arguments, whatever
    the template holds for them, and nothing else of the filters is read. *)
Theorem load_and_build_overrides_the_template
        (json_file_path : string) (d config filters : list (string * value))
        (session_id site_id policy_natural_id report_name : string) :
  getitem d "report_config" = Some (JDict config) ->
  getitem config "filters" = Some (JDict filters) ->
  load_and_build_xccdf_report repr json_file_path (Parsed (JDict d))
                              session_id site_id policy_natural_id report_name
  = build_xccdf_report_xml repr
      (JDict [("session_id", JStr session_id);
              ("generate_now", get_or d "generate_now" (JStr "1"));
              ("report_config",
               JDict [("id", get_or config "id" (JStr "-1"));
                      ("format", get_or config "format" (JStr "xccdf-xml"));
                      ("name", JStr report_name);
                      ("filters",
                       JDict [("site_id", JStr site_id);
                              ("policy_natural_id", JStr policy_natural_id)]);
                      ("generate", get_or config "generate" (JDict []));
                      ("delivery", get_or config "delivery" (JDict []))])]).
Proof.
  intros Hc Hf.
  change (load_and_build_xccdf_report repr json_file_path)
    with (load_and_build_xccdf_report repr "").
  rewrite (updated_payload _ _ _ _ _ _ _ Hc Hf). cbv zeta.
  unfold build_xccdf_report_xml.
  do 3 (cbn [get bind];
        repeat (first [rewrite get_or_last
                      | rewrite get_or_other by reflexivity])).
  cbn [get_or getitem String.eqb Ascii.eqb Bool.eqb get bind].
  reflexivity.
Qed.

(** X18: the loader needs what the builder defaults: a template that is no
    dictionary, or whose report_config or filters is no dictionary, raises
    a type error at the assignment; a template without report_config, or
    one whose report_config has no filters, raises a key error, although
    the builder accepts the payload without report_config. *)
Theorem load_and_build_needs_the_template_objects
        (json_file_path session_id site_id policy_natural_id report_name
         : string) :
  let run := fun json_file =>
    load_and_build_xccdf_report repr json_file_path json_file session_id
                                site_id policy_natural_id report_name in
  (forall template, is_dict template = false ->
                    run (Parsed template) = Raise TypeError) /\
  (forall d, getitem d "report_config" = None ->
             run (Parsed (JDict d)) = Raise (KeyError "report_config") /\
             exists xml, build_xccdf_report_xml repr (JDict d) = Ok xml) /\
  (forall d config, getitem d "report_config" = Some config ->
                    is_dict config = false ->
                    run (Parsed (JDict d)) = Raise TypeError) /\
  (forall d config, getitem d "report_config" = Some (JDict config) ->
                    getitem config "filters" = None ->
                    run (Parsed (JDict d)) = Raise (KeyError "filters")) /\
  (forall d config filters,
      getitem d "report_config" = Some (JDict config) ->
      getitem config "filters" = Some filters -> is_dict filters = false ->
      run (Parsed (JDict d)) = Raise TypeError).
Proof.
  intros run. subst run. unfold load_and_build_xccdf_report.
  cbn [load bind]. repeat apply conj.
  - intros [| | | | |d]; try reflexivity. discriminate.
  - intros d Hc. cbn [setitem bind]. unfold update at 1. cbn [item].
    rewrite getitem_other, Hc by reflexivity. split; [reflexivity|].
    assert (Hr : forall default, get_or d "report_config" default = default)
      by (intros default; unfold get_or; now rewrite Hc).
    unfold build_xccdf_report_xml. cbn [get bind]. rewrite !Hr.
    cbn [get get_or getitem bind]. eexists; reflexivity.
  - intros d config Hc Hd. cbn [setitem bind]. unfold update at 1. cbn [item].
    rewrite getitem_other, Hc by reflexivity. cbn [bind].
    destruct config; try reflexivity. discriminate.
  - intros d config Hc Hf. cbn [setitem bind]. unfold update at 1.
    rewrite (item_dict _ _ (JDict config))
      by (rewrite getitem_other by reflexivity; exact Hc).
    cbn [bind setitem]. unfold update at 1.
    rewrite (item_dict _ "report_config" _ (getitem_last _ _ _)).
    cbn [bind]. unfold update at 1. cbn [item].
    rewrite getitem_other, Hf by reflexivity. reflexivity.
  - intros d config filters Hc Hf Hd. cbn [setitem bind]. unfold update at 1.
    rewrite (item_dict _ _ (JDict config))
      by (rewrite getitem_other by reflexivity; exact Hc).
    cbn [bind setitem]. unfold update at 1.
    rewrite (item_dict _ "report_config" _ (getitem_last _ _ _)).
    cbn [bind]. unfold update at 1. cbn [item].
    rewrite getitem_other, Hf by reflexivity. cbn [bind].
    destruct filters; try reflexivity. discriminate.
Qed.

End BuildProperties.

Lemma load_and_build_overrides_the_template_witness :
  let filters := [("site_id", Json.JStr "1"); ("scope", Json.JStr "all")] in
  let config :=
    [("id", Json.JInt 12); ("name", Json.JStr "template");
     ("filters", Json.JDict filters);
     ("generate", Json.JDict [("after_scan", Json.JBool true)])] in
  let d := [("session_id", Json.JNull); ("report_config", Json.JDict config)] in
  (getitem d "report_config" = Some (Json.JDict config) /\
   getitem config "filters" = Some (Json.JDict filters)) /\
  XCCDFReportGenerator.load_and_build_xccdf_report
    (fun _ => "") "report.json" (Json.Parsed (Json.JDict d))
    "S1" "7" "policy-1" "weekly"
  = XCCDFReportGenerator.build_xccdf_report_xml (fun _ => "")
      (Json.JDict
         [("session_id", Json.JStr "S1");
          ("generate_now", Json.get_or d "generate_now" (Json.JStr "1"));
          ("report_config",
           Json.JDict
             [("id", Json.get_or config "id" (Json.JStr "-1"));
              ("format", Json.get_or config "format" (Json.JStr "xccdf-xml"));
              ("name", Json.JStr "weekly");
              ("filters",
               Json.JDict [("site_id", Json.JStr "7");
                           ("policy_natural_id", Json.JStr "policy-1")]);
              ("generate", Json.get_or config "generate" (Json.JDict []));
              ("delivery", Json.get_or config "delivery" (Json.JDict []))])]).
Proof.
  intros filters config d. split; [split; reflexivity|].
  apply (load_and_build_overrides_the_template (fun _ => "") "report.json"
           d config filters); reflexivity.
Defined.

Lemma load_and_build_needs_the_template_objects_witness :
  let run := fun json_file =>
    XCCDFReportGenerator.load_and_build_xccdf_report
      (fun _ => "") "report.json" json_file "S1" "7" "policy-1" "weekly" in
  run (Json.Parsed (Json.JList [])) = Raise TypeError /\
  (run (Json.Parsed (Json.JDict [("session_id", Json.JStr "old")]))
   = Raise (KeyError "report_config") /\
   exists xml,
     XCCDFReportGenerator.build_xccdf_report_xml
       (fun _ => "") (Json.JDict [("session_id", Json.JStr "old")]) = Ok xml) /\
  run (Json.Parsed (Json.JDict [("report_config", Json.JStr "weekly")]))
  = Raise TypeError /\
  run (Json.Parsed
         (Json.JDict [("report_config",
                       Json.JDict [("name", Json.JStr "weekly")])]))
  = Raise (KeyError "filters") /\
  run (Json.Parsed
         (Json.JDict [("report_config",
                       Json.JDict [("filters", Json.JList [])])]))
  = Raise TypeError.
Proof.
  intros run.
  destruct (load_and_build_needs_the_template_objects
              (fun _ => "") "report.json" "S1" "7" "policy-1" "weekly")
    as (H1 & H2 & H3 & H4 & H5).
  split; [apply H1; reflexivity|].
  split; [apply H2; reflexivity|].
  split; [apply (H3 _ (Json.JStr "weekly")); reflexivity|].
  split; [apply (H4 _ [("name", Json.JStr "weekly")]); reflexivity|].
  apply (H5 _ [("filters", Json.JList [])] (Json.JList [])); reflexivity.
Defined.

(* ===================================================================== *)
(** * Credentials from the environment *)

Lemma upper_app (a b : string) :
  Py.upper (a ++ b) = Py.upper a ++ Py.upper b.
Proof.
  unfold Py.upper. induction a as [|c a IH]; cbn [append Py.map_str];
    [reflexivity | now rewrite IH].
Qed.

Lemma prefix_of_upper (benchmark os_name version credential_type service_type
                       : string) :
  CredentialManager.prefix_of benchmark os_name version credential_type
                              service_type
  = "VM_" ++ Py.upper benchmark ++ "_" ++ Py.upper os_name ++ "_"
    ++ Py.upper version ++ "_" ++ Py.upper credential_type ++ "_"
    ++ Py.upper service_type.
Proof.
  unfold CredentialManager.prefix_of. rewrite !upper_app. reflexivity.
Qed.

Section EnvCredentials.
Import CredentialManager.

Variable env : environ.
Variables benchmark os_name version credential_type service_type : string.

(** X19: when the environment backend returns, the ip, the username and the
    password are non-empty strings; when it does not, it raises the value
    error that lists the three variables of the prefix. The messages logged
    are built from the arguments alone: none holds a value read from the
    environment. *)
Theorem env_credentials_are_set_or_missing :
  let prefix :=
    prefix_of benchmark os_name version credential_type service_type in
  let warned := warning_logged prefix in
  let retrieved := info_logged benchmark os_name version in
  match _get_from_env env benchmark os_name version credential_type
                      service_type with
  | (Ok (ip, username, password), logged) =>
      truthy ip = true /\ truthy username = true /\ truthy password = true /\
      (logged = [retrieved] \/ logged = [warned; retrieved])
  | (Raise e, logged) =>
      e = ValueError (missing_variables prefix) /\ logged = [warned]
  end.
Proof.
  intros prefix warned retrieved. unfold _get_from_env. fold prefix.
  destruct (all [getenv env (prefix ++ "_IP");
                 getenv env (prefix ++ "_USERNAME");
                 getenv env (prefix ++ "_PASSWORD")]) eqn:Hspecific;
    cbn [negb].
  - rewrite Hspecific. cbn [negb app].
    cbn [all forallb] in Hspecific. rewrite !andb_true_iff in Hspecific.
    destruct Hspecific as (H1 & H2 & H3 & _).
    split; [exact H1|]. split; [exact H2|]. split; [exact H3|].
    left. reflexivity.
  - match goal with
    | |- context [negb (all ?l)] => destruct (all l) eqn:Hall
    end; cbn [negb app]; [|split; reflexivity].
    cbn [all forallb] in Hall. rewrite !andb_true_iff in Hall.
    destruct Hall as (H1 & H2 & H3 & _).
    split; [exact H1|]. split; [exact H2|]. split; [exact H3|].
    right. reflexivity.
Qed.

(** X20: when the three variables of the prefix are set and non-empty, they
    are what is returned, with no warning and whatever the generic
    variables hold; the letter case of the arguments does not matter
    then. *)
Theorem specific_credentials_win :
  let prefix :=
    prefix_of benchmark os_name version credential_type service_type in
  let retrieved := info_logged benchmark os_name version in
  all [env (prefix ++ "_IP"); env (prefix ++ "_USERNAME");
       env (prefix ++ "_PASSWORD")] = true ->
  _get_from_env env benchmark os_name version credential_type service_type
  = (Ok (env (prefix ++ "_IP"), env (prefix ++ "_USERNAME"),
         env (prefix ++ "_PASSWORD")),
     [retrieved]) /\
  forall benchmark' os_name' version' credential_type' service_type',
    Py.upper benchmark' = Py.upper benchmark ->
    Py.upper os_name' = Py.upper os_name ->
    Py.upper version' = Py.upper version ->
    Py.upper credential_type' = Py.upper credential_type ->
    Py.upper service_type' = Py.upper service_type ->
    fst (_get_from_env env benchmark' os_name' version' credential_type'
                       service_type')
    = fst (_get_from_env env benchmark os_name version credential_type
                         service_type).
Proof.
  intros prefix retrieved Hspecific.
  assert (Hrun : forall b o v c s,
             prefix_of b o v c s = prefix ->
             fst (_get_from_env env b o v c s)
             = Ok (env (prefix ++ "_IP"), env (prefix ++ "_USERNAME"),
                   env (prefix ++ "_PASSWORD"))).
  { intros b o v c s Hp. unfold _get_from_env, getenv. rewrite Hp.
    rewrite Hspecific. cbn [negb]. rewrite Hspecific. reflexivity. }
  split.
  - unfold _get_from_env, getenv. fold prefix.
    rewrite Hspecific. cbn [negb]. rewrite Hspecific. reflexivity.
  - intros b o v c s Hb Ho Hv Hc Hs.
    rewrite (Hrun benchmark os_name version credential_type service_type)
      by reflexivity.
    apply Hrun. subst prefix. rewrite !prefix_of_upper. congruence.
Qed.

(** X21: without a specific username, and with an ip and a password found
    under the specific or the generic names, the username is root when the
    generic variable is not set, the value of the generic variable when it
    is set and non-empty, and the call raises when the generic variable is
    set to the empty string. *)
Theorem username_defaults_to_root (ip password : string) :
  let prefix :=
    prefix_of benchmark os_name version credential_type service_type in
  let generic := generic_name benchmark os_name in
  let warned := warning_logged prefix in
  let retrieved := info_logged benchmark os_name version in
  truthy (env (prefix ++ "_USERNAME")) = false ->
  or_else (env (prefix ++ "_IP")) (env (generic "_IP")) = Some ip ->
  or_else (env (prefix ++ "_PASSWORD")) (env (generic "_PASSWORD"))
  = Some password ->
  ip <> "" -> password <> "" ->
  let run :=
    _get_from_env env benchmark os_name version credential_type service_type in
  (env (generic "_USERNAME") = None ->
   run = (Ok (Some ip, Some "root", Some password), [warned; retrieved])) /\
  (env (generic "_USERNAME") = Some "" ->
   run = (Raise (ValueError (missing_variables prefix)), [warned])) /\
  (forall username, username <> "" ->
                    env (generic "_USERNAME") = Some username ->
                    run = (Ok (Some ip, Some username, Some password),
                           [warned; retrieved])).
Proof.
  intros prefix generic warned retrieved Hu Hip Hpw Hi Hp run. subst run.
  assert (Hspecific : all [getenv env (prefix ++ "_IP");
                           getenv env (prefix ++ "_USERNAME");
                           getenv env (prefix ++ "_PASSWORD")] = false).
  { unfold getenv. cbn [all forallb]. rewrite Hu.
    now rewrite andb_false_r. }
  unfold _get_from_env. fold prefix. rewrite Hspecific.
  cbn [negb]. unfold getenv in *.
  change ("VM_" ++ benchmark ++ "_" ++ os_name ++ "_IP") with (generic "_IP").
  change ("VM_" ++ benchmark ++ "_" ++ os_name ++ "_USERNAME")
    with (generic "_USERNAME").
  change ("VM_" ++ benchmark ++ "_" ++ os_name ++ "_PASSWORD")
    with (generic "_PASSWORD").
  rewrite Hip, Hpw.
  assert (Hor : forall other,
             or_else (env (prefix ++ "_USERNAME")) other = other)
    by (intros other; unfold or_else; now rewrite Hu).
  rewrite !Hor. unfold getenv_default.
  destruct ip as [|a ip]; [contradiction|].
  destruct password as [|b password]; [contradiction|].
  repeat apply conj.
  - intros ->. reflexivity.
  - intros ->. reflexivity.
  - intros [|c username] Hne ->; [contradiction | reflexivity].
Qed.

End EnvCredentials.

Section Dispatch.
Import CredentialManager.

Variables HAS_AWS HAS_CRYPTO : bool.
Variables _get_from_aws _get_from_vault _get_from_encrypted_file _get_from_json
  : t -> string -> string -> string -> string -> string
    -> result credentials * log.

(** X22: the vault backend is never reached, whatever is installed, since
    the flag of its import is False on both branches; the environment
    backend is reached whatever is installed; aws and encrypted without
    their library, and any other name, raise the unsupported-backend
    error. The keyword uses the environment backend when CRED_BACKEND is
    not set, and no backend at all when it is set to the empty string. *)
Theorem backend_dispatch
        (env : environ)
        (benchmark os_name version credential_type service_type : string) :
  let method :=
    get_vm_credentials HAS_AWS HAS_CRYPTO _get_from_aws _get_from_vault
                       _get_from_encrypted_file _get_from_json in
  (forall self,
      backend self = "vault" ->
      method self env benchmark os_name version credential_type service_type
      = (Raise (ValueError "Unsupported backend: vault"), [])) /\
  (forall self,
      backend self = "env" ->
      method self env benchmark os_name version credential_type service_type
      = _get_from_env env benchmark os_name version credential_type
                      service_type) /\
  (forall self,
      backend self = "aws" -> HAS_AWS = false ->
      method self env benchmark os_name version credential_type service_type
      = (Raise (ValueError "Unsupported backend: aws"), [])) /\
  (forall self,
      backend self = "encrypted" -> HAS_CRYPTO = false ->
      method self env benchmark os_name version credential_type service_type
      = (Raise (ValueError "Unsupported backend: encrypted"), [])) /\
  (forall self,
      ~ In (backend self) ["env"; "aws"; "vault"; "encrypted"; "json"] ->
      method self env benchmark os_name version credential_type service_type
      = (Raise (ValueError ("Unsupported backend: " ++ backend self)), [])) /\
  (env "CRED_BACKEND" = None ->
   keyword HAS_AWS HAS_CRYPTO _get_from_aws _get_from_vault
           _get_from_encrypted_file _get_from_json env benchmark os_name
           version credential_type service_type
   = (fst (_get_from_env env benchmark os_name version credential_type
                         service_type),
      (INFO, "Credential Manager initialized with backend: env")
        :: snd (_get_from_env env benchmark os_name version credential_type
                              service_type))) /\
  (env "CRED_BACKEND" = Some "" ->
   keyword HAS_AWS HAS_CRYPTO _get_from_aws _get_from_vault
           _get_from_encrypted_file _get_from_json env benchmark os_name
           version credential_type service_type
   = (Raise (ValueError "Unsupported backend: "),
      [(INFO, "Credential Manager initialized with backend: ")])).
Proof.
  intros method. subst method. unfold get_vm_credentials. repeat apply conj.
  - intros self ->. reflexivity.
  - intros self ->. reflexivity.
  - intros self -> ->. reflexivity.
  - intros self -> ->. reflexivity.
  - intros self Hb. cbn [In] in Hb.
    destruct (String.eqb_spec (backend self) "env") as [e|_];
      [symmetry in e; tauto|].
    destruct (String.eqb_spec (backend self) "aws") as [e|_];
      [symmetry in e; tauto|].
    destruct (String.eqb_spec (backend self) "vault") as [e|_];
      [symmetry in e; tauto|].
    destruct (String.eqb_spec (backend self) "encrypted") as [e|_];
      [symmetry in e; tauto|].
    destruct (String.eqb_spec (backend self) "json") as [e|_];
      [symmetry in e; tauto|].
    reflexivity.
  - intros Hb. unfold keyword, init, getenv_default. rewrite Hb.
    cbn [or_else truthy string_of]. unfold get_vm_credentials.
    cbn [backend String.eqb Ascii.eqb Bool.eqb].
    destruct (_get_from_env env _ _ _ _ _). reflexivity.
  - intros Hb. unfold keyword, init, getenv_default. rewrite Hb. reflexivity.
Qed.

End Dispatch.

Lemma specific_credentials_win_witness :
  let prefix := "VM_CIS_RHEL_9_COMPLIANCE_SERVER" in
  CredentialManager.all
    [SampleEnv.specific (prefix ++ "_IP");
     SampleEnv.specific (prefix ++ "_USERNAME");
     SampleEnv.specific (prefix ++ "_PASSWORD")] = true /\
  CredentialManager._get_from_env SampleEnv.specific "CIS" "rhel" "9"
                                  "compliance" "server"
  = (Ok (Some "10.4.22.212", Some "admin", Some "s3cret"),
     [(CredentialManager.INFO,
       "Retrieved credentials from environment for CIS/rhel/9")]) /\
  fst (CredentialManager._get_from_env SampleEnv.specific "cis" "Rhel" "9"
                                       "Compliance" "SERVER")
  = fst (CredentialManager._get_from_env SampleEnv.specific "CIS" "rhel" "9"
                                         "compliance" "server").
Proof.
  intros prefix. split; [reflexivity|].
  destruct (specific_credentials_win SampleEnv.specific "CIS" "rhel" "9"
              "compliance" "server") as [Hrun Hcase]; [reflexivity|].
  split; [exact Hrun|]. apply Hcase; reflexivity.
Defined.

Lemma username_defaults_to_root_witness :
  let run := fun username =>
    CredentialManager._get_from_env (SampleEnv.generic username) "CIS" "RHEL"
                                    "9" "compliance" "server" in
  let warned :=
    (CredentialManager.WARNING,
     "Specific credentials not found for VM_CIS_RHEL_9_COMPLIANCE_SERVER, trying generic...") in
  let retrieved :=
    (CredentialManager.INFO,
     "Retrieved credentials from environment for CIS/RHEL/9") in
  run None
  = (Ok (Some "10.4.22.212", Some "root", Some "s3cret"), [warned; retrieved]) /\
  fst (run (Some "")) <> fst (run None) /\
  run (Some "svc")
  = (Ok (Some "10.4.22.212", Some "svc", Some "s3cret"), [warned; retrieved]).
Proof.
  intros run warned retrieved. split; [|split].
  - destruct (username_defaults_to_root (SampleEnv.generic None) "CIS" "RHEL"
                "9" "compliance" "server" "10.4.22.212" "s3cret"
                eq_refl eq_refl eq_refl
                ltac:(discriminate) ltac:(discriminate))
      as (H & _ & _).
    apply H. reflexivity.
  - destruct (username_defaults_to_root (SampleEnv.generic (Some "")) "CIS" "RHEL"
                "9" "compliance" "server" "10.4.22.212" "s3cret"
                eq_refl eq_refl eq_refl
                ltac:(discriminate) ltac:(discriminate))
      as (_ & H & _).
    unfold run. rewrite H by reflexivity. discriminate.
  - destruct (username_defaults_to_root (SampleEnv.generic (Some "svc")) "CIS" "RHEL"
                "9" "compliance" "server" "10.4.22.212" "s3cret"
                eq_refl eq_refl eq_refl
                ltac:(discriminate) ltac:(discriminate))
      as (_ & _ & H).
    apply (H "svc"); [discriminate | reflexivity].
Defined.

Lemma backend_dispatch_witness :
  let missing := fun (_ : CredentialManager.t) (_ _ _ _ _ : string) =>
    (@Raise CredentialManager.credentials (ValueError "no such secret"),
     @nil (CredentialManager.level * string)) in
  let method :=
    CredentialManager.get_vm_credentials true true missing missing missing
                                         missing in
  let unsupported := fun backend =>
    (@Raise CredentialManager.credentials
            (ValueError ("Unsupported backend: " ++ backend)),
     @nil (CredentialManager.level * string)) in
  method (SampleEnv.manager "vault") SampleEnv.specific "CIS" "RHEL" "9"
         "compliance" "server"
  = unsupported "vault" /\
  method (SampleEnv.manager "env") SampleEnv.specific "CIS" "RHEL" "9"
         "compliance" "server"
  = CredentialManager._get_from_env SampleEnv.specific "CIS" "RHEL" "9"
                                    "compliance" "server" /\
  CredentialManager.get_vm_credentials false false missing missing missing
    missing (SampleEnv.manager "aws") SampleEnv.specific "CIS" "RHEL" "9"
    "compliance" "server"
  = unsupported "aws" /\
  CredentialManager.get_vm_credentials false false missing missing missing
    missing (SampleEnv.manager "encrypted") SampleEnv.specific "CIS" "RHEL" "9"
    "compliance" "server"
  = unsupported "encrypted" /\
  method (SampleEnv.manager "Env") SampleEnv.specific "CIS" "RHEL" "9"
         "compliance" "server"
  = unsupported "Env" /\
  fst (CredentialManager.keyword true true missing missing missing missing
         SampleEnv.specific "CIS" "RHEL" "9" "compliance" "server")
  = Ok (Some "10.4.22.212", Some "admin", Some "s3cret") /\
  fst (CredentialManager.keyword true true missing missing missing missing
         (fun name => if name =? "CRED_BACKEND" then Some ""
                      else SampleEnv.specific name)
         "CIS" "RHEL" "9" "compliance" "server")
  = Raise (ValueError "Unsupported backend: ").
Proof.
  intros missing method unsupported.
  destruct (backend_dispatch true true missing missing missing missing
              SampleEnv.specific "CIS" "RHEL" "9" "compliance" "server")
    as (Hvault & Henv & _ & _ & Hother & Hkey & _).
  destruct (backend_dispatch false false missing missing missing missing
              SampleEnv.specific "CIS" "RHEL" "9" "compliance" "server")
    as (_ & _ & Haws & Hcrypto & _).
  destruct (backend_dispatch true true missing missing missing missing
              (fun name => if name =? "CRED_BACKEND" then Some ""
                           else SampleEnv.specific name)
              "CIS" "RHEL" "9" "compliance" "server")
    as (_ & _ & _ & _ & _ & _ & Hempty).
  split; [apply Hvault; reflexivity|].
  split; [apply Henv; reflexivity|].
  split; [apply Haws; reflexivity|].
  split; [apply Hcrypto; reflexivity|].
  split.
  { apply Hother. cbn. intros [H|[H|[H|[H|[H|[]]]]]]; discriminate H. }
  split; [rewrite Hkey by reflexivity; reflexivity|].
  rewrite Hempty by reflexivity. reflexivity.
Defined.

(* ===================================================================== *)
(** * Numbers written and read *)

Lemma parse_digits_of_uint (d : Decimal.uint) :
  forall (acc : Z) (after_digit : bool),
    d <> Decimal.Nil \/ after_digit = true ->
    Py.parse_digits acc after_digit (NilEmpty.string_of_uint d)
    = Some (digits_value acc d).
Proof.
  induction d; intros acc after_digit H;
    cbn [NilEmpty.string_of_uint Py.parse_digits digits_value];
    try (change (Py.isspace _) with false);
    try (rewrite IHd by (now right); reflexivity).
  destruct H as [H| ->]; [contradiction | reflexivity].
Qed.

Lemma of_uint_acc_value (d : Decimal.uint) :
  forall acc : positive,
    Z.pos (Pos.of_uint_acc d acc) = digits_value (Z.pos acc) d.
Proof.
  induction d; intros acc; cbn [Pos.of_uint_acc digits_value];
    try reflexivity; rewrite IHd; f_equal; lia.
Qed.

Lemma of_uint_value (d : Decimal.uint) : Z.of_uint d = digits_value 0 d.
Proof.
  unfold Z.of_uint.
  induction d; cbn [Pos.of_uint digits_value Z.of_N]; try reflexivity;
    try (rewrite of_uint_acc_value; reflexivity).
  exact IHd.
Qed.

Lemma digits_without_space (d : Decimal.uint) :
  all_chars no_space (NilEmpty.string_of_uint d) = true.
Proof. induction d; cbn [NilEmpty.string_of_uint all_chars]; auto. Qed.

Lemma isspace_c_isspace (c : ascii) :
  Py.isspace_c c = true -> Py.isspace c = true.
Proof.
  destruct c as [[] [] [] [] [] [] [] []]; intros H;
    first [reflexivity | discriminate H].
Qed.

Lemma no_space_isspace_c (c : ascii) :
  no_space c = true -> Py.isspace_c c = false.
Proof.
  unfold no_space. intros H. apply negb_true_iff in H.
  destruct (Py.isspace_c c) eqn:Hc; [|reflexivity].
  apply isspace_c_isspace in Hc. congruence.
Qed.

Lemma lskip_no_space (s : string) :
  all_chars no_space s = true -> Py.lskip s = s.
Proof.
  destruct s as [|c s]; [reflexivity|]. cbn [all_chars Py.lskip].
  intros H. apply andb_prop in H as [Hc _].
  now rewrite (no_space_isspace_c c Hc).
Qed.

Lemma rskip_no_space (s : string) :
  all_chars no_space s = true -> Py.rskip s = s.
Proof.
  induction s as [|c s IH]; [reflexivity|]. cbn [all_chars Py.rskip].
  intros H. apply andb_prop in H as [Hc Hs].
  rewrite (IH Hs), (no_space_isspace_c c Hc). destruct s; reflexivity.
Qed.

Lemma skip_no_space (s : string) :
  all_chars no_space s = true -> Py.rskip (Py.lskip s) = s.
Proof.
  intros H. rewrite (lskip_no_space s H). now apply rskip_no_space.
Qed.

Lemma int_of_digits (d : Decimal.uint) :
  d <> Decimal.Nil ->
  Py.int_of_str (NilEmpty.string_of_uint d) = Some (Z.of_uint d) /\
  Py.int_of_str (String "-" (NilEmpty.string_of_uint d))
  = Some (- Z.of_uint d)%Z.
Proof.
  intros Hd. unfold Py.int_of_str. split.
  - rewrite (skip_no_space _ (digits_without_space d)).
    rewrite of_uint_value, <- (parse_digits_of_uint d 0 false) by now left.
    destruct d; try contradiction; reflexivity.
  - rewrite skip_no_space
      by (cbn [all_chars]; rewrite digits_without_space; reflexivity).
    rewrite parse_digits_of_uint by now left.
    cbn [option_map]. now rewrite of_uint_value.
Qed.

(** [int] skips the whitespace of C around a literal and no more: a
    separator control character, which [str.strip] removes, makes the text
    no number. *)
Example int_skips_blanks_only :
  Py.int_of_str " 5 " = Some 5%Z /\
  Py.int_of_str (String "009" "5" ++ nl) = Some 5%Z /\
  Py.int_of_str "-12" = Some (-12)%Z /\
  Py.strip (String "028" "5") = "5" /\
  Py.int_of_str (String "028" "5") = None /\
  Py.int_of_str (String "5" (String "031" "")) = None /\
  Csv.number_field [("NUMBER", Some (String "028" "5"))]
  = Raise (ValueError "invalid literal for int() with base 10").
Proof. repeat split; reflexivity. Qed.

Lemma int_of_str_of_int (z : Z) : Py.int_of_str (Py.str_of_int z) = Some z.
Proof.
  unfold Py.str_of_int. destruct z as [|p|p]; [reflexivity| |];
    cbn [Z.to_int NilZero.string_of_int];
    pose proof (DecimalPos.Unsigned.to_uint_nonnil p) as Hnil;
    destruct (int_of_digits _ Hnil) as [Hpos Hneg];
    pose proof (DecimalZ.of_to (Z.pos p)) as Hp;
    cbn [Z.to_int Z.of_int] in Hp.
  - unfold NilZero.string_of_uint.
    destruct (Pos.to_uint p) eqn:Hu; try contradiction;
      rewrite Hpos, Hp; reflexivity.
  - unfold NilZero.string_of_uint.
    destruct (Pos.to_uint p) eqn:Hu; try contradiction;
      rewrite Hneg, Hp; reflexivity.
Qed.

(** X23: the number of a rule survives writing and reading: the decimal
    text the summary prints for a number is read back by the loaders as
    that number, from a CSV field and from a text cell of a spreadsheet,
    which so loads the number a numeric cell would. *)
Theorem rule_number_round_trip (z : Z) :
  Py.int_of_str (Py.str_of_int z) = Some z /\
  Csv.number_field [("NUMBER", Some (Py.str_of_int z))] = Ok z /\
  Excel.int (Excel.CStr (Excel.str (Excel.CInt z))) = Ok z /\
  Excel.int (Excel.CStr (Py.str_of_int z)) = Excel.int (Excel.CInt z).
Proof.
  pose proof (int_of_str_of_int z) as H.
  split; [exact H|]. split; [|split].
  - unfold Csv.number_field. cbn [getitem String.eqb Ascii.eqb Bool.eqb].
    now rewrite H.
  - cbn [Excel.str Excel.int]. now rewrite H.
  - cbn [Excel.int]. now rewrite H.
Qed.

(* ===================================================================== *)
(** * The lines of a formatted file *)

Section Lines.
Import FormatXml.

Lemma split_lines_cons (s : string) :
  exists line lines, split_lines s = line :: lines.
Proof.
  induction s as [|c s (line & lines & IH)]; cbn [split_lines]; [eauto|].
  destruct (Ascii.eqb c newline); [eauto|]. rewrite IH. eauto.
Qed.

Lemma split_lines_no_newline (s : string) :
  Forall (fun line => Py.contains newline line = false) (split_lines s).
Proof.
  induction s as [|c s IH]; cbn [split_lines].
  - constructor; [reflexivity | constructor].
  - destruct (Ascii.eqb c newline) eqn:Hc;
      [constructor; [reflexivity|exact IH]|].
    destruct (split_lines s) as [|line lines]; inversion IH; subst;
      constructor; auto; cbn [Py.contains]; rewrite Hc; [reflexivity|].
    assumption.
Qed.

Lemma split_line (line : string) :
  Py.contains newline line = false -> split_lines line = [line].
Proof.
  induction line as [|c line IH]; [reflexivity|]. cbn [Py.contains split_lines].
  intros H. apply orb_false_elim in H as [Hc Hl].
  rewrite Hc, (IH Hl). reflexivity.
Qed.

Lemma split_lines_app (line rest : string) :
  Py.contains newline line = false ->
  split_lines (line ++ nl ++ rest) = line :: split_lines rest.
Proof.
  induction line as [|c line IH]; [reflexivity|].
  cbn [Py.contains append split_lines].
  intros H. apply orb_false_elim in H as [Hc Hl].
  rewrite Hc, (IH Hl). reflexivity.
Qed.

Lemma split_join (lines : list string) :
  lines <> [] ->
  Forall (fun line => Py.contains newline line = false) lines ->
  split_lines (join_lines lines) = lines.
Proof.
  induction lines as [|line lines IH]; [contradiction|].
  intros _ H. inversion H as [|? ? Hline Hlines]; subst.
  destruct lines as [|line' lines]; cbn [join_lines].
  - now apply split_line.
  - rewrite (split_lines_app _ _ Hline). f_equal.
    apply IH; [discriminate | exact Hlines].
Qed.

Lemma filter_idem {A : Type} (p : A -> bool) (l : list A) :
  filter p (filter p l) = filter p l.
Proof.
  induction l as [|x l IH]; [reflexivity|]. cbn [filter].
  destruct (p x) eqn:Hx; cbn [filter]; [rewrite Hx; f_equal|]; exact IH.
Qed.

Lemma Forall_filter {A : Type} (P : A -> Prop) (p : A -> bool) (l : list A) :
  Forall P l -> Forall P (filter p l).
Proof.
  induction 1 as [|x l Hx _ IH]; cbn [filter]; [constructor|].
  destruct (p x); [constructor|]; assumption.
Qed.

Lemma formatted_lines (pretty_xml : string) :
  let lines := filter kept (split_lines pretty_xml) in
  (lines = [] /\ formatted pretty_xml = "") \/
  (lines <> [] /\ split_lines (formatted pretty_xml) = lines).
Proof.
  intros lines. unfold formatted. fold lines.
  destruct lines as [|line lines'] eqn:Hl; [left; split; reflexivity|].
  right. split; [discriminate|]. rewrite <- Hl. apply split_join.
  - rewrite Hl. discriminate.
  - apply Forall_filter, split_lines_no_newline.
Qed.

Lemma formatted_idem (pretty_xml : string) :
  formatted (formatted pretty_xml) = formatted pretty_xml.
Proof.
  destruct (formatted_lines pretty_xml) as [[_ H]|[_ H]].
  - rewrite H. reflexivity.
  - unfold formatted at 1. rewrite H, filter_idem. reflexivity.
Qed.

Variable toprettyxml : string -> result string.

(** X24: when the input file exists and its text is parsed and printed, the
    call returns the output path and writes the lines of the printed text
    that are not blank and do not start with the XML declaration, joined
    without a newline at the end: the text written is empty or has only
    such lines, and formatting it again changes nothing. *)
Theorem formatted_file_has_no_blank_line (fs : files)
        (input_path output_path xml_string pretty_xml : string) :
  fs input_path = Some xml_string ->
  toprettyxml xml_string = Ok pretty_xml ->
  exists text,
    format_xml_file toprettyxml fs input_path output_path
    = (Ok output_path, write fs output_path text) /\
    (text = "" \/
     (split_lines text = filter kept (split_lines pretty_xml) /\
      forallb kept (split_lines text) = true)) /\
    formatted text = text.
Proof.
  intros Hin Hpretty. exists (formatted pretty_xml).
  unfold format_xml_file. rewrite Hin, Hpretty.
  split; [reflexivity|]. split; [|apply formatted_idem].
  destruct (formatted_lines pretty_xml) as [[_ H]|[_ H]]; [now left|].
  right. split; [exact H|]. rewrite H. apply forallb_forall.
  intros line Hl. now apply filter_In in Hl.
Qed.

(** X25: a call changes no file but the one at the output path; a call
    that raises, because the input file is missing or its text is not
    well-formed, writes nothing; a call that returns, returns the output
    path and has written the file. *)
Theorem format_xml_file_writes_one_file (fs : files)
        (input_path output_path : string) :
  let run := format_xml_file toprettyxml fs input_path output_path in
  (forall path, path <> output_path -> snd run path = fs path) /\
  (forall e, fst run = Raise e -> snd run = fs) /\
  (fs input_path = None ->
   run = (Raise (FileNotFoundError "No such file or directory"), fs)) /\
  (forall returned, fst run = Ok returned ->
                    returned = output_path /\ snd run output_path <> None).
Proof.
  intros run. subst run. unfold format_xml_file.
  destruct (fs input_path) as [xml_string|]; cbn [fst snd].
  - destruct (toprettyxml xml_string) as [pretty_xml|e]; cbn [fst snd].
    + repeat apply conj; try discriminate.
      * intros path Hp. unfold write. apply String.eqb_neq in Hp.
        now rewrite Hp.
      * intros returned [= <-]. split; [reflexivity|].
        unfold write. rewrite String.eqb_refl. discriminate.
    + repeat apply conj; try discriminate; reflexivity.
  - repeat apply conj; try discriminate; reflexivity.
Qed.

End Lines.

Lemma formatted_file_has_no_blank_line_witness :
  let toprettyxml := fun _ : string => Ok SampleXml.pretty in
  let text := "<a>" ++ nl ++ "    <b/>" ++ nl ++ "</a>" in
  (SampleXml.files "report.xml" = Some "<a><b/></a>" /\
   toprettyxml "<a><b/></a>" = Ok SampleXml.pretty /\
   FormatXml.formatted SampleXml.pretty = text) /\
  exists text,
    FormatXml.format_xml_file toprettyxml SampleXml.files "report.xml"
                              "pretty.xml"
    = (Ok "pretty.xml", FormatXml.write SampleXml.files "pretty.xml" text) /\
    (text = "" \/
     (FormatXml.split_lines text
      = filter FormatXml.kept (FormatXml.split_lines SampleXml.pretty) /\
      forallb FormatXml.kept (FormatXml.split_lines text) = true)) /\
    FormatXml.formatted text = text.
Proof.
  intros toprettyxml text. split; [repeat split; vm_compute; reflexivity|].
  apply (formatted_file_has_no_blank_line toprettyxml SampleXml.files
           "report.xml" "pretty.xml" "<a><b/></a>" SampleXml.pretty);
    reflexivity.
Defined.

(* ===================================================================== *)
(** * A rule identifier that splices a predicate *)

Lemma findall_second_predicate (rest : string) :
  ElementPath.findall 0 ("][@idref=" ++ rest)
  = ([("]", ""); ("[", ""); ("@", ""); ("", "idref"); ("=", "")]
       ++ ElementPath.findall 0 rest)%list.
Proof. reflexivity. Qed.

Lemma spliced_path (a b : string) :
  rule_result_path (spliced a b)
  = ".//{*}rule-result[@idref=" ++
    String ElementPath.squote
      (a ++ String ElementPath.squote
         ("][@idref=" ++
          String ElementPath.squote (b ++ String ElementPath.squote "]"))).
Proof.
  unfold rule_result_path, spliced.
  change (".//{*}rule-result[@idref='" ++ (a ++ "'][@idref='" ++ b) ++ "']")
    with (".//{*}rule-result[@idref=" ++
          String ElementPath.squote ((a ++ "'][@idref='" ++ b) ++ "']")).
  do 2 f_equal. rewrite append_assoc. f_equal.
Qed.

Lemma tokens_spliced_path (a b : string) :
  Py.contains ElementPath.squote a = false ->
  Py.contains ElementPath.squote b = false ->
  ElementPath.findall 0 (rule_result_path (spliced a b))
  = [(".", ""); ("//", ""); ("", "{*}rule-result"); ("[", ""); ("@", "");
     ("", "idref"); ("=", "");
     (String ElementPath.squote (a ++ String ElementPath.squote ""), "");
     ("]", ""); ("[", ""); ("@", ""); ("", "idref"); ("=", "");
     (String ElementPath.squote (b ++ String ElementPath.squote ""), "");
     ("]", "")].
Proof.
  intros Ha Hb.
  rewrite spliced_path, findall_prefix, (findall_quoted _ _ Ha),
    findall_second_predicate, (findall_quoted _ _ Hb).
  reflexivity.
Qed.

Lemma compile_spliced_path (a b : string) :
  Py.contains ElementPath.squote a = false ->
  Py.contains ElementPath.squote b = false ->
  ElementPath.compile (rule_result_path (spliced a b))
  = Ok [ElementPath.Self; ElementPath.Descendant "{*}rule-result";
        ElementPath.AttrEq "idref" a; ElementPath.AttrEq "idref" b].
Proof.
  intros Ha Hb. unfold ElementPath.compile.
  assert (Hlast : Py.take_last 1 (rule_result_path (spliced a b)) = "]").
  { unfold rule_result_path.
    change (".//{*}rule-result[@idref='" ++ spliced a b ++ "']")
      with (".//{*}rule-result[@idref='" ++ spliced a b ++ ("'" ++ "]")).
    rewrite <- !append_assoc. apply (take_last_app _ "]"). }
  rewrite Hlast. cbn [String.eqb Ascii.eqb Bool.eqb].
  unfold ElementPath.xpath_tokenizer. rewrite (tokens_spliced_path _ _ Ha Hb).
  cbn [map ElementPath.check_prefix snd].
  cbn -[Py.take Py.drop String.length].
  rewrite !unquote. reflexivity.
Qed.

Lemma find_spliced (root : ET.Element) (a b : string) :
  Py.contains ElementPath.squote a = false ->
  Py.contains ElementPath.squote b = false ->
  ElementPath.find root (rule_result_path (spliced a b))
  = Ok (hd_error (filter (idref_is b) (rule_results_for root a))).
Proof.
  intros Ha Hb. unfold ElementPath.find, ElementPath.iterfind.
  rewrite (compile_spliced_path _ _ Ha Hb).
  cbn [bind forallb ElementPath.is_selector andb fold_left ElementPath.select
       flat_map].
  rewrite app_nil_r, first_of_nodes. do 2 f_equal.
  unfold rule_results_for, elements_below.
  rewrite <- (map_snd_filter (local_name_is "rule-result")).
  rewrite <- (map_snd_filter (idref_is a)).
  rewrite <- (map_snd_filter (idref_is b)).
  reflexivity.
Qed.

Lemma idref_is_one (a b : string) (e : ET.Element) :
  idref_is a e = true -> a <> b -> idref_is b e = false.
Proof.
  unfold idref_is. destruct (ET.get (ET.attrib e) "idref") as [v|];
    [|discriminate].
  intros Hv Hne. apply String.eqb_eq in Hv. subst v.
  now apply String.eqb_neq.
Qed.

(** X26: a single quote in a rule identifier can also pass unnoticed: for
    an identifier made of two parts without single quote around the text
    that closes the predicate and opens a second one on idref, the search
    does not raise and returns the first rule-result element whose idref
    is both parts: the element of the first part when the two are the
    same, although its idref is not the identifier, and none when they
    differ. *)
Theorem quote_in_rule_id_splices_a_predicate (root : ET.Element)
        (rule : Rule.t) (a b : string) :
  Rule.rule_id rule = spliced a b ->
  Py.contains ElementPath.squote a = false ->
  Py.contains ElementPath.squote b = false ->
  search root rule
  = Ok (hd_error (filter (idref_is b) (rule_results_for root a))) /\
  (a = b -> search root rule = Ok (hd_error (rule_results_for root a))) /\
  (a <> b -> search root rule = Ok None).
Proof.
  intros Hid Ha Hb. unfold search. rewrite Hid, (find_spliced _ _ _ Ha Hb).
  split; [reflexivity|]. split.
  - intros <-. unfold rule_results_for. now rewrite filter_idem.
  - intros Hne. rewrite filter_nothing; [reflexivity|].
    intros e He. unfold rule_results_for in He. apply filter_In in He as [_ He].
    exact (idref_is_one a b e He Hne).
Qed.

Lemma quote_in_rule_id_splices_a_predicate_witness :
  let rule := Sample.rule 1 (spliced "r1" "r1") "COMPLIANT" in
  let other := Sample.rule 2 (spliced "r1" "r2") "COMPLIANT" in
  rule_results_for Sample.report (Rule.rule_id rule) = [] /\
  validate_xccdf_report (ET.WellFormed Sample.report)
                        (Sample.validator [rule; other])
  = (Ok (1, 1,
         [Verdict.mk 1 (spliced "r1" "r1") "" "COMPLIANT" "COMPLIANT" "PASS"
                     (check_mark ++ " Match");
          Verdict.mk 2 (spliced "r1" "r2") "" "COMPLIANT" "NOT FOUND" "FAIL"
                     "Rule not found in XCCDF report"])%Z,
     mkExcelValidator [rule; other] [rule; other]
       [Verdict.mk 1 (spliced "r1" "r1") "" "COMPLIANT" "COMPLIANT" "PASS"
                   (check_mark ++ " Match");
        Verdict.mk 2 (spliced "r1" "r2") "" "COMPLIANT" "NOT FOUND" "FAIL"
                   "Rule not found in XCCDF report"]) /\
  search Sample.report rule
  = Ok (hd_error (rule_results_for Sample.report "r1")) /\
  search Sample.report other = Ok None.
Proof.
  intros rule other.
  split; [vm_compute; reflexivity|]. split; [vm_compute; reflexivity|].
  destruct (quote_in_rule_id_splices_a_predicate Sample.report rule "r1" "r1")
    as (_ & Hsame & _); [reflexivity | reflexivity | reflexivity|].
  destruct (quote_in_rule_id_splices_a_predicate Sample.report other "r1" "r2")
    as (_ & _ & Hdiff); [reflexivity | reflexivity | reflexivity|].
  split; [apply Hsame; reflexivity | apply Hdiff; discriminate].
Defined.

(* ===================================================================== *)
(** * The unfiltered rules *)

(** X27: the unfiltered rules are written and never read: what the loads,
    validate, the summary and the two lists of rules return is the same
    for two objects that differ in them alone. *)
Theorem all_rules_is_never_read (format_rate : Z -> Z -> string)
        (current all all' : list Rule.t) (results : list Verdict.t) :
  let self := mkExcelValidator current all results in
  let self' := mkExcelValidator current all' results in
  (forall xml_content,
      fst (validate_xccdf_report xml_content self)
      = fst (validate_xccdf_report xml_content self') /\
      validation_results (snd (validate_xccdf_report xml_content self))
      = validation_results (snd (validate_xccdf_report xml_content self'))) /\
  (forall csv_path csv_file profile_filter,
      fst (load_rules_from_csv csv_path csv_file profile_filter self)
      = fst (load_rules_from_csv csv_path csv_file profile_filter self') /\
      rules
        (snd (load_rules_from_csv csv_path csv_file profile_filter self))
      = rules
          (snd (load_rules_from_csv csv_path csv_file profile_filter self'))) /\
  (forall excel_path excel_file sheet_name profile_filter,
      fst (load_rules_from_excel excel_path excel_file sheet_name
                                 profile_filter self)
      = fst (load_rules_from_excel excel_path excel_file sheet_name
                                   profile_filter self') /\
      rules
        (snd (load_rules_from_excel excel_path excel_file sheet_name
                                    profile_filter self))
      = rules
          (snd (load_rules_from_excel excel_path excel_file sheet_name
                                      profile_filter self'))) /\
  get_validation_summary format_rate self
  = get_validation_summary format_rate self' /\
  get_failed_rules self = get_failed_rules self' /\
  get_passed_rules self = get_passed_rules self'.
Proof.
  intros self self'. repeat apply conj; try reflexivity.
  - intros xml_content. unfold validate_xccdf_report. cbn [rules].
    destruct current as [|rule rules']; [split; reflexivity|].
    destruct (bind _ _) as [[[p f] rs]|e]; split; reflexivity.
  - intros csv_path csv_file profile_filter. unfold load_rules_from_csv.
    destruct (Csv.read _ _ _); split; reflexivity.
  - intros excel_path excel_file sheet_name profile_filter.
    unfold load_rules_from_excel.
    destruct (Excel.read _ _ _ _); split; reflexivity.
Qed.

(* ===================================================================== *)
(** * A load that retains no rule, and the choice of the sheet *)

(** X28: a load that returns no rule, because the table has no row to read
    or because the profile filter matches none, replaces the rules of the
    object by the empty list, and the next validate raises the error that
    no rules are loaded, whatever the report. *)
Theorem validate_after_empty_load :
  (forall (csv_path : string) (csv_file : option Csv.file)
          (profile_filter : option string) (self self' : ExcelValidator)
          (xml_content : ET.document),
      load_rules_from_csv csv_path csv_file profile_filter self
      = (Ok [], self') ->
      rules self' = [] /\
      validate_xccdf_report xml_content self'
      = (Raise (ValueError no_rules_loaded), self')) /\
  (forall (excel_path : string) (excel_file : option Excel.workbook)
          (sheet_name profile_filter : option string)
          (self self' : ExcelValidator) (xml_content : ET.document),
      load_rules_from_excel excel_path excel_file sheet_name profile_filter self
      = (Ok [], self') ->
      rules self' = [] /\
      validate_xccdf_report xml_content self'
      = (Raise (ValueError no_rules_loaded), self')) /\
  (forall (csv_path : string) (csv_file : option Csv.file) (f : string)
          (self : ExcelValidator) (all : list Rule.t)
          (xml_content : ET.document),
      fst (load_rules_from_csv csv_path csv_file None self) = Ok all ->
      forallb (fun rule => negb (profile_is f rule)) all = true ->
      fst (validate_xccdf_report xml_content
             (snd (load_rules_from_csv csv_path csv_file (Some f) self)))
      = Raise (ValueError no_rules_loaded)).
Proof.
  repeat apply conj.
  - intros csv_path csv_file profile_filter self self' xml_content.
    unfold load_rules_from_csv.
    destruct (Csv.read _ _ _) as [loaded|e]; [|discriminate].
    intros [= -> <-]. split; reflexivity.
  - intros excel_path excel_file sheet_name profile_filter self self'
           xml_content.
    unfold load_rules_from_excel.
    destruct (Excel.read _ _ _ _) as [loaded|e]; [|discriminate].
    intros [= -> <-]. split; reflexivity.
  - intros csv_path csv_file f self all xml_content. rewrite fst_load_csv.
    intros Hall Hnone. unfold load_rules_from_csv.
    rewrite csv_read_filter, Hall. cbn [bind snd].
    rewrite filter_nothing; [reflexivity|].
    intros rule Hin. rewrite forallb_forall in Hnone.
    apply negb_true_iff, (Hnone rule Hin).
Qed.

Lemma validate_after_empty_load_witness :
  let loaded := mkExcelValidator Sample.table_rules Sample.table_rules [] in
  let emptied := mkExcelValidator [] Sample.table_rules [] in
  (load_rules_from_csv "rules.csv" (Some Sample.csv_table)
                       (Some "severity_cat_iii") loaded
   = (Ok [], emptied) /\
   load_rules_from_excel "rules.xlsx" (Some Sample.workbook) None
                         (Some "severity_cat_iii") loaded
   = (Ok [], emptied) /\
   fst (load_rules_from_csv "rules.csv" (Some Sample.csv_table) None loaded)
   = Ok Sample.table_rules /\
   forallb (fun rule => negb (profile_is "severity_cat_iii" rule))
           Sample.table_rules = true) /\
  (rules emptied = [] /\
   validate_xccdf_report (ET.WellFormed Sample.report) emptied
   = (Raise (ValueError no_rules_loaded), emptied)) /\
  (rules emptied = [] /\
   validate_xccdf_report ET.NotWellFormed emptied
   = (Raise (ValueError no_rules_loaded), emptied)) /\
  fst (validate_xccdf_report (ET.WellFormed Sample.report)
         (snd (load_rules_from_csv "rules.csv" (Some Sample.csv_table)
                                   (Some "severity_cat_iii") loaded)))
  = Raise (ValueError no_rules_loaded).
Proof.
  intros loaded emptied.
  destruct validate_after_empty_load as (Hcsv & Hxl & Hfilter).
  split; [repeat split; vm_compute; reflexivity|].
  split; [apply (Hcsv "rules.csv" (Some Sample.csv_table)
                      (Some "severity_cat_iii") loaded);
          vm_compute; reflexivity|].
  split; [apply (Hxl "rules.xlsx" (Some Sample.workbook) None
                     (Some "severity_cat_iii") loaded);
          vm_compute; reflexivity|].
  apply (Hfilter _ _ _ _ Sample.table_rules); vm_compute; reflexivity.
Defined.

Lemma find_sheet_absent (name : string) (sheets : list (string * Excel.worksheet)) :
  ~ In name (map fst sheets) ->
  find (fun s => fst s =? name) sheets = None.
Proof.
  induction sheets as [|[k v] sheets IH]; cbn [map fst In find]; [reflexivity|].
  intros H. destruct (String.eqb_spec k name); [tauto|]. apply IH. tauto.
Qed.

(** X29: the sheet is chosen by the truth of the name: the empty name
    reads the active sheet like no name; a name that no sheet has raises
    the key error of the workbook, whose message is "Worksheet", the name
    and "does not exist.", and leaves the object as it was; with a name
    the active sheet does not matter, and without one a workbook that has
    no active sheet raises a type error. *)
Theorem sheet_is_chosen_by_name (excel_path : string)
        (sheets : list (string * Excel.worksheet))
        (active : option Excel.worksheet) (profile_filter : option string)
        (self : ExcelValidator) :
  load_rules_from_excel excel_path (Some (Excel.mkWorkbook sheets active))
                        (Some "") profile_filter self
  = load_rules_from_excel excel_path (Some (Excel.mkWorkbook sheets active))
                          None profile_filter self /\
  (forall name, name <> "" -> ~ In name (map fst sheets) ->
                load_rules_from_excel excel_path
                  (Some (Excel.mkWorkbook sheets active)) (Some name)
                  profile_filter self
                = (Raise (KeyError ("Worksheet " ++ name
                                    ++ " does not exist.")), self)) /\
  (forall name active', name <> "" ->
                        load_rules_from_excel excel_path
                          (Some (Excel.mkWorkbook sheets active)) (Some name)
                          profile_filter self
                        = load_rules_from_excel excel_path
                            (Some (Excel.mkWorkbook sheets active'))
                            (Some name) profile_filter self) /\
  (active = None ->
   load_rules_from_excel excel_path (Some (Excel.mkWorkbook sheets active))
                         None profile_filter self
   = (Raise TypeError, self)).
Proof.
  repeat apply conj.
  - reflexivity.
  - intros [|c name] Hne Hout; [contradiction|].
    unfold load_rules_from_excel, Excel.read, Excel.select_sheet.
    cbn [Excel.sheets]. rewrite (find_sheet_absent _ _ Hout). reflexivity.
  - intros [|c name] active' Hne; [contradiction|]. reflexivity.
  - intros ->. reflexivity.
Qed.

Lemma sheet_is_chosen_by_name_witness :
  let sheets := [("Rules", Sample.worksheet)] in
  let other := Excel.mkWorksheet [Excel.CStr "NUMBER"] [] in
  load_rules_from_excel "rules.xlsx"
    (Some (Excel.mkWorkbook sheets (Some other))) (Some "rules") None init
  = (Raise (KeyError "Worksheet rules does not exist."), init) /\
  load_rules_from_excel "rules.xlsx"
    (Some (Excel.mkWorkbook sheets (Some other))) (Some "Rules") None init
  = load_rules_from_excel "rules.xlsx"
      (Some (Excel.mkWorkbook sheets None)) (Some "Rules") None init /\
  load_rules_from_excel "rules.xlsx" (Some (Excel.mkWorkbook sheets None))
                        None None init
  = (Raise TypeError, init).
Proof.
  intros sheets other.
  destruct (sheet_is_chosen_by_name "rules.xlsx" sheets (Some other) None init)
    as (_ & Hmissing & Hnamed & _).
  destruct (sheet_is_chosen_by_name "rules.xlsx" sheets None None init)
    as (_ & _ & _ & Hnone).
  split; [apply (Hmissing "rules"); [discriminate|]|].
  { cbn. intros [H|[]]. discriminate H. }
  split; [apply Hnamed; discriminate|].
  apply Hnone. reflexivity.
Defined.
